(** * IV_curve3: a shallow embedding of qkit/analysis/IV_curve3.py

    The analysis class [IV_curve3] is a Python object whose methods read and
    assign attributes of [self], allocate and mutate numpy arrays, and raise
    exceptions.  The embedding keeps that shape:

    - a method is a computation in the monad [M]: it takes the program state
      (the attributes of [self], the array objects on the heap, the file
      database, the files written) and either raises or returns a value and
      the next state;
    - a numpy array of floats is its shape and its row-major data, with
      binary64 entries ([PrimFloat]), so that NaN, comparison and division
      are the IEEE ones;
    - the numerical routines of numpy and scipy whose results depend on
      summation order or on LAPACK (means, FFT, least squares, Savitzky-Golay
      filter, peak finder) are the fields of the interface [Numerics]; every
      theorem holds for all its instances. *)

From Stdlib Require Import ZArith List Floats Bool Lia Ascii String.
From stdpp Require Import gmap strings pretty list.
Import ListNotations.

#[local] Set Warnings "-inexact-float,-register-all".

Local Open Scope string_scope.
Local Open Scope Z_scope.
Local Open Scope list_scope.
Local Open Scope nat_scope.

(** ** Exceptions, results *)

Inductive exn : Set :=
| AttributeError | AxisError | IndexError | KeyError | LinAlgError
| NotImplementedError | SystemError | TypeError | ValueError.

#[global] Instance exn_eq_dec : EqDecision exn.
Proof. solve_decision. Defined.

Inductive result (A : Type) : Type :=
| Ok (a : A)
| Raise (e : exn).

Arguments Ok {A} a.
Arguments Raise {A} e.

Definition rbind {A B} (r : result A) (k : A -> result B) : result B :=
  match r with
  | Ok a => k a
  | Raise e => Raise e
  end.

Notation "'try!' x ':=' r 'in' k" := (rbind r (fun x => k))
  (at level 10, x pattern, r at level 100, k at level 200).

Fixpoint rmap {A B} (f : A -> result B) (l : list A) : result (list B) :=
  match l with
  | [] => Ok []
  | a :: l' => try! b := f a in try! bs := rmap f l' in Ok (b :: bs)
  end.

Definition is_ok {A} (r : result A) : bool :=
  match r with Ok _ => true | Raise _ => false end.

(** ** binary64 *)

Definition nan : float := PrimFloat.nan.

(** [np.isnan] *)
Definition isnan (x : float) : bool := negb (PrimFloat.eqb x x).

(** A float literal equal to an integer, as Python converts [int] operands. *)
Definition of_Z (z : Z) : float :=
  match z with
  | Z0 => PrimFloat.zero
  | Zpos p => PrimFloat.of_uint63 (Uint63.of_Z (Zpos p))
  | Zneg p => PrimFloat.opp (PrimFloat.of_uint63 (Uint63.of_Z (Zpos p)))
  end.

(** ** numpy arrays: a shape and row-major data *)

Record nd (A : Type) : Type := mk_nd { shape : list nat; data : list A }.

Arguments mk_nd {A} shape data.
Arguments shape {A} n.
Arguments data {A} n.

Abbreviation farray := (nd float).

Definition prod_list (l : list nat) : nat := fold_right Nat.mul 1 l.

Definition ndim {A} (a : nd A) : nat := length (shape a).
Definition size {A} (a : nd A) : nat := prod_list (shape a).

(** A 1-D array from a list. *)
Definition vec {A} (l : list A) : nd A := mk_nd [length l] l.

(** A 0-d array (a numpy scalar). *)
Definition scalar {A} (x : A) : nd A := mk_nd [] [x].

(** ** The measurement store (qkit.storage.store.Data, qkit.fid, the
    measurement object): what [load] reads. *)

(** (start, stop, step) *)
Definition sweep : Type := float * float * float.

Inductive attr : Type := AInt (z : Z) | AStr (s : string).

Record dataset : Type := mk_dataset {
  ds_values : farray;               (* ds[:] *)
  ds_attrs : gmap string attr       (* ds.attrs *)
}.

Record datafile : Type := mk_datafile {
  df_path : string;                 (* qkit.fid.get(uuid) *)
  df_entries : gmap string dataset; (* df[url] *)
  mo_measurement_type : string;     (* mo.measurement_type *)
  mo_sweeps : list sweep;           (* mo.sample.sweeps *)
  mo_JSON : string                  (* mo.get_JSON() *)
}.

(** ** The attributes of [self], as [__init__] declares them.  The arrays
    I, V, V_corr and dVdI are references to array objects on the heap. *)

Definition loc : Type := nat.

Module self.

Record t : Type := mk {
  uuid : option string;
  path : option string;
  df : option datafile;
  m_type : option string;
  scan_dim : option Z;
  sweeptype : option Z;
  sweeps : option (list sweep);
  bias : option Z;
  I : option loc;
  V : option loc;
  V_corr : option loc;
  dVdI : option loc;
  I_offsets : option farray;
  V_offsets : option farray;
  I_offset : option float;
  V_offset : option float;
  x_ds : option dataset;
  x_coordname : option attr;
  x_unit : option attr;
  x_vec : option farray;
  y_ds : option dataset;
  y_coordname : option attr;
  y_unit : option attr;
  y_vec : option farray
}.

(** [__init__]: every attribute is None. *)
Definition __init__ : t :=
  mk None None None None None None None None None None None None
     None None None None None None None None None None None None.

Definition set_uuid (v : option string) (c : t) : t :=
  let '(mk a1 a2 a3 a4 a5 a6 a7 a8 a9 a10 a11 a12 a13 a14 a15 a16 a17 a18 a19 a20 a21 a22 a23 a24) := c in
  mk v a2 a3 a4 a5 a6 a7 a8 a9 a10 a11 a12 a13 a14 a15 a16 a17 a18 a19 a20 a21 a22 a23 a24.
Definition set_path (v : option string) (c : t) : t :=
  let '(mk a1 a2 a3 a4 a5 a6 a7 a8 a9 a10 a11 a12 a13 a14 a15 a16 a17 a18 a19 a20 a21 a22 a23 a24) := c in
  mk a1 v a3 a4 a5 a6 a7 a8 a9 a10 a11 a12 a13 a14 a15 a16 a17 a18 a19 a20 a21 a22 a23 a24.
Definition set_df (v : option datafile) (c : t) : t :=
  let '(mk a1 a2 a3 a4 a5 a6 a7 a8 a9 a10 a11 a12 a13 a14 a15 a16 a17 a18 a19 a20 a21 a22 a23 a24) := c in
  mk a1 a2 v a4 a5 a6 a7 a8 a9 a10 a11 a12 a13 a14 a15 a16 a17 a18 a19 a20 a21 a22 a23 a24.
Definition set_m_type (v : option string) (c : t) : t :=
  let '(mk a1 a2 a3 a4 a5 a6 a7 a8 a9 a10 a11 a12 a13 a14 a15 a16 a17 a18 a19 a20 a21 a22 a23 a24) := c in
  mk a1 a2 a3 v a5 a6 a7 a8 a9 a10 a11 a12 a13 a14 a15 a16 a17 a18 a19 a20 a21 a22 a23 a24.
Definition set_scan_dim (v : option Z) (c : t) : t :=
  let '(mk a1 a2 a3 a4 a5 a6 a7 a8 a9 a10 a11 a12 a13 a14 a15 a16 a17 a18 a19 a20 a21 a22 a23 a24) := c in
  mk a1 a2 a3 a4 v a6 a7 a8 a9 a10 a11 a12 a13 a14 a15 a16 a17 a18 a19 a20 a21 a22 a23 a24.
Definition set_sweeptype (v : option Z) (c : t) : t :=
  let '(mk a1 a2 a3 a4 a5 a6 a7 a8 a9 a10 a11 a12 a13 a14 a15 a16 a17 a18 a19 a20 a21 a22 a23 a24) := c in
  mk a1 a2 a3 a4 a5 v a7 a8 a9 a10 a11 a12 a13 a14 a15 a16 a17 a18 a19 a20 a21 a22 a23 a24.
Definition set_sweeps (v : option (list sweep)) (c : t) : t :=
  let '(mk a1 a2 a3 a4 a5 a6 a7 a8 a9 a10 a11 a12 a13 a14 a15 a16 a17 a18 a19 a20 a21 a22 a23 a24) := c in
  mk a1 a2 a3 a4 a5 a6 v a8 a9 a10 a11 a12 a13 a14 a15 a16 a17 a18 a19 a20 a21 a22 a23 a24.
Definition set_bias (v : option Z) (c : t) : t :=
  let '(mk a1 a2 a3 a4 a5 a6 a7 a8 a9 a10 a11 a12 a13 a14 a15 a16 a17 a18 a19 a20 a21 a22 a23 a24) := c in
  mk a1 a2 a3 a4 a5 a6 a7 v a9 a10 a11 a12 a13 a14 a15 a16 a17 a18 a19 a20 a21 a22 a23 a24.
Definition set_I (v : option loc) (c : t) : t :=
  let '(mk a1 a2 a3 a4 a5 a6 a7 a8 a9 a10 a11 a12 a13 a14 a15 a16 a17 a18 a19 a20 a21 a22 a23 a24) := c in
  mk a1 a2 a3 a4 a5 a6 a7 a8 v a10 a11 a12 a13 a14 a15 a16 a17 a18 a19 a20 a21 a22 a23 a24.
Definition set_V (v : option loc) (c : t) : t :=
  let '(mk a1 a2 a3 a4 a5 a6 a7 a8 a9 a10 a11 a12 a13 a14 a15 a16 a17 a18 a19 a20 a21 a22 a23 a24) := c in
  mk a1 a2 a3 a4 a5 a6 a7 a8 a9 v a11 a12 a13 a14 a15 a16 a17 a18 a19 a20 a21 a22 a23 a24.
Definition set_V_corr (v : option loc) (c : t) : t :=
  let '(mk a1 a2 a3 a4 a5 a6 a7 a8 a9 a10 a11 a12 a13 a14 a15 a16 a17 a18 a19 a20 a21 a22 a23 a24) := c in
  mk a1 a2 a3 a4 a5 a6 a7 a8 a9 a10 v a12 a13 a14 a15 a16 a17 a18 a19 a20 a21 a22 a23 a24.
Definition set_dVdI (v : option loc) (c : t) : t :=
  let '(mk a1 a2 a3 a4 a5 a6 a7 a8 a9 a10 a11 a12 a13 a14 a15 a16 a17 a18 a19 a20 a21 a22 a23 a24) := c in
  mk a1 a2 a3 a4 a5 a6 a7 a8 a9 a10 a11 v a13 a14 a15 a16 a17 a18 a19 a20 a21 a22 a23 a24.
Definition set_offsets (vi vv : option farray) (c : t) : t :=
  let '(mk a1 a2 a3 a4 a5 a6 a7 a8 a9 a10 a11 a12 a13 a14 a15 a16 a17 a18 a19 a20 a21 a22 a23 a24) := c in
  mk a1 a2 a3 a4 a5 a6 a7 a8 a9 a10 a11 a12 vi vv a15 a16 a17 a18 a19 a20 a21 a22 a23 a24.
Definition set_offset (vi vv : option float) (c : t) : t :=
  let '(mk a1 a2 a3 a4 a5 a6 a7 a8 a9 a10 a11 a12 a13 a14 a15 a16 a17 a18 a19 a20 a21 a22 a23 a24) := c in
  mk a1 a2 a3 a4 a5 a6 a7 a8 a9 a10 a11 a12 a13 a14 vi vv a17 a18 a19 a20 a21 a22 a23 a24.
Definition set_x (d : option dataset) (n u : option attr) (v : option farray) (c : t) : t :=
  let '(mk a1 a2 a3 a4 a5 a6 a7 a8 a9 a10 a11 a12 a13 a14 a15 a16 a17 a18 a19 a20 a21 a22 a23 a24) := c in
  mk a1 a2 a3 a4 a5 a6 a7 a8 a9 a10 a11 a12 a13 a14 a15 a16 d n u v a21 a22 a23 a24.
Definition set_y (d : option dataset) (n u : option attr) (v : option farray) (c : t) : t :=
  let '(mk a1 a2 a3 a4 a5 a6 a7 a8 a9 a10 a11 a12 a13 a14 a15 a16 a17 a18 a19 a20 a21 a22 a23 a24) := c in
  mk a1 a2 a3 a4 a5 a6 a7 a8 a9 a10 a11 a12 a13 a14 a15 a16 a17 a18 a19 a20 d n u v.

End self.

(** ** Values that [save] writes (the arguments of json.dump) *)

Inductive jval : Type :=
| JNone
| JInt (z : Z)
| JFloat (x : float)
| JStr (s : string)
| JArray (a : farray)
| JSweeps (l : list sweep)
| JAttr (a : attr).

(** ** Program state and the monad of methods *)

Record state : Type := mk_state {
  obj : self.t;                        (* the attributes of self *)
  heap : list farray;                  (* array objects; a reference is an index *)
  fid : gmap string datafile;          (* qkit.fid: uuid -> measurement file *)
  disk : gmap string (gmap string jval)  (* files written by save *)
}.

Definition M (A : Type) : Type := state -> result (A * state).

Definition ret {A} (a : A) : M A := fun st => Ok (a, st).

Definition bind {A B} (m : M A) (k : A -> M B) : M B :=
  fun st => match m st with
            | Ok (a, st') => k a st'
            | Raise e => Raise e
            end.

Definition raise {A} (e : exn) : M A := fun _ => Raise e.

Definition lift {A} (r : result A) : M A :=
  fun st => match r with Ok a => Ok (a, st) | Raise e => Raise e end.

Notation "'let*' x ':=' m 'in' k" := (bind m (fun x => k))
  (at level 10, x pattern, m at level 100, k at level 200).

Notation "m ;; k" := (bind m (fun _ => k))
  (at level 100, k at level 200, right associativity).

Definition get_self : M self.t := fun st => Ok (obj st, st).

Definition set_self (f : self.t -> self.t) : M unit :=
  fun st => Ok (tt, mk_state (f (obj st)) (heap st) (fid st) (disk st)).

(** [try: m except E: h], for a body [m] that leaves the state as it found
    it (every try block of the class calls a function and binds a name). *)
Definition try_except {A} (m : M A) (catches : exn -> bool) (h : exn -> M A) : M A :=
  fun st => match m st with
            | Ok r => Ok r
            | Raise e => if catches e then h e st else Raise e
            end.

Fixpoint mapM {A B} (f : A -> M B) (l : list A) : M (list B) :=
  match l with
  | [] => ret []
  | a :: l' => let* b := f a in let* bs := mapM f l' in ret (b :: bs)
  end.

(** *** Array objects *)

(** A new array object; its reference is the next free index. *)
Definition alloc (a : farray) : M loc :=
  fun st => Ok (length (heap st),
                mk_state (obj st) (heap st ++ [a]) (fid st) (disk st)).

(** The array a reference points to.  A reference held by a Python name
    always points to an object; one that does not is an interpreter fault. *)
Definition deref (l : loc) : M farray :=
  fun st => match heap st !! l with
            | Some a => Ok (a, st)
            | None => Raise SystemError
            end.

(** In-place update of an array object. *)
Definition update (l : loc) (f : farray -> result farray) : M unit :=
  fun st => match heap st !! l with
            | Some a =>
                match f a with
                | Ok a' => Ok (tt, mk_state (obj st) (<[l := a']> (heap st)) (fid st) (disk st))
                | Raise e => Raise e
                end
            | None => Raise SystemError
            end.

(** [np.copy]: a new object with the same contents. *)
Definition np_copy (l : loc) : M loc := let* a := deref l in alloc a.

(** [all(a == b)] for two float arrays of the same length *)
Definition all_eq (a b : list float) : bool :=
  forallb (fun p => PrimFloat.eqb (fst p) (snd p)) (combine a b).

(** ** The numpy operations the class uses, on shape and row-major data *)

Section arrays.
Context {A : Type}.

(** [n] consecutive runs of [sz] entries. *)
Fixpoint chunks (n sz : nat) (l : list A) : list (list A) :=
  match n with
  | O => []
  | S n' => firstn sz l :: chunks n' sz (skipn sz l)
  end.

(** Iteration over an array (and [a[k]] for each k): the sub-arrays along
    the first axis.  A 0-d array is not iterable. *)
Definition rows (a : nd A) : result (list (nd A)) :=
  match shape a with
  | [] => Raise TypeError
  | n :: sh => Ok (map (mk_nd sh) (chunks n (prod_list sh) (data a)))
  end.

(** A Python index into an axis of length [n]: negative indices count from
    the end, anything outside [-n, n) is an IndexError. *)
Definition py_index (n : nat) (k : Z) : result nat :=
  if (0 <=? k)%Z && (k <? Z.of_nat n)%Z then Ok (Z.to_nat k)
  else if (- Z.of_nat n <=? k)%Z && (k <? 0)%Z then Ok (Z.to_nat (Z.of_nat n + k))
  else Raise IndexError.

(** [a[k]] *)
Definition row (k : Z) (a : nd A) : result (nd A) :=
  match shape a with
  | [] => Raise IndexError
  | n :: sh =>
      try! i := py_index n k in
      Ok (mk_nd sh (firstn (prod_list sh) (skipn (i * prod_list sh) (data a))))
  end.

(** [a[j] = v] for a value of the shape of a row. *)
Definition set_chunk (j sz : nat) (v l : list A) : list A :=
  firstn (j * sz) l ++ v ++ skipn (j * sz + sz) l.

(** [np.array([r0, r1, ...])] for arrays: equal shapes stack along a new
    first axis, unequal shapes are refused. *)
Definition same_shape (sh : list nat) (r : nd A) : bool :=
  bool_decide (shape r = sh).

Definition stack (rs : list (nd A)) : result (nd A) :=
  match rs with
  | [] => Ok (mk_nd [0] [])
  | r :: _ =>
      if forallb (same_shape (shape r)) rs
      then Ok (mk_nd (length rs :: shape r) (concat (map data rs)))
      else Raise ValueError
  end.

(** [a[::2]] and [a[1::2]] along the first axis *)
Fixpoint every_other (l : list A) : list A :=
  match l with
  | x :: _ :: l' => x :: every_other l'
  | _ => l
  end.

(** The multi-index of a flat position, and back. *)
Fixpoint unravel (sh : list nat) (k : nat) : list nat :=
  match sh with
  | [] => []
  | n :: sh' => (k / prod_list sh') mod n :: unravel sh' (k mod prod_list sh')
  end.

Fixpoint ravel (sh idx : list nat) : nat :=
  match sh, idx with
  | n :: sh', i :: idx' => i * prod_list sh' + ravel sh' idx'
  | _, _ => 0
  end.

(** Broadcasting: shapes are aligned at their last axis; an axis of
    length 1 stretches; any other mismatch is a ValueError. *)
Fixpoint bcast_rev (a b : list nat) : result (list nat) :=
  match a, b with
  | [], _ => Ok b
  | _, [] => Ok a
  | x :: a', y :: b' =>
      try! r := bcast_rev a' b' in
      if x =? y then Ok (x :: r)
      else if x =? 1 then Ok (y :: r)
      else if y =? 1 then Ok (x :: r)
      else Raise ValueError
  end.

Definition broadcast_shape (a b : list nat) : result (list nat) :=
  try! r := bcast_rev (rev a) (rev b) in Ok (rev r).

(** The entry of [a] seen at multi-index [idx] of a shape it broadcasts to. *)
Definition bcast_index (sh : list nat) (idx : list nat) : nat :=
  let idx' := skipn (length idx - length sh) idx in
  ravel sh (map (fun p => if fst p =? 1 then 0 else snd p) (combine sh idx')).

Definition broadcast_to (a : nd A) (sh : list nat) : result (nd A) :=
  if bool_decide (shape a = sh) then Ok (mk_nd sh (data a))
  else
    try! r := broadcast_shape (shape a) sh in
    if bool_decide (r = sh)
    then Ok (mk_nd sh (omap (fun k => data a !! bcast_index (shape a) (unravel sh k))
                            (seq 0 (prod_list sh))))
    else Raise ValueError.

(** Boolean-mask selection [a[mask]] with a mask of the shape of [a]: the
    selected entries, as a 1-D array. *)
Definition select (a : nd A) (mask : nd bool) : result (nd A) :=
  if bool_decide (shape a = shape mask)
  then Ok (vec (map fst (List.filter (fun p => snd p : bool) (combine (data a) (data mask)))))
  else Raise IndexError.

(** [np.place(a, mask, v)]: entries under a true mask bit become [v];
    sizes must agree. *)
Definition place (mask : nd bool) (v : A) (a : nd A) : result (nd A) :=
  if length (data a) =? length (data mask)
  then Ok (mk_nd (shape a)
             (map (fun p => if (snd p : bool) then v else fst p) (combine (data a) (data mask))))
  else Raise ValueError.

(** [np.concatenate] of 1-D arrays. *)
Definition concatenate (l : list (nd A)) : result (nd A) :=
  match l with
  | [] => Raise ValueError
  | _ => if forallb (fun a => ndim a =? 1) l
         then Ok (vec (concat (map data l)))
         else Raise ValueError
  end.

(** Reduction along one axis: the entries that differ only in the index of
    axis [k] are handed to [f]; the axis disappears. *)
Definition reduce_axis {B} (f : list A -> B) (k : nat) (a : nd A) : result (nd B) :=
  if k <? ndim a then
    let pre := firstn k (shape a) in
    let n := nth k (shape a) 0 in
    let post := skipn (S k) (shape a) in
    let inner := prod_list post in
    Ok (mk_nd (pre ++ post)
          (flat_map (fun o =>
             map (fun p =>
                f (omap (fun t => data a !! ((o * n + t) * inner + p)) (seq 0 n)))
               (seq 0 inner))
             (seq 0 (prod_list pre))))
  else Raise AxisError.

End arrays.

(** Elementwise operations. *)
Definition nd_map {A B} (f : A -> B) (a : nd A) : nd B :=
  mk_nd (shape a) (map f (data a)).

Definition nd_map2 {A B C} (f : A -> B -> C) (a : nd A) (b : nd B) : result (nd C) :=
  if bool_decide (shape a = shape b)
  then Ok (mk_nd (shape a) (map (fun p => f (fst p) (snd p)) (combine (data a) (data b))))
  else
    try! sh := broadcast_shape (shape a) (shape b) in
    try! a' := broadcast_to a sh in
    try! b' := broadcast_to b sh in
    Ok (mk_nd sh (map (fun p => f (fst p) (snd p)) (combine (data a') (data b')))).

Definition np_isnan (a : farray) : nd bool := nd_map isnan a.
Definition np_logical_not (m : nd bool) : nd bool := nd_map negb m.
Definition np_logical_and (m1 m2 : nd bool) : result (nd bool) := nd_map2 andb m1 m2.

(** [a >= c] and [a <= c] for a float c *)
Definition ge_scalar (a : farray) (c : float) : nd bool := nd_map (fun x => PrimFloat.leb c x) a.
Definition le_scalar (a : farray) (c : float) : nd bool := nd_map (fun x => PrimFloat.leb x c) a.

(** [a.any()] for an integer array *)
Definition any_nonzero (l : list Z) : bool := existsb (fun z => negb (z =? 0)%Z) l.

(** The truth value of an array, as [if a:] takes it: an array with more
    than one element has none. *)
Definition truth (a : farray) : result bool :=
  match data a with
  | [] => Ok false
  | [x] => Ok (negb (PrimFloat.eqb x 0))
  | _ => Raise ValueError
  end.

(** [np.array_equal]: same shape and every pair of entries equal under ==
    (so an array holding a NaN equals no array, itself included). *)
Definition np_array_equal (a b : farray) : bool :=
  bool_decide (shape a = shape b) && all_eq (data a) (data b).

(** ** Python values passed as keyword arguments *)

Inductive pyval : Type :=
| VNone
| VInt (z : Z)
| VFloat (x : float)
| VArange (n : nat).          (* np.arange(n) *)

(** [kwargs.setdefault]: [if k not in kwargs.keys(): kwargs[k] = v] *)
Definition setdefault (k : string) (v : pyval) (kw : gmap string pyval) : gmap string pyval :=
  match kw !! k with
  | Some _ => kw
  | None => <[k := v]> kw
  end.

(** ** What a peak finder returns *)

(** An index array: integers, or booleans as in the [np.array([False])]
    that stands for "no peaks found". *)
Inductive indices : Type := Ints (l : list Z) | Bools (l : list bool).

Definition complex : Type := float * float.

Inductive propval : Type :=
| PFloats (l : list float)
| PComplex (l : list complex)
| PInts (l : list Z)
| PIndex (l : indices).

(** [scipy.signal.find_peaks] returns the pair (indices, properties);
    [scipy.signal.find_peaks_cwt] returns the bare index array. *)
Inductive found : Type :=
| Peaks (indices : indices) (properties : gmap string propval)
| PeakArray (indices : list Z).

(** ** The numerical library: numpy and scipy routines whose values depend
    on summation order, on LAPACK or on libm, and the contents of memory
    that [np.empty] does not initialise. *)

Class Numerics : Type := {
  (** entry [k] of the new array object [l] that np.empty returns *)
  uninit : loc -> nat -> float;
  (** scipy.signal.savgol_filter(x, **kwargs) *)
  sig_savgol_filter : gmap string pyval -> farray -> result farray;
  (** np.gradient(x, **kwargs) *)
  np_gradient : gmap string pyval -> farray -> result farray;
  (** np.mean and np.nanmean of a run of floats; np.nanmin and np.nanmax of
      a run that is not empty (their callers refuse an empty one with
      ValueError, as numpy does) *)
  np_mean : list float -> float;
  np_nanmean : list float -> float;
  np_nanmin : list float -> float;
  np_nanmax : list float -> float;
  (** scipy.signal.find_peaks(x, **kwargs), scipy.signal.find_peaks_cwt(x, **kwargs) *)
  sig_find_peaks : gmap string pyval -> farray -> result found;
  sig_find_peaks_cwt : gmap string pyval -> farray -> result found;
  (** the least-squares line through at least two points: slope and
      intercept from the QR factors, LinAlgError for a singular R *)
  qr_solve : list float -> list float -> result (float * float);
  (** np.linspace(start, stop, num) *)
  np_linspace : float -> float -> nat -> list float;
  (** np.fft.fft, np.fft.ifft of a run; np.fft.fftfreq(n); np.exp; abs of a complex *)
  np_fft : list complex -> list complex;
  np_ifft : list complex -> list complex;
  np_fftfreq : nat -> list float;
  np_exp : float -> float;
  np_abs : complex -> float
}.

(** ** Sweep topology *)

(** [np.array(s)[[1, 0, 2]]] *)
Definition swapped (s : sweep) : list float := let '(a, b, c) := s in [b; a; c].

(** [np.array(s)[:3]] *)
Definition first3 (s : sweep) : list float := let '(a, b, c) := s in [a; b; c].

(** The pairwise relation of a sweep and its return sweep. *)
Definition returns (s0 s1 : sweep) : bool := all_eq (swapped s0) (first3 s1).

Definition get_sweeptype (sweeps : option (list sweep)) : M (option Z) :=
  let* s := get_self in
  let sweeps := match sweeps with None => self.sweeps s | Some _ => sweeps end in
  match sweeps with
  | None => raise TypeError                 (* len(None) *)
  | Some sweeps =>
      (match sweeps with
       | [s0; s1] =>                        (* check if sweeps are halfswing *)
           if returns s0 s1 then set_self (self.set_sweeptype (Some 0%Z)) else ret tt
       | [s0; s1; s2; s3] =>                (* check if sweeps are 4quadrants *)
           if returns s0 s1 && returns s2 s3
           then set_self (self.set_sweeptype (Some 1%Z)) else ret tt
       | _ => set_self (self.set_sweeptype None)
       end) ;;
      let* s := get_self in
      ret (self.sweeptype s)
  end.

(** The rule of the specification: the topology of a set of sweeps, None
    for custom. *)
Definition topology (sweeps : list sweep) : option Z :=
  match sweeps with
  | [s0; s1] => if returns s0 s1 then Some 0%Z else None
  | [s0; s1; s2; s3] => if returns s0 s1 && returns s2 s3 then Some 1%Z else None
  | _ => None
  end.

(** ** Numerical differentiation *)

(** The function object passed as [mode]. *)
Inductive strategy : Type :=
| savgol_filter                   (* scipy.signal.savgol_filter *)
| gradient                        (* numpy.gradient *)
| other_mode (f : gmap string pyval -> farray -> result farray).

(** [str.format] with the presentation type 's' on an exception object:
    BaseException inherits [object.__format__], which raises TypeError for a
    non-empty format specification. *)
Definition format_s (e : exn) : result string := Raise TypeError.

Section differentiation.
Context {N : Numerics}.

(** [mode(x, **kwargs)] *)
Definition call_mode (mode : strategy) (kw : gmap string pyval) (x : farray) : result farray :=
  match mode with
  | savgol_filter => sig_savgol_filter kw x
  | gradient => np_gradient kw x
  | other_mode f => f kw x
  end.

(** The keyword arguments after the defaults of the chosen strategy. *)
Definition mode_defaults (s : self.t) (mode : strategy) (kw : gmap string pyval) : gmap string pyval :=
  match mode with
  | savgol_filter =>
      setdefault "deriv" (VInt 1)
        (setdefault "polyorder" (VInt 3)
           (setdefault "window_length" (VInt 15) kw))
  | gradient =>
      setdefault "axis" (match self.scan_dim s with Some d => VInt d | None => VNone end) kw
  | other_mode _ => kw
  end.

(** [np.concatenate([mode(a[np.logical_not(nans)], **kwargs), a[nans]])] *)
Definition strip_differentiate_append (mode : strategy) (kw : gmap string pyval) (a : farray) : result farray :=
  let nans := np_isnan a in
  try! finite := select a (np_logical_not nans) in
  try! d := call_mode mode kw finite in
  try! tail := select a nans in
  concatenate [d; tail].

Definition get_dydx (y : farray) (x : option farray) (mode : strategy) (kw : gmap string pyval) : M farray :=
  let* s := get_self in
  let kw := mode_defaults s mode kw in
  match x with
  | None =>
      try_except
        (lift (call_mode mode kw y))
        (fun _ => true)
        (fun e =>
           let* _ := lift (format_s e) in          (* print('{:s}...'.format(e)) *)
           lift (strip_differentiate_append mode kw y))
  | Some x =>
      try_except
        (lift (try! dy := call_mode mode kw y in
               try! dx := call_mode mode kw x in
               nd_map2 PrimFloat.div dy dx))
        (fun _ => true)
        (fun e =>
           let* _ := lift (format_s e) in          (* print('{:s}...'.format(e)) *)
           lift (try! dy := strip_differentiate_append mode kw y in
                 try! dx := strip_differentiate_append mode kw x in
                 nd_map2 PrimFloat.div dy dx))
  end.

(** [get_dVdI]: dV/dI of the given or the loaded arrays, kept in self.dVdI.
    A missing y (None) is refused by the strategy, and the handler of
    [get_dydx] then fails in its format call. *)
Definition get_dVdI (I V : option loc) (mode : strategy) (kw : gmap string pyval) : M loc :=
  let* s := get_self in
  let y := match V with None => self.V s | Some _ => V end in
  let x := match I with None => self.I s | Some _ => I end in
  match y with
  | None => raise TypeError
  | Some y =>
      let* ya := deref y in
      let* xa := match x with
                 | None => ret None
                 | Some x => let* xa := deref x in ret (Some xa)
                 end in
      let* d := get_dydx ya xa mode kw in
      let* l := alloc d in
      set_self (self.set_dVdI (Some l)) ;;
      ret l
  end.

End differentiation.

(** ** Loading a measurement *)

(** [df[url]] *)
Definition df_get (df : datafile) (url : string) : result dataset :=
  match df_entries df !! url with
  | Some ds => Ok ds
  | None => Raise KeyError
  end.

(** [df.data.<name>]: the dataset entry/data0/<name> as an attribute *)
Definition df_data (df : datafile) (name : string) : result dataset :=
  match df_entries df !! ("entry/data0/" +:+ name) with
  | Some ds => Ok ds
  | None => Raise AttributeError
  end.

(** [ds.attrs[key]] *)
Definition attrs_get (ds : dataset) (key : string) : result attr :=
  match ds_attrs ds !! key with
  | Some a => Ok a
  | None => Raise KeyError
  end.

(** ['{:d}'.format(j)] *)
Definition format_d (j : nat) : string := pretty j.

(** [chr(z)] for a code point below 256; None stands for a character
    outside Latin-1, which no attribute name of a measurement file holds. *)
Definition py_chr (z : Z) : result (option string) :=
  if (0 <=? z)%Z && (z <? 256)%Z
  then Ok (Some (String (Ascii.ascii_of_nat (Z.to_nat z)) EmptyString))
  else if (256 <=? z)%Z && (z <? 1114112)%Z then Ok None
  else Raise ValueError.

(** The truth value and [str()] of what [attrs.get] returns. *)
Definition attr_truthy (a : option attr) : bool :=
  match a with
  | None => false
  | Some (AInt z) => negb (z =? 0)%Z
  | Some (AStr s) => negb (bool_decide (s = ""))
  end.

Definition attr_str (a : option attr) : string :=
  match a with
  | None => "None"
  | Some (AInt z) => pretty z
  | Some (AStr s) => s
  end.

(** [s.split('/')[-1]] *)
Fixpoint last_component (s : string) : string :=
  match s with
  | EmptyString => EmptyString
  | String c s' =>
      if existsb (Ascii.eqb "/"%char) (list_ascii_of_string s')
      then last_component s'
      else if Ascii.eqb c "/"%char then s' else s
  end.

(** [get_bias]: 0 (current) or 1 (voltage), read off the first letter of
    the dataset the sweep axis of i_0 and v_0 points to. *)
Definition get_bias (df : option datafile) : M Z :=
  let* s := get_self in
  let df := match df with None => self.df s | Some _ => df end in
  match df, self.scan_dim s with
  | None, _ => raise AttributeError
  | Some _, None => raise TypeError
  | Some df, Some d =>
      let* axis := lift (py_chr (d + 119)) in
      let key := match axis with Some c => Some (c +:+ "_ds_url") | None => None end in
      let* i_0 := lift (df_data df "i_0") in
      let ai := match key with Some k => ds_attrs i_0 !! k | None => None end in
      let* a := if attr_truthy ai
                then let* v_0 := lift (df_data df "v_0") in
                     ret (match key with Some k => ds_attrs v_0 !! k | None => None end)
                else ret ai in
      match last_component (attr_str a) with
      | EmptyString => raise IndexError
      | String c _ =>
          let* b := if Ascii.eqb c "i"%char then ret 0%Z
                    else if Ascii.eqb c "v"%char then ret 1%Z
                    else raise KeyError in
          set_self (self.set_bias (Some b)) ;;
          ret b
      end
  end.

(** [np.max(shapes, axis=0)]: the entrywise maximum of shape tuples of one
    length. *)
Fixpoint zip_with_strict {A B C} (f : A -> B -> C) (a : list A) (b : list B) : result (list C) :=
  match a, b with
  | [], [] => Ok []
  | x :: a', y :: b' => try! r := zip_with_strict f a' b' in Ok (f x y :: r)
  | _, _ => Raise ValueError
  end.

Fixpoint shape_max (shapes : list (list nat)) : result (list nat) :=
  match shapes with
  | [] => Raise ValueError
  | [sh] => Ok sh
  | sh :: rest => try! m := shape_max rest in zip_with_strict Nat.max sh m
  end.

(** [np.pad(a, pad_width, 'constant', constant_values=c)] *)
Definition padded_shape (sh : list nat) (pw : list (nat * nat)) : list nat :=
  map (fun p => fst (snd p) + fst p + snd (snd p)) (combine sh pw).

Fixpoint pad_data {A} (sh : list nat) (pw : list (nat * nat)) (c : A) (l : list A) : list A :=
  match sh, pw with
  | n :: sh', (before, after) :: pw' =>
      let inner := prod_list (padded_shape sh' pw') in
      repeat c (before * inner)
        ++ flat_map (pad_data sh' pw' c) (chunks n (prod_list sh') l)
        ++ repeat c (after * inner)
  | _, _ => l
  end.

(** The (before, after) rows of a pad_width array: one row per axis, or a
    single row for every axis; a negative width is refused. *)
Definition pad_pairs (pw : list (Z * Z)) (rank : nat) : result (list (nat * nat)) :=
  if existsb (fun p => (fst p <? 0)%Z || (snd p <? 0)%Z) pw then Raise ValueError
  else
    let pw' := map (fun p => (Z.to_nat (fst p), Z.to_nat (snd p))) pw in
    if length pw' =? rank then Ok pw'
    else match pw' with
         | [p] => Ok (repeat p rank)
         | _ => Raise ValueError
         end.

Definition np_pad {A} (a : nd A) (pw : list (Z * Z)) (c : A) : result (nd A) :=
  try! pw' := pad_pairs pw (ndim a) in
  Ok (mk_nd (padded_shape (shape a) pw') (pad_data (shape a) pw' c (data a))).

(** Padding at the end of the last axis only: each of the [outer] traces of
    length [L] is followed by [c] copies of the fill value. *)
Definition pad_last {A} (outer L c : nat) (fill : A) (l : list A) : list A :=
  flat_map (fun trace => trace ++ repeat fill c) (chunks outer L l).

(** [.reshape(d, 2)] of a flat integer array *)
Fixpoint pairs (l : list Z) : list (Z * Z) :=
  match l with
  | a :: b :: l' => (a, b) :: pairs l'
  | _ => []
  end.

(** [np.insert(np.diff([ishape, target], axis=0), (0,), np.zeros(d)).reshape(d, 2)] *)
Definition pad_width_of (ishape target : list nat) (d : Z) : result (list (Z * Z)) :=
  try! diff := zip_with_strict (fun s t => (Z.of_nat t - Z.of_nat s)%Z) ishape target in
  if (d <? 0)%Z then Raise ValueError
  else
    let flat := repeat 0%Z (Z.to_nat d) ++ diff in
    if length flat =? 2 * Z.to_nat d then Ok (pairs flat) else Raise ValueError.

(** [a[j] = v]: v is broadcast to the shape of a row (leading axes of
    length 1 beyond the row's rank are dropped first). *)
Fixpoint strip_ones (extra : nat) (sh : list nat) : list nat :=
  match extra, sh with
  | S e, 1 :: sh' => strip_ones e sh'
  | _, _ => sh
  end.

Definition assign_row {A} (j : nat) (v : nd A) (a : nd A) : result (nd A) :=
  match shape a with
  | [] => Raise IndexError
  | n :: sh =>
      if j <? n then
        let v := mk_nd (strip_ones (ndim v - length sh) (shape v)) (data v) in
        try! v' := broadcast_to v sh in
        Ok (mk_nd (shape a) (set_chunk j (prod_list sh) (data v') (data a)))
      else Raise IndexError
  end.

Fixpoint for_each {A} (l : list A) (body : A -> M unit) : M unit :=
  match l with
  | [] => ret tt
  | a :: l' => body a ;; for_each l' body
  end.

Section loading.
Context {N : Numerics}.

(** [np.empty(shape)]: a new array object with whatever memory holds. *)
Definition np_empty (sh : list nat) : M loc :=
  fun st => alloc (mk_nd sh (map (uninit (length (heap st))) (seq 0 (prod_list sh)))) st.

(** The truth value of the dVdI argument (a folder name, or False). *)
Definition folder_given (dVdI : option string) : bool :=
  match dVdI with
  | Some s => negb (bool_decide (s = ""))
  | None => false
  end.

(** The derivative of sweep j: the dataset of the measurement file when it
    is there, else [self.get_dydx(x=self.I[j], y=self.V[j])]; nothing when
    no folder was asked for. *)
Definition stored_or_derived (df : datafile) (dVdI : option string) (lI lV : loc) (j : nat)
  : M (option farray) :=
  if folder_given dVdI then
    try_except
      (lift (try! ds := df_get df ("entry/" +:+ default "" dVdI +:+ "/dvdi_" +:+ format_d j) in
             Ok (Some (ds_values ds))))
      (fun e => bool_decide (e = KeyError))
      (fun _ =>
         let* aI := deref lI in
         let* aV := deref lV in
         let* x := lift (row (Z.of_nat j) aI) in       (* self.I[j] *)
         let* y := lift (row (Z.of_nat j) aV) in       (* self.V[j] *)
         let* r := get_dydx y (Some x) savgol_filter ∅ in
         ret (Some r))
  else ret None.

(** The body of the loop over the sweeps. *)
Definition load_sweep (df : datafile) (d : Z) (target : list nat) (dVdI : option string)
    (lI lV ldVdI : loc) (j : nat) : M unit :=
  let* i := lift (try! ds := df_get df ("entry/data0/i_" +:+ format_d j) in Ok (ds_values ds)) in
  let* v := lift (try! ds := df_get df ("entry/data0/v_" +:+ format_d j) in Ok (ds_values ds)) in
  let* dvdi := stored_or_derived df dVdI lI lV j in
  let* pad_width := lift (pad_width_of (shape i) target d) in
  if any_nonzero (flat_map (fun p => [fst p; snd p]) pad_width) then
    let* i' := lift (np_pad i pad_width nan) in
    update lI (assign_row j i') ;;
    let* v' := lift (np_pad v pad_width nan) in
    update lV (assign_row j v') ;;
    match dvdi with
    | Some dvdi =>
        let* dvdi' := lift (np_pad dvdi pad_width nan) in
        update ldVdI (assign_row j dvdi')
    | None => ret tt
    end
  else
    update lI (assign_row j i) ;;
    update lV (assign_row j v) ;;
    match dvdi with
    | Some dvdi => update ldVdI (assign_row j dvdi)
    | None => ret tt
    end.

(** The outer coordinate of a 2D or 3D scan: dataset, name, unit, values. *)
Definition load_coord (df : datafile) (url_key : string)
  : M (option dataset * option attr * option attr * option farray) :=
  let* i_0 := lift (df_data df "i_0") in
  let* url := lift (attrs_get i_0 url_key) in
  let* ds := lift (match url with
                   | AStr u => df_get df u
                   | AInt _ => Raise TypeError
                   end) in
  let* name := lift (attrs_get ds "name") in
  let* unit := lift (attrs_get ds "unit") in
  ret (Some ds, Some name, Some unit, Some (ds_values ds)).

(** The arrays of a transport measurement: the common shape, the three new
    arrays, and the loop over the sweeps. *)
Definition assemble (df : datafile) (d : Z) (dVdI : option string) : M unit :=
  let n := length (mo_sweeps df) in
  let* shapes := lift (rmap (fun j => try! ds := df_get df ("entry/data0/i_" +:+ format_d j) in
                                      Ok (shape (ds_values ds)))
                            (seq 0 n)) in
  let* target := lift (shape_max shapes) in
  let* lI := np_empty (n :: target) in
  let* lV := np_empty (n :: target) in
  let* ldVdI := np_empty (n :: target) in
  set_self (self.set_I (Some lI)) ;;
  set_self (self.set_V (Some lV)) ;;
  set_self (self.set_dVdI (Some ldVdI)) ;;
  for_each (seq 0 n) (load_sweep df d target dVdI lI lV ldVdI).

(** The outer coordinates of a 2D or 3D scan. *)
Definition load_coords (df : datafile) (d : Z) : M unit :=
  if (2 <=? d)%Z then
    let* (ds, name, unit, vec) := load_coord df "x_ds_url" in
    set_self (self.set_x ds name unit vec) ;;
    if (d =? 3)%Z then
      let* (ds, name, unit, vec) := load_coord df "y_ds_url" in
      set_self (self.set_y ds name unit vec)
    else set_self (self.set_y None None None None)
  else set_self (self.set_x None None None None).

Definition load (uuid : string) (dVdI : option string) : M unit :=
  let* s := get_self in
  (if negb (bool_decide (Some uuid = self.uuid s)) && negb (bool_decide (self.uuid s = None))
   then set_self (fun _ => self.__init__) else ret tt) ;;
  set_self (self.set_uuid (Some uuid)) ;;
  (* qkit.fid.get of an unknown uuid is None, which Data refuses *)
  let* df := (fun st => match fid st !! uuid with
                        | Some df => Ok (df, st)
                        | None => Raise TypeError
                        end) in
  set_self (self.set_path (Some (df_path df))) ;;
  set_self (self.set_df (Some df)) ;;
  set_self (self.set_m_type (Some (mo_measurement_type df))) ;;
  if bool_decide (mo_measurement_type df = "transport") then
    let* i_0 := lift (df_data df "i_0") in
    let* ds_type := lift (attrs_get i_0 "ds_type") in
    let* d := match ds_type with
              | AInt d => ret d
              | AStr _ => raise TypeError       (* chr(str + 119) in get_bias *)
              end in
    set_self (self.set_scan_dim (Some d)) ;;
    let* _ := get_bias None in
    set_self (self.set_sweeps (Some (mo_sweeps df))) ;;
    let* _ := get_sweeptype None in
    assemble df d dVdI ;;
    load_coords df d
  else raise ValueError.

End loading.

(** ** Offsets of the flat branch *)

(** An axis argument: negative axes count from the last. *)
Definition norm_axis (rank : nat) (axis : Z) : result nat :=
  if (0 <=? axis)%Z && (axis <? Z.of_nat rank)%Z then Ok (Z.to_nat axis)
  else if (- Z.of_nat rank <=? axis)%Z && (axis <? 0)%Z then Ok (Z.to_nat (Z.of_nat rank + axis))
  else Raise AxisError.

(** [[a, b][k]] for a Python list of two entries *)
Definition pick2 {A} (a b : A) (k : Z) : result A :=
  if (k =? 0)%Z || (k =? -2)%Z then Ok a
  else if (k =? 1)%Z || (k =? -1)%Z then Ok b
  else Raise IndexError.

(** [np.copy(None)] is a 0-d array holding the object None.  Every path
    that receives it either fails on its size in np.place or on its missing
    axis in an index, so its entry is never read; the model stores NaN. *)
Definition none_array : farray := mk_nd [] [nan].

Definition copy_or_none (a : option loc) : M loc :=
  match a with
  | Some l => np_copy l
  | None => alloc none_array
  end.

(** A reference is allocated when it points into the heap. *)
Definition allocated (st : state) (r : option loc) : Prop :=
  match r with
  | Some l => l < length (heap st)
  | None => True
  end.

(** The array y stands for: the object it refers to, or the 0-d array of
    np.copy(None). *)
Definition pointee (st : state) (y : option loc) (ya : farray) : Prop :=
  match y with
  | Some ly => heap st !! ly = Some ya
  | None => ya = none_array
  end.

Section offsets.
Context {N : Numerics}.

(** [np.<f>(a, axis=axis)] for the reductions of the interface *)
Definition along (f : list float -> float) (axis : Z) (a : farray) : result farray :=
  try! k := norm_axis (ndim a) axis in reduce_axis f k a.

(** [np.nanmin(a, axis=axis)] and [np.nanmax(a, axis=axis)]: a reduction
    without identity, which refuses an axis of length zero
    (ValueError: zero-size array to reduction operation). *)
Definition extremum_along (f : list float -> float) (axis : Z) (a : farray) : result farray :=
  try! k := norm_axis (ndim a) axis in
  if nth k (shape a) 0 =? 0 then Raise ValueError else reduce_axis f k a.

(** The mask of the flat branch,
    [np.logical_and(x >= -threshold + offset, x <= threshold + offset)] *)
Definition branch_mask (x : farray) (threshold offset : float) : result (nd bool) :=
  np_logical_and (ge_scalar x (PrimFloat.add (PrimFloat.opp threshold) offset))
                 (le_scalar x (PrimFloat.add threshold offset)).

(** [np.mean(np.array([f(y[j0], axis), g(y[j1], axis)]), axis=0)] for f
    and g among np.nanmin and np.nanmax *)
Definition pair_mean (f g : list float -> float) (j0 j1 : Z) (axis : Z) (y : farray) : result farray :=
  try! r0 := row j0 y in
  try! e0 := extremum_along f axis r0 in
  try! r1 := row j1 y in
  try! e1 := extremum_along g axis r1 in
  try! both := stack [e0; e1] in
  along np_mean 0 both.

(** The arrays an omitted x or y stands for:
    [[self.V, self.I][self.bias]] and [[self.I, self.V][self.bias]]. *)
Definition default_xy (s : self.t) (x y : option loc) : result (option loc * option loc) :=
  try! x := match x with
            | Some _ => Ok x
            | None => match self.bias s with
                      | None => Raise TypeError
                      | Some b => pick2 (self.V s) (self.I s) b
                      end
            end in
  try! y := match y with
            | Some _ => Ok y
            | None => match self.bias s with
                      | None => Raise TypeError
                      | Some b => pick2 (self.I s) (self.V s) b
                      end
            end in
  Ok (x, y).

(** The offsets of every trace from the masked copies of x and y. *)
Definition trace_offsets (sweeptype scan_dim : option Z) (yr : bool) (xc yc : farray)
  : result (farray * farray) :=
  match sweeptype with
  | Some 0%Z =>                           (* halfswing *)
      match scan_dim with
      | None => Raise AxisError
      | Some d =>
          try! m := along np_nanmean d xc in
          try! x_offsets := along np_mean 0 m in
          try! y_offsets :=
            (if yr then pair_mean np_nanmax np_nanmin 0 1 (d - 1) yc
             else pair_mean np_nanmin np_nanmax 0 1 (d - 1) yc) in
          Ok (x_offsets, y_offsets)
      end
  | Some 1%Z =>                           (* 4 quadrants *)
      match scan_dim with
      | None => Raise AxisError
      | Some d =>
          try! m := along np_nanmean d xc in
          try! x_offsets := along np_mean 0 m in
          try! y_offsets :=
            (if yr then pair_mean np_nanmax np_nanmin 1 3 (d - 1) yc
             else pair_mean np_nanmax np_nanmin 0 2 (d - 1) yc) in
          Ok (x_offsets, y_offsets)
      end
  | _ => Raise NotImplementedError
  end.

Definition get_offsets (x y : option loc) (threshold offset : float) (yr : bool)
  : M (farray * farray) :=
  let* s := get_self in
  let* (x, y) := lift (default_xy s x y) in
  match x with
  | None => raise TypeError                      (* None >= float *)
  | Some x =>
      let* xa := deref x in
      (* constant range via threshold *)
      let* mask := lift (branch_mask xa threshold offset) in
      let* x_const := np_copy x in
      let* y_const := copy_or_none y in
      update x_const (place (np_logical_not mask) nan) ;;
      update y_const (place (np_logical_not mask) nan) ;;
      let* xc := deref x_const in
      let* yc := deref y_const in
      let* (x_offsets, y_offsets) :=
        lift (trace_offsets (self.sweeptype s) (self.scan_dim s) yr xc yc) in
      (* [x_offsets, y_offsets][::int(np.sign(self.bias - .5))] *)
      match self.bias s with
      | None => raise TypeError
      | Some b =>
          let (io, vo) := if (b <=? 0)%Z then (y_offsets, x_offsets)
                          else (x_offsets, y_offsets) in
          set_self (self.set_offsets (Some io) (Some vo)) ;;
          ret (io, vo)
      end
  end.

Definition get_offset (x y : option loc) (threshold offset : float) (yr : bool)
  : M (float * float) :=
  let* (io, vo) := get_offsets x y threshold offset yr in
  let i := np_nanmean (data io) in
  let v := np_nanmean (data vo) in
  set_self (self.set_offset (Some i) (Some v)) ;;
  ret (i, v).

(** What [get_offsets] computes from the contents of x and y: the offsets
    (I_offsets, V_offsets) and the two masked copies it worked on. *)
Definition offsets_of (s : self.t) (xa ya : farray) (threshold offset : float) (yr : bool)
  : result (farray * farray * farray * farray) :=
  try! mask := branch_mask xa threshold offset in
  try! xc := place (np_logical_not mask) nan xa in
  try! yc := place (np_logical_not mask) nan ya in
  try! offs := trace_offsets (self.sweeptype s) (self.scan_dim s) yr xc yc in
  match self.bias s with
  | None => Raise TypeError
  | Some b =>
      let (io, vo) := if (b <=? 0)%Z then (snd offs, fst offs) else (fst offs, snd offs) in
      Ok (io, vo, xc, yc)
  end.

(** ** Critical currents from a voltage threshold *)

Inductive currents : Type :=
| Scalar (x : float)
| PyNone
| Arrays (I_cs : farray) (I_rs : option farray).

Definition get_Ic_threshold (I V : option loc) (threshold : float) (offset : option float)
    (Ir : bool) : M currents :=
  match V with
  | None => raise AttributeError                     (* None.shape *)
  | Some V =>
      let* Va := deref V in
      if ndim Va =? 1 then                           (* single trace used for in situ fit *)
        match offset with
        | None => raise TypeError                    (* -threshold + None *)
        | Some offset =>
            let* mask := lift (branch_mask Va threshold offset) in
            match I with
            | None =>
                (* np.copy(None) is a 0-d object array *)
                if length (data mask) =? 1
                then match data mask with
                     | [true] => ret PyNone       (* nothing placed: np.nanmax of the object None *)
                     | _ => raise AttributeError  (* np.nanmax of the object NaN: float has no dtype *)
                     end
                else raise ValueError
            | Some i =>
                let* I_sc := np_copy i in
                update I_sc (place (np_logical_not mask) nan) ;;
                let* a := deref I_sc in
                (* zero-size array to reduction operation fmax *)
                if length (data a) =? 0 then raise ValueError
                else ret (Scalar (np_nanmax (data a)))
            end
        end
      else
        let* s := get_self in
        let I := match I with None => self.I s | Some _ => I end in
        let offset := match offset with
                      | Some o => o
                      | None => match self.V_offset s with
                                | None => 0%float
                                | Some o => o
                                end
                      end in
        (* constant range via threshold *)
        let* mask := lift (branch_mask Va threshold offset) in
        let* V_sc := np_copy V in
        let* I_sc := copy_or_none I in
        update V_sc (place (np_logical_not mask) nan) ;;
        update I_sc (place (np_logical_not mask) nan) ;;
        let* a := deref I_sc in
        let extrema (f g : list float -> float) (j0 j1 : Z) : M farray :=
          let* r0 := lift (row j0 a) in
          match self.scan_dim s with
          | None => raise TypeError              (* None - 1 *)
          | Some d =>
              lift (try! e0 := extremum_along f (d - 1) r0 in
                    try! r1 := row j1 a in
                    try! e1 := extremum_along g (d - 1) r1 in
                    stack [e0; e1])
          end in
        let* (I_cs, I_rs) :=
          match self.sweeptype s with
          | Some 0%Z =>                          (* halfswing *)
              let* cs := extrema np_nanmin np_nanmax 0%Z 1%Z in
              let* rs := extrema np_nanmax np_nanmin 0%Z 1%Z in
              ret (cs, rs)
          | Some 1%Z =>                          (* 4 quadrants *)
              let* cs := extrema np_nanmax np_nanmin 0%Z 2%Z in
              let* rs := extrema np_nanmax np_nanmin 1%Z 3%Z in
              ret (cs, rs)
          | _ => raise NotImplementedError
          end in
        ret (Arrays I_cs (if Ir then Some I_rs else None))
  end.

End offsets.

(** ** Ohmic slope correction *)

(** The function object passed as [peak_finder]. *)
Inductive finder : Type :=
| find_peaks                      (* scipy.signal.find_peaks *)
| find_peaks_cwt                  (* scipy.signal.find_peaks_cwt *)
| other_finder (f : gmap string pyval -> farray -> result found).

(** [a.argsort()]: the positions of the entries in ascending order, NaN
    last, equal entries in their order of appearance. *)
Definition before (x y : float) : bool :=
  PrimFloat.ltb x y || (negb (isnan x) && isnan y).

Fixpoint insert_sorted (l : list float) (k : nat) (sorted : list nat) : list nat :=
  match sorted with
  | [] => [k]
  | j :: rest =>
      if before (nth k l nan) (nth j l nan) then k :: sorted
      else j :: insert_sorted l k rest
  end.

Definition argsort (l : list float) : list nat :=
  fold_left (fun sorted k => insert_sorted l k sorted) (seq 0 (length l)) [].

(** [np.sort] of an integer array *)
Fixpoint insert_Z (z : Z) (sorted : list Z) : list Z :=
  match sorted with
  | [] => [z]
  | y :: rest => if (z <? y)%Z then z :: sorted else y :: insert_Z z rest
  end.

Definition sort_Z (l : list Z) : list Z := fold_right insert_Z [] l.

(** [l[-2:]] *)
Definition last2 {A} (l : list A) : list A := skipn (length l - 2) l.

(** A Python slice bound on a sequence of length [n]: negative bounds count
    from the end, and the result is clamped to [0, n]. *)
Definition clamp (n : nat) (k : Z) : nat :=
  let k' := if (k <? 0)%Z then (Z.of_nat n + k)%Z else k in
  Z.to_nat (Z.min (Z.max k' 0) (Z.of_nat n)).

(** [l[slice(lo, hi)]], [None] for an omitted bound *)
Definition py_slice {A} (lo : option Z) (hi : Z) (l : list A) : list A :=
  let a := match lo with Some z => clamp (length l) z | None => 0 end in
  let b := clamp (length l) hi in
  firstn (b - a) (skipn a l).

Section slope_correction.
Context {N : Numerics}.

(** [peak_finder(x, **kwargs)] *)
Definition call_finder (pf : finder) (kw : gmap string pyval) (x : farray) : result found :=
  match pf with
  | find_peaks => sig_find_peaks kw x
  | find_peaks_cwt => sig_find_peaks_cwt kw x
  | other_finder f => f kw x
  end.

(** The keyword arguments after the defaults of the chosen peak finder:
    [default] is the prominence that find_peaks gets. *)
Definition finder_defaults (pf : finder) (default : pyval) (kw : gmap string pyval)
  : gmap string pyval :=
  match pf with
  | find_peaks => setdefault "prominence" default kw
  | find_peaks_cwt => setdefault "widths" (VArange 10) kw
  | other_finder _ => kw
  end.

(** [lin_fit]: least squares through the QR factors of the matrix with
    columns x and 1.  [np.dot(q.T, y)] needs as many y as x; fewer than two
    points leave R with fewer rows than columns, which [np.linalg.inv]
    refuses. *)
Definition lin_fit (x y : list float) : result (float * float) :=
  if negb (length x =? length y) then Raise ValueError
  else if length x <? 2 then Raise LinAlgError
  else qr_solve x y.

(** [slice] applied to the entries of
    [np.sort(peaks1D[0][peaks1D[1]['prominences'].argsort()[-2:][::-1]])]:
    the bounds of the slice between the two most prominent peaks. *)
Definition branch_slice (peaks1D : found) : result (option Z * Z) :=
  match peaks1D with
  | PeakArray _ => Raise IndexError          (* peaks1D[1]['prominences'] on an index array *)
  | Peaks indices properties =>
      match properties !! "prominences" with
      | None => Raise KeyError
      | Some (PFloats prominences) =>
          let order := rev (last2 (argsort prominences)) in
          match indices with
          | Bools _ => Raise IndexError
          | Ints idx =>
              try! chosen := rmap (fun k => match idx !! k with
                                            | Some z => Ok z
                                            | None => Raise IndexError
                                            end) order in
              match sort_Z chosen with
              | [] => Raise TypeError        (* slice() without arguments *)
              | [p] => Ok (None, p)
              | [p; q] => Ok (Some p, q)
              | _ => Raise TypeError
              end
          end
      | Some _ => Raise TypeError
      end
  end.

(** The slope-corrected voltage of one trace. *)
Definition correct_trace (pf : finder) (kw : gmap string pyval) (I1D V1D dVdI1D : farray)
  : result farray :=
  try! peaks1D := call_finder pf kw dVdI1D in
  try! s1D := branch_slice peaks1D in
  (* np.stack((x, np.ones(len(x)))) and np.dot(q.T, y) take 1-D x and y *)
  try! _ := (if (ndim I1D =? 1) && (ndim V1D =? 1) then Ok tt else Raise ValueError) in
  try! popt1D := lin_fit (py_slice (fst s1D) (snd s1D) (data I1D))
                         (py_slice (fst s1D) (snd s1D) (data V1D)) in
  try! line := Ok (nd_map (fun i => PrimFloat.add (PrimFloat.mul (fst popt1D) i) (snd popt1D)) I1D) in
  nd_map2 PrimFloat.sub V1D line.

(** Rows of three arrays taken in step, as [map] over several iterables
    does: the shortest decides. *)
Definition zip3 {A B C} (a : list A) (b : list B) (c : list C) : list (A * B * C) :=
  combine (combine a b) c.

Definition get_2wire_slope_correction (I V dVdI : option loc) (peak_finder : finder)
    (kw : gmap string pyval) : M loc :=
  let* s := get_self in
  let I := match I with None => self.I s | Some _ => I end in
  let V := match V with None => self.V s | Some _ => V end in
  let dVdI := match dVdI with None => self.dVdI s | Some _ => dVdI end in
  let kw := finder_defaults peak_finder (VInt 100) kw in
  (* peak detection in dV/dI *)
  let traces : M (list (farray * farray * farray)) :=
    match dVdI, I, V with
    | Some ld, Some li, Some lv =>
        let* d := deref ld in
        let* i := deref li in
        let* v := deref lv in
        lift (try! dr := rows d in
              try! ir := rows i in
              try! vr := rows v in
              Ok (zip3 ir vr dr))
    | _, _, _ => raise TypeError               (* map over None *)
    end in
  match self.scan_dim s with
  | Some 1%Z =>
      let* ts := traces in
      let* corrected := lift (rmap (fun t => correct_trace peak_finder kw (fst (fst t)) (snd (fst t)) (snd t)) ts) in
      let* a := lift (stack corrected) in
      let* l := alloc a in
      set_self (self.set_V_corr (Some l)) ;;
      ret l
  | Some 2%Z | Some 3%Z =>
      (* the inner map objects are handed to np.array(..., dtype=float)
         as they are: float() of a map object is a TypeError, unless
         there is no row at all *)
      let* ts := traces in
      match ts with
      | [] =>
          let* l := alloc (mk_nd [0] []) in
          set_self (self.set_V_corr (Some l)) ;;
          ret l
      | _ => raise TypeError
      end
  | _ => raise ValueError
  end.

End slope_correction.

(** ** Jump detection and classification *)

(** Nested Python lists (and the object arrays numpy builds from them). *)
Inductive nest (A : Type) : Type :=
| Leaf (a : A)
| Nest (l : list (nest A)).

Arguments Leaf {A} a.
Arguments Nest {A} l.

(** The array whose peaks were found: dV/dI (real), or the smoothed
    derivative of the frequency-domain detector (complex). *)
Inductive yarray : Type :=
| YReal (a : farray)
| YComplex (a : nd complex).

Definition y_shape (y : yarray) : list nat :=
  match y with YReal a => shape a | YComplex a => shape a end.

Definition y_complex (y : yarray) : list complex :=
  match y with
  | YReal a => map (fun x => (x, 0%float)) (data a)
  | YComplex a => data a
  end.

(** [np.array_equal(val, Y)] *)
Definition y_equal (val Y : yarray) : bool :=
  bool_decide (y_shape val = y_shape Y)
  && forallb (fun p => PrimFloat.eqb (fst (fst p)) (fst (snd p))
                       && PrimFloat.eqb (snd (fst p)) (snd (snd p)))
             (combine (y_complex val) (y_complex Y)).

Definition y_rows (y : yarray) : result (list yarray) :=
  match y with
  | YReal a => try! r := rows a in Ok (map YReal r)
  | YComplex a => try! r := rows a in Ok (map YComplex r)
  end.

(** What one slice contributes to the list handed to
    [np.array(..., dtype=float)]: a float, or the (0, L) or (1, L) array
    that indexing with a numpy boolean returns. *)
Inductive picked : Type :=
| PickScalar (x : float)
| PickRows (a : farray).

(** The result of the classifier: critical currents, retrapping currents
    when asked for, and the property records; for a custom sweep type the
    property records alone. *)
Inductive jumps : Type :=
| Jumps (I_cs : farray) (I_rs : option farray) (properties : nest (gmap string propval))
| Events (properties : nest (gmap string propval)).

(** The result of a detector: the currents of a single trace, or the
    classification of a whole data set. *)
Inductive detected : Type :=
| InSitu (a : farray)
| Whole (j : jumps).

(** [np.array(nested, dtype=float)] *)
Fixpoint to_array (t : nest picked) : result farray :=
  match t with
  | Leaf (PickScalar x) => Ok (scalar x)
  | Leaf (PickRows a) => Ok a
  | Nest l => try! rs := rmap to_array l in stack rs
  end.

(** Index arrays *)
Definition as_ints (i : indices) : list Z :=
  match i with
  | Ints l => l
  | Bools l => map (fun b : bool => if b then 1%Z else 0%Z) l
  end.

(** [l[idx]] for an integer index array: entry by entry, negative indices
    from the end, IndexError outside. *)
Definition take {A} (l : list A) (idx : list Z) : result (list A) :=
  rmap (fun k => try! i := py_index (length l) k in
                 match l !! i with
                 | Some x => Ok x
                 | None => Raise IndexError
                 end) idx.

(** [l[i]] for an index array: a boolean array must have the length of l. *)
Definition index_by {A} (l : list A) (i : indices) : result (list A) :=
  match i with
  | Ints idx => take l idx
  | Bools m =>
      if length m =? length l
      then Ok (map fst (List.filter (fun p => snd p : bool) (combine l m)))
      else Raise IndexError
  end.

(** [a[i]] along the first axis of an array *)
Definition take_rows (a : farray) (i : indices) : result farray :=
  try! rs := rows a in
  try! chosen := index_by rs i in
  match shape a with
  | n :: sh => Ok (mk_nd (length chosen :: sh) (concat (map data chosen)))
  | [] => Raise IndexError
  end.

(** [call_with args f]: a call of the one-parameter function [f] with the
    positional arguments [args]. *)
Definition call_with {A B} (args : list A) (f : A -> B) : result B :=
  match args with
  | [a] => Ok (f a)
  | _ => Raise TypeError
  end.

(** Complex arithmetic as numpy does it on binary64 pairs. *)
Definition cmul (a b : complex) : complex :=
  (PrimFloat.sub (PrimFloat.mul (fst a) (fst b)) (PrimFloat.mul (snd a) (snd b)),
   PrimFloat.add (PrimFloat.mul (fst a) (snd b)) (PrimFloat.mul (snd a) (fst b))).

Definition of_real (x : float) : complex := (x, 0%float).

Section detection.
Context {N : Numerics}.

(** [_peak_finder]: the peak finder, with [np.array([False])] and no
    properties when it found no peak. *)
Definition _peak_finder (pf : finder) (kw : gmap string pyval) (x : farray) : result found :=
  try! ans := call_finder pf kw x in
  match ans with
  | Peaks (Ints []) _ | Peaks (Bools []) _ => Ok (Peaks (Bools [false]) ∅)
  | Peaks _ _ => Ok ans
  | PeakArray [] => Raise IndexError            (* ans[0] of an empty index array *)
  | PeakArray _ => Ok ans
  end.

(** The peaks of every 1-D slice below [depth] leading axes. *)
Fixpoint find_in_slices (depth : nat) (f : farray -> result found) (a : farray)
  : result (nest found) :=
  match depth with
  | O => try! p := f a in Ok (Leaf p)
  | S depth' =>
      try! rs := rows a in
      try! l := rmap (find_in_slices depth' f) rs in
      Ok (Nest l)
  end.

(** [I[peaks[0]]] of the single-trace branches, with the IndexError
    handler that returns NaN. *)
Definition in_situ (I : option farray) (peaks : found) : result farray :=
  match I with
  | None => Raise TypeError
  | Some Ia =>
      let picked :=
        match peaks with
        | Peaks i _ => take_rows Ia i
        | PeakArray [] => Raise IndexError
        | PeakArray (k :: _) => row k Ia
        end in
      match picked with
      | Raise IndexError => Ok (scalar nan)       (* if no peak found return np.nan *)
      | r => r
      end
  end.

(** *** The classifier *)

(** The mean of V over the [w2] samples before ([sign] = -1) or after
    ([sign] = 1) each candidate:
    [np.mean(V1D[peak1D[0] -/+ np.tile([np.arange(int(window)//2)+1], [len(peak1D[0]), 1]).T], axis=0)] *)
Definition window_means (V1D : list float) (peak : list Z) (w2 : nat) (sign : Z)
  : result (list float) :=
  rmap (fun p => try! vs := take V1D (map (fun r => (p + sign * (Z.of_nat r + 1))%Z) (seq 0 w2)) in
                 Ok (np_mean vs))
       peak.

(** [(-tol_offset + V_offset) <= m] and [m <= (+tol_offset + V_offset)] *)
Definition inside (tol_offset V_offset m : float) : bool :=
  PrimFloat.leb (PrimFloat.add (PrimFloat.opp tol_offset) V_offset) m
  && PrimFloat.leb m (PrimFloat.add tol_offset V_offset).

(** masks_c (critical: inside before, outside after) and masks_r
    (retrapping: outside before, inside after) of one slice *)
Definition jump_mask (critical : bool) (tol_offset V_offset : float) (w2 : nat)
    (V1D : farray) (peak : indices) : result (list bool) :=
  try! _ := (if ndim V1D =? 1 then Ok tt else Raise TypeError) in
  try! before := window_means (data V1D) (as_ints peak) w2 (-1) in
  try! after := window_means (data V1D) (as_ints peak) w2 1 in
  Ok (map (fun p => let b := inside tol_offset V_offset (fst p) in
                    let a := inside tol_offset V_offset (snd p) in
                    if critical then b && negb a else negb b && a)
          (combine before after)).

(** [peak1D[0][mask][0]]: the first candidate under the mask *)
Definition first_under (peak : indices) (mask : list bool) : result (Z + bool) :=
  match peak with
  | Ints l =>
      match map fst (List.filter (fun p => snd p : bool) (combine l mask)) with
      | k :: _ => Ok (inl k)
      | [] => Raise IndexError
      end
  | Bools l =>
      match map fst (List.filter (fun p => snd p : bool) (combine l mask)) with
      | b :: _ => Ok (inr b)
      | [] => Raise IndexError
      end
  end.

(** [I1D[k]] for an integer or a numpy boolean k *)
Definition current_at (I1D : farray) (k : Z + bool) : result picked :=
  match k with
  | inl z =>
      if ndim I1D =? 1 then
        try! i := py_index (length (data I1D)) z in
        match data I1D !! i with
        | Some x => Ok (PickScalar x)
        | None => Raise IndexError
        end
      else try! r := row z I1D in Ok (PickRows r)
  | inr b =>
      Ok (PickRows (if b then mk_nd (1 :: shape I1D) (data I1D)
                    else mk_nd (0 :: shape I1D) []))
  end.

(** [k + 1] *)
Definition succ_index (k : Z + bool) : Z + bool :=
  match k with
  | inl z => inl (z + 1)%Z
  | inr b => inl (if b then 2 else 1)%Z
  end.

(** The critical ([critical] = true) or retrapping current of one slice;
    [shift] says whether the index is advanced by one. *)
Definition classify_slice (critical shift : bool) (tol_offset V_offset : float) (w2 : nat)
    (I1D V1D : farray) (peak1D : found) : result picked :=
  match peak1D with
  | PeakArray _ => Raise TypeError               (* len() of an integer *)
  | Peaks peak _ =>
      try! mask := jump_mask critical tol_offset V_offset w2 V1D peak in
      try! k := first_under peak mask in
      current_at I1D (if shift then succ_index k else k)
  end.

(** The nested maps of the scan_dim == 1, 2, 3 branches: [depth] list
    levels above the slices. *)
Fixpoint over_slices {B} (depth : nat) (f : farray -> farray -> found -> result B)
    (I V : farray) (peaks : nest found) : result (nest B) :=
  match depth, peaks with
  | O, Leaf p => try! b := f I V p in Ok (Leaf b)
  | S depth', Nest ps =>
      try! ir := rows I in
      try! vr := rows V in
      try! l := rmap (fun t => over_slices depth' f (fst (fst t)) (snd (fst t)) (snd t))
                     (zip3 ir vr ps) in
      Ok (Nest l)
  | _, _ => Raise TypeError
  end.

(** The property record of one slice:
    [{**prop1D, 'I': I1D[ind1D], 'V': V1D[ind1D], Y_name: Y1D[ind1D], 'index': ind1D}] *)
Definition record (Y_name : string) (I1D V1D : farray) (Y1D : yarray) (peak1D : found)
  : result (gmap string propval) :=
  match peak1D with
  | PeakArray _ => Raise TypeError
  | Peaks ind1D prop1D =>
      try! i := index_by (data I1D) ind1D in
      try! v := index_by (data V1D) ind1D in
      try! y := match Y1D with
                | YReal a => try! l := index_by (data a) ind1D in Ok (PFloats l)
                | YComplex a => try! l := index_by (data a) ind1D in Ok (PComplex l)
                end in
      Ok (<["index" := PIndex ind1D]>
            (<[Y_name := y]>
               (<["V" := PFloats v]>
                  (<["I" := PFloats i]> prop1D))))
  end.

(** [f] of the custom branch: the record, or NaN entries on an IndexError *)
Definition record_or_nan (Y_name : string) (I1D V1D : farray) (Y1D : yarray) (peak1D : found)
  : result (gmap string propval) :=
  match record Y_name I1D V1D Y1D peak1D with
  | Raise IndexError =>         (* if no peak found return np.nan *)
      Ok (<["index" := PFloats [nan]]>
            (<[Y_name := PFloats [nan]]>
               (<["V" := PFloats [nan]]>
                  (<["I" := PFloats [nan]]> ∅))))
  | r => r
  end.

(** The maps over [zip( *peaks)], I, V and Y that build the records. *)
Fixpoint records (depth : nat) (f : farray -> farray -> yarray -> found -> result (gmap string propval))
    (I V : farray) (Y : yarray) (peaks : nest found) : result (nest (gmap string propval)) :=
  match depth, peaks with
  | O, Leaf p => try! r := f I V Y p in Ok (Leaf r)
  | S depth', Nest ps =>
      try! ir := rows I in
      try! vr := rows V in
      try! yr := y_rows Y in
      match depth', ps, zip3 ir vr yr with
      | O, [], _ :: _ => Raise TypeError  (* zip() is empty: the lambda gets three arguments *)
      | _, _, _ =>
          try! l := rmap (fun t => records depth' f (fst (fst (fst t))) (snd (fst (fst t)))
                                     (snd (fst t)) (snd t))
                         (combine (zip3 ir vr yr) ps) in
          Ok (Nest l)
      end
  | _, _ => Raise TypeError
  end.

(** [a[::2]] and [a[1::2]] of an array *)
Definition even_rows (a : farray) : result farray :=
  try! rs := rows a in
  match shape a with
  | n :: sh => let l := every_other rs in Ok (mk_nd (length l :: sh) (concat (map data l)))
  | [] => Raise IndexError
  end.

Definition odd_rows (a : farray) : result farray :=
  try! rs := rows a in
  match shape a with
  | n :: sh => let l := every_other (tl rs) in Ok (mk_nd (length l :: sh) (concat (map data l)))
  | [] => Raise IndexError
  end.

Definition nest_list {A} (t : nest A) : result (list (nest A)) :=
  match t with
  | Nest l => Ok l
  | Leaf _ => Raise TypeError
  end.

(** [_classify_jump].  [frame] lists the arrays among the local variables
    of the calling method, in the order of its frame: Y_name is the first
    name whose value equals Y. *)
Definition _classify_jump (frame : list (string * option yarray))
    (I : option loc) (V : loc) (Y : yarray) (peaks : nest found)
    (tol_offset : float) (window : Z) (Ir : bool) : M jumps :=
  let* Y_name :=
    match List.filter (fun kv => match snd kv with
                                 | Some val => y_equal val Y
                                 | None => false
                                 end) frame with
    | kv :: _ => ret (fst kv)
    | [] => raise IndexError
    end in
  let* s := get_self in
  (* voltage offset to identify superconducting branch *)
  (match self.V_offset s, self.sweeptype s with
   | None, Some 0%Z | None, Some 1%Z =>
       let* _ := get_offset (Some V) I 20e-6%float 0%float false in ret tt
   | _, _ => ret tt
   end) ;;
  let* s := get_self in
  let* Va := deref V in
  let w2 := Z.to_nat (window / 2) in
  let classified (V_c I_c : loc) (peaks_c : list (nest found))
                 (V_r I_r : loc) (peaks_r : list (nest found)) : M jumps :=
    match self.V_offset s with
    | None => raise TypeError
    | Some V_offset =>
        let* Vc := deref V_c in
        let* Ic := deref I_c in
        let* Vr := deref V_r in
        let* Ir_ := deref I_r in
        let* Ia := match I with Some i => deref i | None => ret none_array end in
        match self.scan_dim s with
        | Some d =>
            if (1 <=? d)%Z && (d <=? 3)%Z then
              let depth := Z.to_nat d in
              (* critical current *)
              let* cs := lift (over_slices depth
                                 (classify_slice true false tol_offset V_offset w2)
                                 Ic Vc (Nest peaks_c)) in
              let* I_cs := lift (to_array cs) in
              (* retrapping current *)
              let* rs := lift (over_slices depth
                                 (classify_slice false (negb (d =? 3)%Z) tol_offset V_offset w2)
                                 Ir_ Vr (Nest peaks_r)) in
              let* I_rs := lift (to_array rs) in
              (* properties *)
              let* properties := lift (records depth (record Y_name) Ia Va Y peaks) in
              ret (Jumps I_cs (if Ir then Some I_rs else None) properties)
            else raise ValueError
        | None => raise ValueError
        end
    end in
  match self.sweeptype s with
  | Some 0%Z =>                                   (* halfswing *)
      let* ps := lift (nest_list peaks) in
      let* V_c := np_copy V in
      let* I_c := copy_or_none I in
      let* V_r := np_copy V in
      let* I_r := copy_or_none I in
      classified V_c I_c ps V_r I_r ps
  | Some 1%Z =>                                   (* 4quadrants *)
      match I with
      | None => raise TypeError
      | Some i =>
          let* ps := lift (nest_list peaks) in
          let* Ia := deref i in
          let* V_c := let* a := lift (even_rows Va) in alloc a in
          let* I_c := let* a := lift (even_rows Ia) in alloc a in
          let* V_r := let* a := lift (odd_rows Va) in alloc a in
          let* I_r := let* a := lift (odd_rows Ia) in alloc a in
          classified V_c I_c (every_other ps) V_r I_r (every_other (tl ps))
      end
  | _ =>                                          (* custom sweeptype *)
      let* Ia := match I with Some i => deref i | None => ret none_array end in
      match self.scan_dim s with
      | Some d =>
          if (1 <=? d)%Z && (d <=? 3)%Z then
            let* properties := lift (records (Z.to_nat d) (record_or_nan Y_name) Ia Va Y peaks) in
            ret (Events properties)
          else raise NotImplementedError
      | None => raise NotImplementedError
      end
  end.

(** *** The derivative-domain detector *)

Definition get_Ic_deriv (I V dVdI : option loc) (Ir : bool) (tol_offset : float) (window : Z)
    (peak_finder : finder) (kw : gmap string pyval) : M detected :=
  match V with
  | None => raise AttributeError                  (* None.shape *)
  | Some v =>
      let* Va := deref v in
      if ndim Va =? 1 then                        (* single trace used for in situ fit *)
        let* d := match dVdI with Some l => deref l | None => ret none_array end in
        let* peaks := lift (_peak_finder peak_finder kw d) in
        let* Ia := match I with
                   | Some i => let* a := deref i in ret (Some a)
                   | None => ret None
                   end in
        let* r := lift (in_situ Ia peaks) in
        ret (InSitu r)
      else
        let* s := get_self in
        let I := match I with None => self.I s | Some _ => I end in
        let dVdI := match dVdI with None => self.dVdI s | Some _ => dVdI end in
        let kw := finder_defaults peak_finder (VInt 100) kw in
        (* peak detection in dV/dI *)
        if (2 <=? ndim Va) && (ndim Va <=? 4) then
          match dVdI with
          | None => raise TypeError               (* map over None *)
          | Some ld =>
              let* d := deref ld in
              let* peaks := lift (find_in_slices (ndim Va - 1) (_peak_finder peak_finder kw) d) in
              let* Ia := match I with
                         | Some i => let* a := deref i in ret (Some (YReal a))
                         | None => ret None
                         end in
              let* j := _classify_jump [("I", Ia); ("V", Some (YReal Va)); ("dVdI", Some (YReal d))]
                                       I v (YReal d) peaks tol_offset window Ir in
              ret (Whole j)
          end
        else raise ValueError
  end.

(** *** The frequency-domain detector *)

(** [V - np.linspace(start=V[..., 0], stop=V[..., -1], num=V.shape[-1], axis=d)],
    where the first and last samples are taken along axis d. *)
Definition offset_slope (d : nat) (V : farray) : result farray :=
  if d <? ndim V then
    let pre := firstn d (shape V) in
    let a := nth d (shape V) 0 in
    let rest := skipn (S d) (shape V) in
    let L := List.last (shape V) 0 in
    if a =? 0 then Raise IndexError
    else
      let R := prod_list rest in
      let at_ := fun k => nth k (data V) nan in
      let line :=
        mk_nd (pre ++ L :: rest)
          (flat_map (fun o =>
             flat_map (fun t =>
               map (fun p => nth t (np_linspace (at_ ((o * a) * R + p))
                                                (at_ ((o * a + (a - 1)) * R + p)) L) nan)
                   (seq 0 R))
               (seq 0 L))
             (seq 0 (prod_list pre))) in
      nd_map2 PrimFloat.sub V line
  else Raise IndexError.

(** [_get_deriv_dft]: the transform of each trace, times 1j*f*exp(-s*f**2),
    transformed back; [L] is V.shape[-1] of the enclosing call. *)
Definition _get_deriv_dft (s : float) (L : nat) (V_corr : farray) : nd complex :=
  let f := np_fftfreq L in
  let smooth (trace : list float) : list complex :=
    let V_fft := np_fft (map of_real trace) in
    let V_fft_smooth :=
      map (fun p =>
             let fk := fst p in
             cmul (cmul (cmul (0%float, 1%float) (of_real fk))
                        (of_real (np_exp (PrimFloat.mul (PrimFloat.opp s) (PrimFloat.mul fk fk)))))
                  (snd p))
          (combine f V_fft) in
    np_ifft V_fft_smooth in
  mk_nd (shape V_corr)
        (flat_map smooth (chunks (prod_list (removelast (shape V_corr)))
                                 (List.last (shape V_corr) 0) (data V_corr))).

Definition np_abs_array (a : nd complex) : farray := nd_map np_abs a.
Definition real_part (a : nd complex) : farray := nd_map fst a.

Definition get_Ic_dft (I V dVdI : option loc) (s : float) (Ir : bool) (tol_offset : float)
    (window : Z) (peak_finder : finder) (kw : gmap string pyval) : M detected :=
  match V with
  | None => raise AttributeError                  (* None.shape *)
  | Some v =>
      let* Va := deref v in
      let L := List.last (shape Va) 0 in
      if ndim Va =? 1 then                        (* single trace used for in situ fit *)
        let* V_corr := lift (offset_slope 0 Va) in      (* adjust offset slope *)
        let dV_smooth := _get_deriv_dft s L V_corr in
        (* a real-valued peak finder sees the real part of a complex array *)
        let* peaks := lift (_peak_finder peak_finder kw (real_part dV_smooth)) in
        let* Ia := match I with
                   | Some i => let* a := deref i in ret (Some a)
                   | None => ret None
                   end in
        let* r := lift (in_situ Ia peaks) in
        ret (InSitu r)
      else
        let* c := get_self in
        let I := match I with None => self.I c | Some _ => I end in
        let kw := finder_defaults peak_finder (VFloat 1e-5%float) kw in
        (* differentiate and smooth in the frequency domain *)
        let* depth := match self.scan_dim c with
                      | Some d => if (1 <=? d)%Z && (d <=? 3)%Z then ret (Z.to_nat d)
                                  else raise ValueError
                      | None => raise ValueError
                      end in
        let* V_corr := lift (offset_slope depth Va) in  (* adjust offset slope *)
        let* dV_smooth := lift (call_with [] (_get_deriv_dft s L)) in   (* _get_deriv_dft() *)
        (* peak detection *)
        let* peaks := lift (find_in_slices depth (_peak_finder peak_finder kw)
                                           (np_abs_array dV_smooth)) in
        let* Ia := match I with
                   | Some i => let* a := deref i in ret (Some (YReal a))
                   | None => ret None
                   end in
        let* da := match dVdI with
                   | Some l => let* a := deref l in ret (Some (YReal a))
                   | None => ret None
                   end in
        let* j := _classify_jump [("I", Ia); ("V", Some (YReal Va)); ("dVdI", da);
                                  ("V_corr", Some (YReal V_corr));
                                  ("dV_smooth", Some (YComplex dV_smooth))]
                                 I v (YComplex dV_smooth) peaks tol_offset window Ir in
        ret (Whole j)
  end.

End detection.

(** ** Saving the derived state *)

Definition j_opt {A} (f : A -> jval) (o : option A) : jval :=
  match o with
  | Some a => f a
  | None => JNone
  end.

(** ['.json' in filename] *)
Fixpoint contains (pat s : string) : bool :=
  String.prefix pat s ||
  match s with
  | EmptyString => false
  | String _ s' => contains pat s'
  end.

Section saving.
(** [mo.get_JSON()] of a measurement object that has loaded nothing *)
Variable blank_JSON : string.

(** The value of an array attribute, as json.dump reads it. *)
Definition j_array (l : option loc) : M jval :=
  match l with
  | None => ret JNone
  | Some l => let* a := deref l in ret (JArray a)
  end.

(** The class variables that are saved. *)
Definition class_variables (s : self.t) (jI jV jdVdI : jval) : gmap string jval :=
  list_to_map
    [ ("uuid", j_opt JStr (self.uuid s));
      ("path", j_opt JStr (self.path s));
      ("measurement_object", JStr (match self.df s with
                                   | Some df => mo_JSON df
                                   | None => blank_JSON
                                   end));
      ("measurement_type", j_opt JStr (self.m_type s));
      ("scan_dimension", j_opt JInt (self.scan_dim s));
      ("sweep_type", j_opt JInt (self.sweeptype s));
      ("sweeps", j_opt JSweeps (self.sweeps s));
      ("bias", j_opt JInt (self.bias s));
      ("I", jI);
      ("V", jV);
      ("dVdI", jdVdI);
      ("I_offsets", j_opt JArray (self.I_offsets s));
      ("V_offsets", j_opt JArray (self.V_offsets s));
      ("I_offset", j_opt JFloat (self.I_offset s));
      ("V_offset", j_opt JFloat (self.V_offset s));
      ("x_coordname", j_opt JAttr (self.x_coordname s));
      ("x_unit", j_opt JAttr (self.x_unit s));
      ("x_vector", j_opt JArray (self.x_vec s));
      ("y_coordname", j_opt JAttr (self.y_coordname s));
      ("y_unit", j_opt JAttr (self.y_unit s));
      ("y_vector", j_opt JArray (self.y_vec s)) ].

(** [if self.V_corr: params['V_corr'] = self.V_corr] *)
Definition add_V_corr (V_corr : option loc) (params : gmap string jval) : M (gmap string jval) :=
  match V_corr with
  | None => ret params
  | Some l =>
      let* a := deref l in
      let* t := lift (truth a) in
      ret (if t then <["V_corr" := JArray a]> params else params)
  end.

(** The file name with its extension. *)
Definition json_name (filename : string) : string :=
  if contains ".json" filename then filename else filename +:+ ".json".

Definition save (filename : string) (params : option (gmap string jval)) : M unit :=
  let* s := get_self in
  let params := default ∅ params in              (* params if params else {} *)
  let* jI := j_array (self.I s) in
  let* jV := j_array (self.V s) in
  let* jdVdI := j_array (self.dVdI s) in
  (* {**class_variables, **params} *)
  let params := params ∪ class_variables s jI jV jdVdI in
  let* params := add_V_corr (self.V_corr s) params in
  fun st => Ok (tt, mk_state (obj st) (heap st) (fid st)
                             (<[json_name filename := params]> (disk st))).

End saving.

(** ** Opening the viewer *)

(** What a caller may pass as [ds]: a string, a list of strings, or any
    other object, of which only its being iterable matters. *)
Inductive ds_arg : Type :=
| DsStr (s : string)
| DsList (l : list string)
| DsObject (iterable : bool).

(** [np.iterable(ds)]: strings and lists are iterable. *)
Definition np_iterable (ds : ds_arg) : bool :=
  match ds with
  | DsStr _ | DsList _ => true
  | DsObject iterable => iterable
  end.

(** [type(ds) is str] *)
Definition is_str (ds : ds_arg) : bool :=
  match ds with DsStr _ => true | _ => false end.

(** [open_qviewkit]: the value returned stands for the call
    [qviewkit.plot(df.get_filepath(), datasets=ds)], its file path and its
    datasets. *)
Definition open_qviewkit (uuid : option string) (ds : option ds_arg)
  : M (string * list string) :=
  let* s := get_self in
  let* df := match uuid with
             | None => ret (self.df s)
             | Some u => fun st => match fid st !! u with
                                   | Some df => Ok (Some df, st)
                                   | None => Raise TypeError   (* Data(None) *)
                                   end
             end in
  let* ds := match ds with
             | None => ret ["views/IV"]
             | Some d =>
                 if negb (np_iterable d) && is_str d
                 then ret (match d with DsStr s => [s] | _ => [] end)
                 else raise ValueError      (* Argument <ds> needs to be set properly. *)
             end in
  match df with
  | None => raise AttributeError            (* None.get_filepath() *)
  | Some df => ret (df_path df, ds)
  end.

(** ** A small instance of [Numerics] to run the model on concrete data.
    No theorem about the class depends on it. *)

Module Ref.

Definition fsum (l : list float) : float := fold_left PrimFloat.add l 0%float.

Definition mean (l : list float) : float :=
  PrimFloat.div (fsum l) (of_Z (Z.of_nat (length l))).

Definition drop_nan (l : list float) : list float := List.filter (fun x => negb (isnan x)) l.

Definition nanmean (l : list float) : float := mean (drop_nan l).

Definition fmin (a b : float) : float := if PrimFloat.ltb b a then b else a.
Definition fmax (a b : float) : float := if PrimFloat.ltb a b then b else a.

Definition nanmin (l : list float) : float :=
  match drop_nan l with
  | [] => nan
  | x :: r => fold_left fmin r x
  end.

Definition nanmax (l : list float) : float :=
  match drop_nan l with
  | [] => nan
  | x :: r => fold_left fmax r x
  end.

(** Finite differences along the last axis: one-sided at the two ends,
    central in between. *)
Definition diff1 (l : list float) : list float :=
  let n := length l in
  map (fun k =>
         let at_ := fun i => nth i l nan in
         if n <=? 1 then nan
         else if k =? 0 then PrimFloat.sub (at_ 1) (at_ 0)
         else if k =? n - 1 then PrimFloat.sub (at_ k) (at_ (k - 1))
         else PrimFloat.div (PrimFloat.sub (at_ (k + 1)) (at_ (k - 1))) 2%float)
      (seq 0 n).

Definition diff_last_axis (a : farray) : farray :=
  match rev (shape a) with
  | [] => a
  | n :: outer =>
      mk_nd (shape a) (flat_map diff1 (chunks (prod_list outer) n (data a)))
  end.

(** A derivative filter that, like scipy's, refuses a window longer than
    the data. *)
Definition savgol (kw : gmap string pyval) (a : farray) : result farray :=
  match kw !! "window_length", rev (shape a) with
  | Some (VInt w), n :: _ =>
      if (w <=? Z.of_nat n)%Z then Ok (diff_last_axis a) else Raise ValueError
  | _, _ => Raise TypeError
  end.

(** Differences along the last axis, given by its number; [axis=None]
    stands for all axes, which on a 1-D array is the last one.  (On more
    axes np.gradient then returns one array per axis; this instance does
    not carry such a value.) *)
Definition gradient (kw : gmap string pyval) (a : farray) : result farray :=
  match kw !! "axis" with
  | Some (VInt k) =>
      if (k =? Z.of_nat (ndim a) - 1)%Z || ((k =? -1)%Z && (1 <=? ndim a))
      then Ok (diff_last_axis a) else Raise AxisError
  | Some VNone | None =>
      if ndim a =? 1 then Ok (diff_last_axis a) else Raise TypeError
  | _ => Raise TypeError
  end.

(** Strict local maxima; the prominence of a maximum is its height above
    the higher of the two minima that separate it from higher ground. *)
Definition base (x : float) (side : list float) : float :=
  (fix go (l : list float) (m : float) : float :=
     match l with
     | [] => m
     | y :: l' => if PrimFloat.ltb x y then m else go l' (fmin m y)
     end) side x.

Definition prominence (l : list float) (k : nat) : float :=
  let x := nth k l nan in
  PrimFloat.sub x (fmax (base x (rev (firstn k l))) (base x (skipn (S k) l))).

Definition local_maxima (l : list float) : list nat :=
  List.filter (fun k => (1 <=? k) && (k + 1 <? length l)
                   && PrimFloat.ltb (nth (k - 1) l nan) (nth k l nan)
                   && PrimFloat.ltb (nth (k + 1) l nan) (nth k l nan))
         (seq 0 (length l)).

Definition find_peaks (kw : gmap string pyval) (a : farray) : result found :=
  if ndim a =? 1 then
    let threshold := match kw !! "prominence" with
                     | Some (VFloat t) => Some t
                     | Some (VInt z) => Some (of_Z z)
                     | _ => None
                     end in
    let peaks := List.filter (fun k => match threshold with
                                  | Some t => PrimFloat.leb t (prominence (data a) k)
                                  | None => true
                                  end) (local_maxima (data a)) in
    Ok (Peaks (Ints (map Z.of_nat peaks))
              (match threshold with
               | Some _ => {[ "prominences" := PFloats (map (prominence (data a)) peaks) ]}
               | None => ∅
               end))
  else Raise ValueError.

Definition find_peaks_cwt (kw : gmap string pyval) (a : farray) : result found :=
  if ndim a =? 1 then Ok (PeakArray (map Z.of_nat (local_maxima (data a))))
  else Raise ValueError.

(** The least-squares line, in closed form. *)
Definition line_fit (x y : list float) : result (float * float) :=
  let mx := mean x in
  let my := mean y in
  let sxx := fsum (map (fun a => PrimFloat.mul (PrimFloat.sub a mx) (PrimFloat.sub a mx)) x) in
  let sxy := fsum (map (fun p => PrimFloat.mul (PrimFloat.sub (fst p) mx) (PrimFloat.sub (snd p) my))
                       (combine x y)) in
  if PrimFloat.eqb sxx 0%float then Raise LinAlgError
  else let m := PrimFloat.div sxy sxx in
       Ok (m, PrimFloat.sub my (PrimFloat.mul m mx)).

Definition linspace (a b : float) (num : nat) : list float :=
  map (fun k => if (k =? num - 1) && (1 <? num) then b
                else PrimFloat.add a (PrimFloat.mul (of_Z (Z.of_nat k))
                       (PrimFloat.div (PrimFloat.sub b a) (of_Z (Z.of_nat (num - 1))))))
      (seq 0 num).

#[export] Instance numerics : Numerics := {|
  uninit := fun _ _ => 0%float;
  sig_savgol_filter := savgol;
  np_gradient := gradient;
  np_mean := mean;
  np_nanmean := nanmean;
  np_nanmin := nanmin;
  np_nanmax := nanmax;
  sig_find_peaks := find_peaks;
  sig_find_peaks_cwt := find_peaks_cwt;
  qr_solve := line_fit;
  np_linspace := linspace;
  np_fft := fun l => l;
  np_ifft := fun l => l;
  np_fftfreq := fun n => map (fun k => PrimFloat.div (of_Z (Z.of_nat k)) (of_Z (Z.of_nat n))) (seq 0 n);
  np_exp := fun x => PrimFloat.add 1%float x;
  np_abs := fun c => PrimFloat.sqrt (PrimFloat.add (PrimFloat.mul (fst c) (fst c)) (PrimFloat.mul (snd c) (snd c)))
|}.

End Ref.

(** ** Measurement files used in the examples *)

Definition fvec (l : list float) : farray := vec l.

Definition axis_attrs (d : Z) (url : string) : gmap string attr :=
  {[ "ds_type" := AInt d; "x_ds_url" := AStr url ]}.

(** A 1D half-swing measurement under current bias with sweeps of three
    and two points; the derivative was stored during the measurement. *)
Definition ragged_file : datafile :=
  mk_datafile "data/ragged.h5"
    {[ "entry/data0/i_0" := mk_dataset (fvec [0; 1; 2]%float) (axis_attrs 1 "entry/data0/i_b_0");
       "entry/data0/v_0" := mk_dataset (fvec [0; 10; 20]%float) (axis_attrs 1 "entry/data0/i_b_0");
       "entry/data0/i_1" := mk_dataset (fvec [2; 0]%float) (axis_attrs 1 "entry/data0/i_b_1");
       "entry/data0/v_1" := mk_dataset (fvec [20; 0]%float) (axis_attrs 1 "entry/data0/i_b_1");
       "entry/analysis0/dvdi_0" := mk_dataset (fvec [10; 10; 10]%float) ∅;
       "entry/analysis0/dvdi_1" := mk_dataset (fvec [10; 10]%float) ∅ ]}
    "transport" [(0, 2, 1); (2, 0, 1)]%float "{}".

Definition st_ragged : state := mk_state self.__init__ [] {[ "RAGGED" := ragged_file ]} ∅.

(** * Example data *)

Definition st_fresh : state := mk_state self.__init__ [] ∅ ∅.

Definition halfswing_set : list sweep :=
  [(0, 1, 0.1); (1, 0, 0.1)]%float.
Definition fourquadrant_set : list sweep :=
  [(0, 1, 0.1); (1, 0, 0.1); (0, -1, 0.1); (-1, 0, 0.1)]%float.
Definition mismatched_pair : list sweep :=
  [(0, 1, 0.1); (0, 1, 0.1)]%float.

Definition returned {A} (r : result (A * state)) : option A :=
  match r with Ok (a, _) => Some a | Raise _ => None end.

Definition raised {A} (r : result A) : option exn :=
  match r with Ok _ => None | Raise e => Some e end.

(** A differentiation strategy that, like most smoothing filters, rejects
    an array holding NaN. *)
Definition nan_averse (kw : gmap string pyval) (a : farray) : result farray :=
  if existsb isnan (data a) then Raise ValueError else Ok (Ref.diff_last_axis a).

Definition nan_tailed : farray := fvec [0; 1; 4; nan; nan]%float.

(** A loaded 1D half-swing measurement of six points per sweep: the first
    sweep jumps out of the flat branch at its fourth sample, the return
    sweep stays on it.  I, V and dV/dI are the array objects 0, 1, 2. *)
Definition I_2x6 : farray := mk_nd [2; 6] [0; 1; 2; 3; 4; 5; 5; 4; 3; 2; 1; 0]%float.
Definition V_2x6 : farray := mk_nd [2; 6] [0; 0; 0; 1; 1; 1; 0; 0; 0; 0; 0; 0]%float.
Definition dVdI_2x6 : farray := mk_nd [2; 6] [0; 0; 0; 200; 0; 0; 0; 0; 0; 0; 0; 0]%float.

Definition loaded_halfswing : self.t :=
  self.set_I (Some 0) (self.set_V (Some 1) (self.set_dVdI (Some 2)
    (self.set_scan_dim (Some 1%Z) (self.set_sweeptype (Some 0%Z) (self.set_bias (Some 0%Z)
      (self.set_sweeps (Some [(0, 5, 1); (5, 0, 1)]%float) self.__init__)))))).

Definition st_loaded : state := mk_state loaded_halfswing [I_2x6; V_2x6; dVdI_2x6] ∅ ∅.

(** The same context after a slope correction stored V_corr (object 3). *)
Definition st_corrected : state :=
  mk_state (self.set_V_corr (Some 3) loaded_halfswing) [I_2x6; V_2x6; dVdI_2x6; V_2x6] ∅ ∅.

(** A single trace: current (object 0) and voltage (object 1). *)
Definition st_trace : state :=
  mk_state self.__init__ [fvec [0; 1; 2; 3]%float; fvec [0; 0; 1; 1]%float] ∅ ∅.


(** The number of peaks a peak finder reported. *)
Definition peak_count (f : found) : nat :=
  match f with
  | Peaks (Ints l) _ => length l
  | Peaks (Bools l) _ => length l
  | PeakArray l => length l
  end.

(** The peak counts of the slices of a 2-D array under find_peaks with
    the default prominence of the slope correction and of get_Ic_deriv. *)
Definition peak_counts (N : Numerics) (a : farray) : result (list nat) :=
  try! r := rows a in
  rmap (fun x => try! f := call_finder find_peaks (finder_defaults find_peaks (VInt 100) ∅) x in
                 Ok (peak_count f)) r.

(** A data set in which dV/dI has exactly one peak in each sweep. *)
Definition dVdI_one_peak : farray := mk_nd [2; 6] [0; 0; 0; 200; 0; 0; 0; 0; 200; 0; 0; 0]%float.
Definition V_one_peak : farray := mk_nd [2; 6] [0; 1; 2; 9; 10; 11; 11; 10; 9; 2; 1; 0]%float.

Definition st_one_peak : state :=
  mk_state loaded_halfswing [I_2x6; V_one_peak; dVdI_one_peak] ∅ ∅.

(** The same data in a context whose sweeps have no known topology. *)
Definition st_custom : state :=
  mk_state (self.set_sweeptype None loaded_halfswing) [I_2x6; V_2x6; dVdI_2x6] ∅ ∅.

(** The record of the second sweep in the properties a detector returns
    for a custom sweep type: its current entry. *)
Definition second_current (r : result (detected * state)) : option propval :=
  match r with
  | Ok (Whole (Events (Nest [_; Leaf rec])), _) => rec !! "I"
  | _ => None
  end.

(** ** What load assembles: the notions of its statement *)

(** The values of the dataset that a measurement file stores under a url. *)
Definition stored (df : datafile) (url : string) : option farray :=
  ds_values <$> df_entries df !! url.

(** An array of shape outer + (L,) with all its data. *)
Definition traces_of (outer : list nat) (L : nat) (a : farray) : Prop :=
  shape a = outer ++ [L] /\ length (data a) = prod_list outer * L.

(** The largest of L 0, ..., L (n - 1). *)
Definition longest (L : nat -> nat) (n : nat) : nat :=
  fold_right (fun j m => Nat.max (L j) m) 0 (seq 0 n).

(** The array b holds the arrays a 0, ..., a (n - 1), every trace padded
    with NaN at its end to the length Lmax: entry (j, o, k) of b is entry
    (o, k) of a j for k below the length L j of sweep j, and NaN from there
    on. *)
Definition right_padded (outer : list nat) (L : nat -> nat) (n Lmax : nat)
    (a : nat -> farray) (b : farray) : Prop :=
  shape b = n :: outer ++ [Lmax] /\
  forall j o k, j < n -> o < prod_list outer -> k < Lmax ->
    data b !! ((j * prod_list outer + o) * Lmax + k)
    = if k <? L j then data (a j) !! (o * L j + k) else Some nan.

(** A context that holds nothing but its scan dimension. *)
Definition st_scan (d : Z) : state :=
  mk_state (self.set_scan_dim (Some d) self.__init__) [] ∅ ∅.

(** Rows 0, ..., j - 1 of a block of n rows of P entries hold the data
    [r 0], ..., [r (j - 1)]. *)
Definition rows_done (n P : nat) (sh : list nat) (r : nat -> list float) (j : nat)
    (b : farray) : Prop :=
  shape b = n :: sh /\ length (data b) = n * P /\
  forall j' t, j' < j -> t < P -> data b !! (j' * P + t) = r j' !! t.

(** The results of the analysis that self keeps besides the arrays of the
    measurement: V_corr, I_offsets, V_offsets, I_offset, V_offset. *)
Definition derived (s : self.t)
  : option loc * option farray * option farray * option float * option float :=
  (self.V_corr s, self.I_offsets s, self.V_offsets s, self.I_offset s, self.V_offset s).

(** The attributes with which load goes on: those of __init__ when another
    measurement was loaded before, else the ones it finds. *)
Definition reset_for (uuid : string) (s : self.t) : self.t :=
  if negb (bool_decide (Some uuid = self.uuid s)) && negb (bool_decide (self.uuid s = None))
  then self.__init__ else s.

(** A computation that, when it returns, leaves the attributes of self as
    they were. *)
Definition keeps_obj {A} (m : M A) : Prop :=
  forall st a st', m st = Ok (a, st') -> obj st' = obj st.

(** A computation that, when it returns, leaves the whole state. *)
Definition keeps_state {A} (m : M A) : Prop :=
  forall st a st', m st = Ok (a, st') -> st' = st.

(** ** The rule by which a peak counts as a jump *)

Section jump_rule.
Context {N : Numerics}.

(** The mean of the voltage over the w2 samples before (sign = -1) or after
    (sign = 1) the sample p. *)
Definition window_mean (V1D : list float) (w2 : nat) (sign p : Z) : result float :=
  try! vs := take V1D (map (fun r => (p + sign * (Z.of_nat r + 1))%Z) (seq 0 w2)) in
  Ok (np_mean vs).

(** A peak at p is a jump out of the flat branch (critical) when the mean
    before it lies within tol_offset of V_offset and the mean after it does
    not, and a jump into the flat branch (retrapping) when it is the other
    way round. *)
Definition jump_at (critical : bool) (tol_offset V_offset : float) (w2 : nat)
    (V1D : list float) (p : Z) : result bool :=
  try! b := window_mean V1D w2 (-1) p in
  try! a := window_mean V1D w2 1 p in
  Ok (if critical
      then inside tol_offset V_offset b && negb (inside tol_offset V_offset a)
      else negb (inside tol_offset V_offset b) && inside tol_offset V_offset a).

End jump_rule.

(** [a[k]] for a 1-D array and a Python index k. *)
Definition entry (a : farray) (k : Z) : option float :=
  match py_index (length (data a)) k with
  | Ok i => data a !! i
  | Raise _ => None
  end.

Section first_jump_rule.
Context {N : Numerics}.

(** p is the first of the peaks idx, in their order, that is a jump of the
    kind asked for. *)
Definition first_jump (critical : bool) (tol_offset V_offset : float) (w2 : nat)
    (V1D : list float) (idx : list Z) (p : Z) : Prop :=
  exists k, idx !! k = Some p /\
            jump_at critical tol_offset V_offset w2 V1D p = Ok true /\
            forall k' p', k' < k -> idx !! k' = Some p' ->
                          jump_at critical tol_offset V_offset w2 V1D p' = Ok false.

End first_jump_rule.

(** ** Further example data *)

(** A context that holds the ragged measurement file and its scan
    dimension, as load has assigned them when it calls get_bias. *)
Definition st_ragged_header : state :=
  mk_state (self.set_scan_dim (Some 1%Z) (self.set_df (Some ragged_file) self.__init__)) [] ∅ ∅.

(** A measurement file whose i_0 carries no url of its sweep axis. *)
Definition axisless_file : datafile :=
  mk_datafile "data/axisless.h5"
    {[ "entry/data0/i_0" := mk_dataset (fvec [0; 1; 2]%float) {[ "ds_type" := AInt 1 ]};
       "entry/data0/v_0" := mk_dataset (fvec [0; 10; 20]%float) {[ "ds_type" := AInt 1 ]} ]}
    "transport" [(0, 2, 1)]%float "{}".

Definition st_axisless_header : state :=
  mk_state (self.set_scan_dim (Some 1%Z) (self.set_df (Some axisless_file) self.__init__)) [] ∅ ∅.

(** The sweeps of the ragged measurement file: their lengths, currents,
    voltages and stored derivatives. *)
Definition ragged_L (j : nat) : nat := if j =? 0 then 3 else 2.
Definition ragged_i (j : nat) : farray :=
  if j =? 0 then fvec [0; 1; 2]%float else fvec [2; 0]%float.
Definition ragged_v (j : nat) : farray :=
  if j =? 0 then fvec [0; 10; 20]%float else fvec [20; 0]%float.
Definition ragged_dvdi (j : nat) : farray :=
  if j =? 0 then fvec [10; 10; 10]%float else fvec [10; 10]%float.


(** A context that analysed another measurement before: it holds a uuid,
    a corrected voltage (object 0) and a voltage offset. *)
Definition st_other : state :=
  mk_state (self.set_offset (Some 0%float) (Some 1e-6%float)
              (self.set_V_corr (Some 0) (self.set_uuid (Some "OTHER") self.__init__)))
           [fvec [1; 2]%float] {[ "RAGGED" := ragged_file ]} ∅.

(** A loaded 1D half-swing measurement whose sweeps pass through the flat
    branch: each sweep retraps into it at its third sample and jumps out of
    it at its sixth.  I, V and dV/dI are the array objects 0, 1, 2. *)
Definition I_swing : farray :=
  mk_nd [2; 9] [-4; -3; -2; -1; 0; 1; 2; 3; 4; 4; 3; 2; 1; 0; -1; -2; -3; -4]%float.
Definition V_swing : farray :=
  mk_nd [2; 9] [-1; -1; -1; 0; 0; 0; 1; 1; 1; 1; 1; 1; 0; 0; 0; -1; -1; -1]%float.
Definition dVdI_swing : farray :=
  mk_nd [2; 9] [0; 0; 300; 0; 0; 300; 0; 0; 0; 0; 0; 300; 0; 0; 300; 0; 0; 0]%float.

Definition st_swing : state :=
  mk_state (self.set_sweeps (Some [(-4, 4, 1); (4, -4, 1)]%float) loaded_halfswing)
           [I_swing; V_swing; dVdI_swing] ∅ ∅.

(** The 1D half-swing example with a known voltage offset of zero. *)
Definition st_swing_offset : state :=
  mk_state (self.set_offset (Some 0%float) (Some 0%float) (obj st_swing))
           (heap st_swing) ∅ ∅.

(** A 1D half-swing measurement under current bias with two sweeps of 15
    points on the line V = 2 I; no derivative was stored during the
    measurement. *)
Definition ramp_up : list float := [0; 1; 2; 3; 4; 5; 6; 7; 8; 9; 10; 11; 12; 13; 14]%float.
Definition ramp_down : list float := [14; 13; 12; 11; 10; 9; 8; 7; 6; 5; 4; 3; 2; 1; 0]%float.

Definition bare_file : datafile :=
  mk_datafile "data/bare.h5"
    {[ "entry/data0/i_0" := mk_dataset (fvec ramp_up) (axis_attrs 1 "entry/data0/i_b_0");
       "entry/data0/v_0" := mk_dataset (fvec (map (PrimFloat.mul 2) ramp_up))
                              (axis_attrs 1 "entry/data0/i_b_0");
       "entry/data0/i_1" := mk_dataset (fvec ramp_down) (axis_attrs 1 "entry/data0/i_b_1");
       "entry/data0/v_1" := mk_dataset (fvec (map (PrimFloat.mul 2) ramp_down))
                              (axis_attrs 1 "entry/data0/i_b_1") ]}
    "transport" [(0, 14, 1); (14, 0, 1)]%float "{}".

Definition st_bare : state := mk_state self.__init__ [] {[ "BARE" := bare_file ]} ∅.

(** The reference instance on a memory whose contents np.empty finds to be
    [mem l k] at entry k of the new object l. *)
Definition numerics_on_memory (mem : loc -> nat -> float) : Numerics := {|
  uninit := mem;
  sig_savgol_filter := Ref.savgol;
  np_gradient := Ref.gradient;
  np_mean := Ref.mean;
  np_nanmean := Ref.nanmean;
  np_nanmin := Ref.nanmin;
  np_nanmax := Ref.nanmax;
  sig_find_peaks := Ref.find_peaks;
  sig_find_peaks_cwt := Ref.find_peaks_cwt;
  qr_solve := Ref.line_fit;
  np_linspace := Ref.linspace;
  np_fft := @np_fft Ref.numerics;
  np_ifft := @np_ifft Ref.numerics;
  np_fftfreq := @np_fftfreq Ref.numerics;
  np_exp := @np_exp Ref.numerics;
  np_abs := @np_abs Ref.numerics
|}.

(** The array self.dVdI refers to after a call that returned. *)
Definition dVdI_after {A} (r : result (A * state)) : option farray :=
  match r with
  | Ok (_, st') => match self.dVdI (obj st') with
                   | Some l => heap st' !! l
                   | None => None
                   end
  | Raise _ => None
  end.

(** Row j of the array self.<a> refers to. *)
Definition loaded_row (a : self.t -> option loc) (j : Z) (st : state) : option farray :=
  match a (obj st) with
  | Some l => match heap st !! l with
              | Some b => match row j b with Ok r => Some r | Raise _ => None end
              | None => None
              end
  | None => None
  end.

(** * Theorems *)

(** ** Lists of results *)

Lemma rmap_ok_lookup {A B} (f : A -> result B) (l : list A) (r : list B) (k : nat) (x : A) :
  rmap f l = Ok r -> l !! k = Some x -> exists y, f x = Ok y /\ r !! k = Some y.
Proof.
  revert r k. induction l as [|a l IH]; intros r k Hr Hk; [discriminate|].
  simpl in Hr. destruct (f a) as [b|] eqn:Hb; [|discriminate]. simpl in Hr.
  destruct (rmap f l) as [bs|] eqn:Hbs; [|discriminate]. simpl in Hr.
  inversion Hr; subst r. destruct k as [|k]; simpl in Hk.
  - inversion Hk; subst. exists b. auto.
  - destruct (IH bs k eq_refl Hk) as (y & Hy & Hl). exists y. auto.
Qed.

Lemma rmap_raise_at {A B} (f : A -> result B) (l : list A) (k : nat) (x : A) (e : exn) :
  l !! k = Some x -> f x = Raise e ->
  (forall j x', j < k -> l !! j = Some x' -> is_ok (f x') = true) ->
  rmap f l = Raise e.
Proof.
  revert k. induction l as [|a l IH]; intros k Hk He Hbefore; [discriminate|].
  destruct k as [|k]; simpl in Hk.
  - inversion Hk; subst. simpl. rewrite He. reflexivity.
  - simpl. pose proof (Hbefore 0 a ltac:(lia) eq_refl) as H0.
    destruct (f a); [|discriminate]. simpl.
    rewrite (IH k Hk He); [reflexivity|].
    intros j x' Hj Hx'. apply (Hbefore (S j) x'); [lia|exact Hx'].
Qed.

Lemma rmap_length {A B} (f : A -> result B) (l : list A) (r : list B) :
  rmap f l = Ok r -> length r = length l.
Proof.
  revert r. induction l as [|a l IH]; intros r Hr; simpl in Hr.
  - inversion Hr. reflexivity.
  - destruct (f a); [|discriminate]. simpl in Hr.
    destruct (rmap f l) as [bs|]; [|discriminate]. inversion Hr. simpl. f_equal. auto.
Qed.

(** ** Sweep topology (get_sweeptype) *)

Example classify_halfswing :
  returned (get_sweeptype (Some halfswing_set) st_fresh) = Some (Some 0%Z).
Proof. vm_compute. reflexivity. Qed.

Example classify_4quadrant :
  returned (get_sweeptype (Some fourquadrant_set) st_fresh) = Some (Some 1%Z).
Proof. vm_compute. reflexivity. Qed.

Example classify_single :
  returned (get_sweeptype (Some [(0, 1, 0.1)%float]) st_fresh) = Some None.
Proof. vm_compute. reflexivity. Qed.

(** What get_sweeptype returns: the topology when the rule finds one, None
    for a count other than two and four, and for two or four sweeps that
    fail the rule whatever self.sweeptype held before the call. *)
Lemma get_sweeptype_returns (sweeps : list sweep) (st : state) :
  returned (get_sweeptype (Some sweeps) st) =
  Some (match topology sweeps with
        | Some t => Some t
        | None => if (length sweeps =? 2) || (length sweeps =? 4)
                  then self.sweeptype (obj st) else None
        end).
Proof.
  unfold get_sweeptype, topology, bind, get_self, set_self, ret, returned.
  destruct st as [o h f d]; destruct o; simpl.
  destruct sweeps as [|s0 [|s1 [|s2 [|s3 [|s4 r]]]]]; simpl; try reflexivity.
  - destruct (returns s0 s1); reflexivity.
  - destruct (returns s0 s1 && returns s2 s3); reflexivity.
Qed.

(** In a context that holds no sweep type yet (as after __init__) the
    classifier returns exactly the topology of the rule. *)
Lemma get_sweeptype_unclassified (sweeps : list sweep) (st : state) :
  self.sweeptype (obj st) = None ->
  returned (get_sweeptype (Some sweeps) st) = Some (topology sweeps).
Proof.
  intros H. rewrite get_sweeptype_returns, H.
  destruct (topology sweeps); [reflexivity|].
  destruct ((length sweeps =? 2) || (length sweeps =? 4)); reflexivity.
Qed.

(** C2: a context that classified a half-swing set and is then asked about
    two sweeps that fail the half-swing relation answers half-swing (0), not
    custom (None): the branch for two sweeps assigns self.sweeptype only
    when the relation holds, and the stale value is returned. *)
Theorem get_sweeptype_mismatch_returns_previous :
  returns (0, 1, 0.1)%float (0, 1, 0.1)%float = false /\
  returned ((get_sweeptype (Some halfswing_set) ;;
             get_sweeptype (Some mismatched_pair)) st_fresh) = Some (Some 0%Z).
Proof. split; vm_compute; reflexivity. Qed.

(** ** Differentiation (get_dydx) *)

(** The fallback of the handler, had it been reached, does what the claim
    describes. *)
Example strip_differentiate_append_tail :
  forall N : Numerics,
    strip_differentiate_append (other_mode nan_averse) ∅ nan_tailed
    = Ok (fvec [1; 2; 3; nan; nan]%float).
Proof. intros N. vm_compute. reflexivity. Qed.

(** Whenever the strategy raises, the handler raises TypeError in its
    format call, before the fallback. *)
Lemma get_dydx_handler_raises (N : Numerics) (y : farray) (mode : strategy)
    (kw : gmap string pyval) (st : state) (e : exn) :
  call_mode mode (mode_defaults (obj st) mode kw) y = Raise e ->
  get_dydx y None mode kw st = Raise TypeError.
Proof.
  intros H. unfold get_dydx, bind, get_self, try_except, lift. simpl.
  rewrite H. reflexivity.
Qed.

(** C4: on [f(0), f(1), f(2), NaN, NaN] with a strategy that fails on the
    NaNs, get_dydx raises TypeError (the format call of the handler) instead
    of returning the derivative of the prefix followed by two NaNs. *)
Theorem get_dydx_nan_tail_raises :
  forall N : Numerics,
    raised (nan_averse ∅ nan_tailed) = Some ValueError /\
    get_dydx nan_tailed None (other_mode nan_averse) ∅ st_fresh = Raise TypeError.
Proof. intros N. split; vm_compute; reflexivity. Qed.

(** ** Saving (save) *)

(** A stored V_corr with more than one element has no truth value: the
    test [if self.V_corr:] raises ValueError. *)
Lemma add_V_corr_raises (st : state) (params : gmap string jval) (l : loc) (a : farray)
    (x y : float) (rest : list float) :
  heap st !! l = Some a ->
  data a = x :: y :: rest ->
  add_V_corr (Some l) params st = Raise ValueError.
Proof.
  intros Hl Hd. unfold add_V_corr, bind, deref, lift, truth. rewrite Hl, Hd. reflexivity.
Qed.

Lemma save_raises_on_V_corr (blank : string) (filename : string)
    (params : option (gmap string jval)) (st : state) (l : loc) (a : farray) (x y : float)
    (rest : list float) :
  self.V_corr (obj st) = Some l ->
  heap st !! l = Some a ->
  data a = x :: y :: rest ->
  raised (save blank filename params st) <> None.
Proof.
  intros HV Hl Hd. unfold save.
  unfold bind at 1. unfold get_self at 1.
  unfold bind at 1. destruct (j_array (self.I (obj st)) st) as [[jI st1]|] eqn:H1; [|discriminate].
  unfold bind at 1. destruct (j_array (self.V (obj st)) st1) as [[jV st2]|] eqn:H2; [|discriminate].
  unfold bind at 1. destruct (j_array (self.dVdI (obj st)) st2) as [[jd st3]|] eqn:H3; [|discriminate].
  assert (Hst : forall o s s' j, j_array o s = Ok (j, s') -> s' = s).
  { intros o s s' j. unfold j_array, bind, deref, ret. destruct o as [l0|].
    - destruct (heap s !! l0); [|discriminate]. intros H; inversion H; reflexivity.
    - intros H; inversion H; reflexivity. }
  apply Hst in H1, H2, H3. subst st1 st2 st3.
  unfold bind at 1. rewrite HV.
  rewrite (add_V_corr_raises st _ l a x y rest Hl Hd). discriminate.
Qed.

Lemma class_variables_no_V_corr (blank : string) (s : self.t) (jI jV jdVdI : jval) :
  class_variables blank s jI jV jdVdI !! "V_corr" = None.
Proof. unfold class_variables. vm_compute. reflexivity. Qed.

(** Without a stored V_corr the document is written, and it has a V_corr
    entry only if the caller's own parameters have one. *)
Lemma save_without_V_corr (blank : string) (filename : string)
    (params : gmap string jval) (st : state) :
  self.V_corr (obj st) = None ->
  self.I (obj st) = None -> self.V (obj st) = None -> self.dVdI (obj st) = None ->
  exists st' doc,
    save blank filename (Some params) st = Ok (tt, st') /\
    disk st' !! json_name filename = Some doc /\
    doc !! "V_corr" = params !! "V_corr".
Proof.
  intros HV HI HVv Hd. unfold save, bind, get_self, j_array, add_V_corr, ret.
  rewrite HI, HVv, Hd, HV.
  eexists _, _. split; [reflexivity|]. split.
  - cbn [disk]. apply lookup_insert_eq.
  - change (default ∅ (Some params)) with params.
    rewrite lookup_union, class_variables_no_V_corr.
    destruct (params !! "V_corr"); reflexivity.
Qed.

(** C6: in a context whose V_corr is a computed 2 x 6 array, save raises
    ValueError at [if self.V_corr:] and writes nothing; the claim says it
    completes and the document holds V_corr. *)
Theorem save_after_correction_raises :
  forall blank : string,
    self.V_corr (obj st_corrected) = Some 3 /\
    save blank "result" None st_corrected = Raise ValueError.
Proof. intros blank. split; vm_compute; reflexivity. Qed.

(** ** Threshold detector (get_Ic_threshold) *)

(** C10: when the supplied V has exactly one axis, get_Ic_threshold without
    an offset raises TypeError in the mask computation, whatever the cached
    self.V_offset; when V has any other number of axes, an omitted offset is
    replaced by self.V_offset, or by 0 when that is None. *)
Theorem get_Ic_threshold_offset_default (N : Numerics) (st : state) (I : option loc)
    (v : loc) (Va : farray) (threshold : float) (Ir : bool) :
  heap st !! v = Some Va ->
  (ndim Va = 1 ->
   get_Ic_threshold I (Some v) threshold None Ir st = Raise TypeError) /\
  (ndim Va <> 1 ->
   get_Ic_threshold I (Some v) threshold None Ir st =
   get_Ic_threshold I (Some v) threshold
     (Some (match self.V_offset (obj st) with Some o => o | None => 0%float end)) Ir st).
Proof.
  intros Hv. unfold get_Ic_threshold, bind, deref. rewrite Hv. split; intros Hn.
  - rewrite Hn. reflexivity.
  - destruct (Nat.eqb_spec (ndim Va) 1) as [E|E]; [contradiction|]. reflexivity.
Qed.

Lemma get_Ic_threshold_offset_default_witness :
  get_Ic_threshold (N := Ref.numerics) (Some 0) (Some 1) 20e-6%float None false st_trace
    = Raise TypeError /\
  get_Ic_threshold (N := Ref.numerics) (Some 0) (Some 1) 20e-6%float None false st_loaded
    = get_Ic_threshold (N := Ref.numerics) (Some 0) (Some 1) 20e-6%float (Some 0%float) false st_loaded.
Proof.
  split.
  - apply (proj1 (get_Ic_threshold_offset_default Ref.numerics st_trace (Some 0) 1
                    (fvec [0; 0; 1; 1]%float) 20e-6%float false eq_refl)).
    reflexivity.
  - apply (proj2 (get_Ic_threshold_offset_default Ref.numerics st_loaded (Some 0) 1
                    V_2x6 20e-6%float false eq_refl)).
    vm_compute. discriminate.
Defined.

(** With the offset supplied, the single-trace branch returns the largest
    current of the flat branch. *)
Example get_Ic_threshold_in_situ :
  returned (get_Ic_threshold (N := Ref.numerics) (Some 0) (Some 1) 20e-6%float (Some 0%float)
              false st_trace) = Some (Scalar 1%float).
Proof. vm_compute. reflexivity. Qed.

(** ** Frequency-domain detector (get_Ic_dft) *)

(** The whole-dataset branch never returns: a call that returns is a
    single-trace call. *)
Lemma get_Ic_dft_returns_in_situ_only (N : Numerics) (I V dVdI : option loc) (s : float)
    (Ir : bool) (tol_offset : float) (window : Z) (pf : finder) (kw : gmap string pyval)
    (st st' : state) (r : detected) :
  get_Ic_dft I V dVdI s Ir tol_offset window pf kw st = Ok (r, st') ->
  exists v Va res, V = Some v /\ heap st !! v = Some Va /\ ndim Va = 1 /\ r = InSitu res.
Proof.
  unfold get_Ic_dft. destruct V as [v|]; [|discriminate].
  unfold bind at 1. unfold deref at 1.
  destruct (heap st !! v) as [Va|] eqn:Hv; [|discriminate].
  destruct (Nat.eqb_spec (ndim Va) 1) as [E|E].
  - intros H. exists v, Va.
    unfold bind, lift, ret in H.
    destruct (offset_slope 0 Va); [|discriminate].
    destruct (_peak_finder _ _ _); [|discriminate].
    destruct I as [i|].
    + unfold deref in H. destruct (heap st !! i); [|discriminate].
      destruct (in_situ _ _) as [res|]; [|discriminate].
      exists res. inversion H; subst. repeat split; auto.
    + destruct (in_situ _ _) as [res|]; [|discriminate].
      exists res. inversion H; subst. repeat split; auto.
  - intros H. exfalso.
    unfold bind, lift, ret, get_self, raise in H.
    destruct (self.scan_dim (obj st)) as [d|]; [|discriminate].
    destruct ((1 <=? d)%Z && (d <=? 3)%Z); [|discriminate].
    destruct (offset_slope _ _); discriminate.
Qed.

(** C1: on the loaded 1D half-swing data set, whatever the numerical
    library, get_Ic_dft raises TypeError: the whole-dataset branch calls
    _get_deriv_dft without its argument, so no transform, no peak search and
    no classification take place. *)
Theorem get_Ic_dft_whole_dataset_raises :
  forall N : Numerics,
    get_Ic_dft (Some 0) (Some 1) (Some 2) 10%float false 20e-6%float 5%Z find_peaks ∅ st_loaded
    = Raise TypeError.
Proof. intros N. vm_compute. reflexivity. Qed.

(** ** Ohmic slope correction (get_2wire_slope_correction) *)

Section twowire.
Context (N : Numerics).

(** A slice with exactly one peak, at index p: the line is fitted to the
    samples before p. *)
Lemma correct_trace_one_peak (pf : finder) (kw : gmap string pyval) (I1D V1D d1D : farray)
    (p : Z) (props : gmap string propval) (prom : float) :
  call_finder pf kw d1D = Ok (Peaks (Ints [p]) props) ->
  props !! "prominences" = Some (PFloats [prom]) ->
  ndim I1D = 1 -> ndim V1D = 1 ->
  correct_trace pf kw I1D V1D d1D =
  (try! popt := lin_fit (py_slice None p (data I1D)) (py_slice None p (data V1D)) in
   nd_map2 PrimFloat.sub V1D
     (nd_map (fun i => PrimFloat.add (PrimFloat.mul (fst popt) i) (snd popt)) I1D)).
Proof.
  intros Hf Hp HI HV. unfold correct_trace. rewrite Hf. simpl.
  unfold branch_slice. rewrite Hp. simpl. rewrite HI, HV. simpl. reflexivity.
Qed.

(** A slice without a peak: the call of slice() has no argument. *)
Lemma correct_trace_no_peak (pf : finder) (kw : gmap string pyval) (I1D V1D d1D : farray)
    (props : gmap string propval) :
  call_finder pf kw d1D = Ok (Peaks (Ints []) props) ->
  props !! "prominences" = Some (PFloats []) ->
  correct_trace pf kw I1D V1D d1D = Raise TypeError.
Proof.
  intros Hf Hp. unfold correct_trace. rewrite Hf. simpl.
  unfold branch_slice. rewrite Hp. reflexivity.
Qed.

(** The scan_dim == 1 branch: the traces are corrected in turn, the first
    failure is the failure of the call, and the stacked result becomes
    self.V_corr. *)
Lemma get_2wire_scan_dim_1 (st : state) (li lv ld : loc) (Ia Va da : farray)
    (ri rv rd : list farray) (pf : finder) (kw : gmap string pyval) :
  self.scan_dim (obj st) = Some 1%Z ->
  heap st !! li = Some Ia -> heap st !! lv = Some Va -> heap st !! ld = Some da ->
  rows Ia = Ok ri -> rows Va = Ok rv -> rows da = Ok rd ->
  get_2wire_slope_correction (Some li) (Some lv) (Some ld) pf kw st =
  match rmap (fun t => correct_trace pf (finder_defaults pf (VInt 100) kw)
                         (fst (fst t)) (snd (fst t)) (snd t)) (zip3 ri rv rd) with
  | Raise e => Raise e
  | Ok rs =>
      match stack rs with
      | Raise e => Raise e
      | Ok a => Ok (length (heap st),
                    mk_state (self.set_V_corr (Some (length (heap st))) (obj st))
                             (heap st ++ [a]) (fid st) (disk st))
      end
  end.
Proof.
  intros Hd Hi Hv Hdd Hri Hrv Hrd.
  unfold get_2wire_slope_correction, bind, get_self, deref, lift, ret, alloc, set_self.
  rewrite Hd, Hdd, Hi, Hv, Hrd, Hri, Hrv. simpl.
  destruct (rmap _ _) as [rs|]; [|reflexivity].
  destruct (stack rs); reflexivity.
Qed.

(** The slope correction does not check the number of peaks.
    For scan dimension 1 and the k-th trace (I1D, V1D, d1D):
    - if the peak finder reports no peak on d1D and the traces before it
      were corrected, the call raises TypeError (slice() without arguments);
    - if it reports exactly one peak, at index p, and the call returns, then
      the line was fitted to the samples before p, and row k of the stored
      V_corr is V1D minus that line. *)
Theorem slope_correction_peak_count (st : state) (li lv ld : loc) (Ia Va da : farray)
    (ri rv rd : list farray) (pf : finder) (kw : gmap string pyval)
    (k : nat) (I1D V1D d1D : farray) :
  self.scan_dim (obj st) = Some 1%Z ->
  heap st !! li = Some Ia -> heap st !! lv = Some Va -> heap st !! ld = Some da ->
  rows Ia = Ok ri -> rows Va = Ok rv -> rows da = Ok rd ->
  zip3 ri rv rd !! k = Some (I1D, V1D, d1D) ->
  ndim I1D = 1 -> ndim V1D = 1 ->
  (forall props,
      call_finder pf (finder_defaults pf (VInt 100) kw) d1D = Ok (Peaks (Ints []) props) ->
      props !! "prominences" = Some (PFloats []) ->
      (forall j t, j < k -> zip3 ri rv rd !! j = Some t ->
                   is_ok (correct_trace pf (finder_defaults pf (VInt 100) kw)
                            (fst (fst t)) (snd (fst t)) (snd t)) = true) ->
      get_2wire_slope_correction (Some li) (Some lv) (Some ld) pf kw st = Raise TypeError)
  /\
  (forall p props prom l st',
      call_finder pf (finder_defaults pf (VInt 100) kw) d1D = Ok (Peaks (Ints [p]) props) ->
      props !! "prominences" = Some (PFloats [prom]) ->
      get_2wire_slope_correction (Some li) (Some lv) (Some ld) pf kw st = Ok (l, st') ->
      exists m c corrected rs a,
        lin_fit (py_slice None p (data I1D)) (py_slice None p (data V1D)) = Ok (m, c) /\
        nd_map2 PrimFloat.sub V1D
          (nd_map (fun i => PrimFloat.add (PrimFloat.mul m i) c) I1D) = Ok corrected /\
        rs !! k = Some corrected /\
        stack rs = Ok a /\
        heap st' !! l = Some a /\
        self.V_corr (obj st') = Some l).
Proof.
  intros Hd Hi Hv Hdd Hri Hrv Hrd Hk HI1 HV1.
  rewrite (get_2wire_scan_dim_1 st li lv ld Ia Va da ri rv rd pf kw Hd Hi Hv Hdd Hri Hrv Hrd).
  split.
  - intros props Hf Hp Hbefore.
    rewrite (rmap_raise_at _ _ k (I1D, V1D, d1D) TypeError Hk); [reflexivity| |exact Hbefore].
    simpl. apply (correct_trace_no_peak pf _ I1D V1D d1D props Hf Hp).
  - intros p props prom l st' Hf Hp Hcall.
    destruct (rmap _ _) as [rs|] eqn:Hrs; [|discriminate].
    destruct (stack rs) as [a|] eqn:Ha; [|discriminate].
    inversion Hcall; subst l st'; clear Hcall.
    destruct (rmap_ok_lookup _ _ _ k _ Hrs Hk) as (corrected & Hc & Hl).
    simpl in Hc.
    rewrite (correct_trace_one_peak pf _ I1D V1D d1D p props prom Hf Hp HI1 HV1) in Hc.
    destruct (lin_fit _ _) as [[m c]|] eqn:Hfit; [|discriminate]. simpl in Hc.
    exists m, c, corrected, rs, a. repeat split; try assumption.
    + simpl. rewrite lookup_app_r by lia. rewrite Nat.sub_diag. reflexivity.
    + simpl. destruct (obj st). reflexivity.
Qed.

End twowire.

(** The example data: one peak in each sweep of [dVdI_one_peak], one peak
    and none in the sweeps of [dVdI_2x6]. *)
Example peak_counts_one_peak : peak_counts Ref.numerics dVdI_one_peak = Ok [1; 1].
Proof. vm_compute. reflexivity. Qed.

Example peak_counts_2x6 : peak_counts Ref.numerics dVdI_2x6 = Ok [1; 0].
Proof. vm_compute. reflexivity. Qed.

(** C3: the slope correction has no check of the number of peaks.  On the
    loaded data set whose dV/dI has exactly one peak in each sweep, fewer
    than the two that bound the branch, it raises nothing and stores a
    corrected voltage; on the data set whose second sweep has no peak it
    fails with the TypeError of slice() called without arguments, not with
    an error of its own. *)
Theorem slope_correction_one_peak_returns :
  peak_counts Ref.numerics dVdI_one_peak = Ok [1; 1] /\
  is_ok (get_2wire_slope_correction (N := Ref.numerics) None None None find_peaks ∅ st_one_peak)
  = true /\
  peak_counts Ref.numerics dVdI_2x6 = Ok [1; 0] /\
  get_2wire_slope_correction (N := Ref.numerics) None None None find_peaks ∅ st_loaded
  = Raise TypeError.
Proof. repeat split; vm_compute; reflexivity. Qed.

Lemma slope_correction_peak_count_witness :
  get_2wire_slope_correction (N := Ref.numerics) (Some 0) (Some 1) (Some 2) find_peaks ∅ st_loaded
  = Raise TypeError
  /\
  exists m c corrected rs a,
    lin_fit (N := Ref.numerics) (py_slice None 3 [0; 1; 2; 3; 4; 5]%float)
                                (py_slice None 3 [0; 1; 2; 9; 10; 11]%float) = Ok (m, c) /\
    nd_map2 PrimFloat.sub (fvec [0; 1; 2; 9; 10; 11]%float)
      (nd_map (fun i => PrimFloat.add (PrimFloat.mul m i) c) (fvec [0; 1; 2; 3; 4; 5]%float))
    = Ok corrected /\
    rs !! 0 = Some corrected /\
    stack rs = Ok a.
Proof.
  split.
  - refine (proj1 (slope_correction_peak_count Ref.numerics st_loaded 0 1 2
                     I_2x6 V_2x6 dVdI_2x6 _ _ _ find_peaks ∅ 1
                     (fvec [5; 4; 3; 2; 1; 0]%float) (fvec [0; 0; 0; 0; 0; 0]%float)
                     (fvec [0; 0; 0; 0; 0; 0]%float)
                     eq_refl eq_refl eq_refl eq_refl eq_refl eq_refl eq_refl eq_refl
                     eq_refl eq_refl) _ _ _ _).
    + vm_compute. reflexivity.
    + vm_compute. reflexivity.
    + intros [|[|j]] t Hj Ht; [|lia|lia].
      inversion Ht; subst t. vm_compute. reflexivity.
  - pose proof (proj2 (slope_correction_peak_count Ref.numerics st_one_peak 0 1 2
                     I_2x6 V_one_peak dVdI_one_peak _ _ _ find_peaks ∅ 0
                     (fvec [0; 1; 2; 3; 4; 5]%float) (fvec [0; 1; 2; 9; 10; 11]%float)
                     (fvec [0; 0; 0; 200; 0; 0]%float)
                     eq_refl eq_refl eq_refl eq_refl eq_refl eq_refl eq_refl eq_refl
                     eq_refl eq_refl)) as H.
    destruct (get_2wire_slope_correction (N := Ref.numerics) (Some 0) (Some 1) (Some 2)
                find_peaks ∅ st_one_peak) as [[l st']|] eqn:Hcall.
    + destruct (H 3%Z _ 200%float l st' ltac:(vm_compute; reflexivity)
                  ltac:(vm_compute; reflexivity) Hcall)
        as (m & c & corrected & rs & a & H1 & H2 & H3 & H4 & _).
      exists m, c, corrected, rs, a. auto.
    + vm_compute in Hcall. discriminate.
Defined.

(** ** Derivative-domain detector (get_Ic_deriv) *)

Section no_peak.
Context (N : Numerics).


(** Its property record is an IndexError (a boolean index of length one on
    a trace of another length), which only the custom branch catches. *)
Lemma record_no_peak (Y_name : string) (I1D V1D : farray) (Y1D : yarray) :
  length (data I1D) <> 1 ->
  record Y_name I1D V1D Y1D (Peaks (Bools [false]) ∅) = Raise IndexError.
Proof.
  intros H. unfold record, index_by. simpl.
  destruct (length (data I1D)) as [|[|n]]; [reflexivity|congruence|reflexivity].
Qed.

Lemma record_or_nan_no_peak (Y_name : string) (I1D V1D : farray) (Y1D : yarray) :
  length (data I1D) <> 1 ->
  is_ok (record_or_nan Y_name I1D V1D Y1D (Peaks (Bools [false]) ∅)) = true.
Proof.
  intros H. unfold record_or_nan. rewrite record_no_peak by assumption. reflexivity.
Qed.

(** It cannot pass both selections: the critical one needs the samples
    before index 0 inside the band, the retrapping one needs them outside. *)
Lemma classify_slice_no_peak (s1 s2 : bool) (tol_offset V_offset : float) (w2 : nat)
    (I1D I1D' V1D : farray) (c r : picked) :
  classify_slice true s1 tol_offset V_offset w2 I1D V1D (Peaks (Bools [false]) ∅) = Ok c ->
  classify_slice false s2 tol_offset V_offset w2 I1D' V1D (Peaks (Bools [false]) ∅) = Ok r ->
  False.
Proof.
  unfold classify_slice, jump_mask. simpl.
  destruct (ndim V1D =? 1); [|discriminate]. simpl.
  unfold window_means. simpl.
  destruct (take (data V1D) _) as [vb|]; [|discriminate]. simpl.
  destruct (take (data V1D) _) as [va|]; [|discriminate]. simpl.
  destruct (inside tol_offset V_offset (np_mean vb));
    destruct (inside tol_offset V_offset (np_mean va)); simpl; discriminate.
Qed.

End no_peak.

(** C9: on the loaded half-swing data set, whose second sweep has no peak
    in dV/dI, get_Ic_deriv raises IndexError instead of returning a result
    with an empty entry for that sweep. *)
Theorem get_Ic_deriv_no_peak_raises :
  peak_counts Ref.numerics dVdI_2x6 = Ok [1; 0] /\
  get_Ic_deriv (N := Ref.numerics) (Some 0) (Some 1) (Some 2) false 20e-6%float 5%Z find_peaks ∅
    st_loaded = Raise IndexError.
Proof. split; vm_compute; reflexivity. Qed.

(** For a custom sweep type the same data go through: the handler of the
    custom branch turns the IndexError of that sweep into a NaN record. *)
Example get_Ic_deriv_no_peak_custom :
  second_current
    (get_Ic_deriv (N := Ref.numerics) (Some 0) (Some 1) (Some 2) false 20e-6%float 5%Z
       find_peaks ∅ st_custom)
  = Some (PFloats [nan]).
Proof. vm_compute. reflexivity. Qed.

(** ** Offset estimation (get_offsets, get_offset) *)

Section offsets_twice.
Context (N : Numerics).

Lemma np_copy_run (st : state) (l : loc) (a : farray) :
  heap st !! l = Some a ->
  np_copy l st = Ok (length (heap st), mk_state (obj st) (heap st ++ [a]) (fid st) (disk st)).
Proof. intros H. unfold np_copy, bind, deref, alloc. rewrite H. reflexivity. Qed.

Lemma update_run (st : state) (l : loc) (a : farray) (f : farray -> result farray) :
  heap st !! l = Some a ->
  update l f st = match f a with
                  | Ok a' => Ok (tt, mk_state (obj st) (<[l := a']> (heap st)) (fid st) (disk st))
                  | Raise e => Raise e
                  end.
Proof. intros H. unfold update. rewrite H. reflexivity. Qed.

(** One run of get_offsets, from the contents of the arrays: it appends the
    two masked copies to the heap and assigns the offsets; nothing else
    changes. *)
Lemma get_offsets_run (st : state) (x y : option loc) (lx : loc) (oy : option loc)
    (xa ya : farray) (threshold offset : float) (yr : bool) :
  default_xy (obj st) x y = Ok (Some lx, oy) ->
  heap st !! lx = Some xa ->
  pointee st oy ya ->
  get_offsets x y threshold offset yr st =
  match offsets_of (obj st) xa ya threshold offset yr with
  | Raise e => Raise e
  | Ok (io, vo, xc, yc) =>
      Ok ((io, vo),
          mk_state (self.set_offsets (Some io) (Some vo) (obj st))
                   (heap st ++ [xc; yc]) (fid st) (disk st))
  end.
Proof.
  intros Hxy Hx Hy.
  unfold get_offsets, offsets_of.
  unfold bind at 1. unfold get_self at 1.
  unfold bind at 1. unfold lift at 1. rewrite Hxy.
  unfold bind at 1. unfold deref at 1. rewrite Hx.
  unfold bind at 1. unfold lift at 1.
  destruct (branch_mask xa threshold offset) as [mask|]; [|reflexivity]. cbn [rbind].
  unfold bind at 1. rewrite (np_copy_run st lx xa Hx).
  set (st1 := mk_state (obj st) (heap st ++ [xa]) (fid st) (disk st)).
  assert (Hcopy : copy_or_none oy st1 =
                  Ok (S (length (heap st)),
                      mk_state (obj st) (heap st ++ [xa; ya]) (fid st) (disk st))).
  { unfold copy_or_none. destruct oy as [ly|]; unfold pointee in Hy.
    - rewrite (np_copy_run st1 ly ya).
      + subst st1. cbn [heap obj fid disk]. rewrite length_app, <- app_assoc. cbn [length app].
        f_equal. f_equal. lia.
      + subst st1. cbn [heap]. rewrite lookup_app_l; [exact Hy|].
        apply lookup_lt_Some in Hy. exact Hy.
    - subst ya. unfold alloc. subst st1. cbn [heap obj fid disk].
      rewrite length_app, <- app_assoc. cbn [length app]. f_equal. f_equal. lia. }
  unfold bind at 1. rewrite Hcopy. clear Hcopy st1.
  unfold bind at 1.
  rewrite (update_run _ (length (heap st)) xa).
  2:{ cbn [heap]. rewrite lookup_app_r by lia. rewrite Nat.sub_diag. reflexivity. }
  destruct (place (np_logical_not mask) nan xa) as [xc|]; [|reflexivity]. cbn [rbind heap obj fid disk].
  unfold bind at 1.
  rewrite (update_run _ (S (length (heap st))) ya).
  2:{ cbn [heap]. rewrite insert_app_r_alt by lia. rewrite Nat.sub_diag.
      rewrite lookup_app_r by lia.
      replace (S (length (heap st)) - length (heap st)) with 1 by lia. reflexivity. }
  destruct (place (np_logical_not mask) nan ya) as [yc|]; [|reflexivity]. cbn [rbind heap obj fid disk].
  match goal with
  | |- context [mk_state _ ?h _ _] =>
      replace h with (heap st ++ [xc; yc])
  end.
  2:{ rewrite insert_app_r_alt by lia. rewrite Nat.sub_diag. cbn [insert list_insert].
      rewrite insert_app_r_alt by lia.
      replace (S (length (heap st)) - length (heap st)) with 1 by lia. reflexivity. }
  unfold bind at 1. unfold deref at 1. cbn [heap].
  rewrite lookup_app_r by lia. rewrite Nat.sub_diag. cbn [lookup list_lookup].
  unfold bind at 1. unfold deref at 1. cbn [heap].
  rewrite lookup_app_r by lia.
  replace (S (length (heap st)) - length (heap st)) with 1 by lia. cbn [lookup list_lookup].
  unfold bind at 1. unfold lift at 1. cbn [obj].
  destruct (trace_offsets _ _ yr xc yc) as [[xo yo]|]; [|reflexivity]. cbn [rbind fst snd].
  destruct (self.bias (obj st)) as [b|]; [|reflexivity].
  destruct (b <=? 0)%Z; reflexivity.
Qed.

Lemma get_offset_run (st : state) (x y : option loc) (lx : loc) (oy : option loc)
    (xa ya : farray) (threshold offset : float) (yr : bool) :
  default_xy (obj st) x y = Ok (Some lx, oy) ->
  heap st !! lx = Some xa ->
  pointee st oy ya ->
  get_offset x y threshold offset yr st =
  match offsets_of (obj st) xa ya threshold offset yr with
  | Raise e => Raise e
  | Ok (io, vo, xc, yc) =>
      Ok ((np_nanmean (data io), np_nanmean (data vo)),
          mk_state (self.set_offset (Some (np_nanmean (data io))) (Some (np_nanmean (data vo)))
                      (self.set_offsets (Some io) (Some vo) (obj st)))
                   (heap st ++ [xc; yc]) (fid st) (disk st))
  end.
Proof.
  intros Hxy Hx Hy. unfold get_offset. unfold bind at 1.
  rewrite (get_offsets_run st x y lx oy xa ya threshold offset yr Hxy Hx Hy).
  destruct (offsets_of _ _ _ _ _ _) as [[[[io vo] xc] yc]|]; reflexivity.
Qed.

(** The attributes the offsets are computed from are not the ones the
    offset methods assign. *)
Lemma default_xy_after (s : self.t) (x y : option loc) (io vo : option farray)
    (i v : option float) :
  default_xy (self.set_offset i v (self.set_offsets io vo s)) x y = default_xy s x y
  /\ default_xy (self.set_offsets io vo s) x y = default_xy s x y.
Proof. destruct s. split; reflexivity. Qed.

Lemma offsets_of_after (s : self.t) (io vo : option farray) (i v : option float)
    (xa ya : farray) (threshold offset : float) (yr : bool) :
  offsets_of (self.set_offset i v (self.set_offsets io vo s)) xa ya threshold offset yr
  = offsets_of s xa ya threshold offset yr
  /\ offsets_of (self.set_offsets io vo s) xa ya threshold offset yr
    = offsets_of s xa ya threshold offset yr.
Proof. destruct s. split; reflexivity. Qed.

(** The arrays that stand for omitted arguments are allocated when the
    arrays of self are. *)
Lemma default_xy_allocated (st : state) (x y ox oy : option loc) :
  allocated st x -> allocated st y ->
  allocated st (self.I (obj st)) -> allocated st (self.V (obj st)) ->
  default_xy (obj st) x y = Ok (ox, oy) ->
  allocated st ox /\ allocated st oy.
Proof.
  intros Hx Hy HI HV. unfold default_xy.
  destruct x as [lx|]; destruct y as [ly|]; cbn [rbind];
    destruct (self.bias (obj st)) as [b|]; try discriminate;
    unfold pick2;
    repeat match goal with
           | |- context [if ?c then _ else _] => destruct c
           end;
    cbn [rbind]; intros H; inversion H; subst; auto.
Qed.

Lemma get_offsets_raises_without_x (st : state) (x y : option loc)
    (threshold offset : float) (yr : bool) (r : farray * farray) (st' : state) :
  get_offsets x y threshold offset yr st = Ok (r, st') ->
  exists lx oy xa, default_xy (obj st) x y = Ok (Some lx, oy) /\ heap st !! lx = Some xa.
Proof.
  unfold get_offsets. unfold bind at 1. unfold get_self at 1.
  unfold bind at 1. unfold lift at 1.
  destruct (default_xy (obj st) x y) as [[[lx|] oy]|]; try discriminate.
  unfold bind at 1. unfold deref at 1.
  destruct (heap st !! lx) as [xa|] eqn:Hx; [|discriminate].
  intros _. exists lx, oy, xa. auto.
Qed.

(** C7: when the arrays passed to get_offset (and those of self that stand
    for omitted ones) are allocated objects and the call returns, a second
    call in the state the first one left returns the same (I_offset,
    V_offset); get_offsets behaves the same way; and every array object that
    existed before the first call, x and y among them, has the same contents
    after each call. *)
Theorem get_offset_twice (st : state) (x y : option loc) (threshold offset : float)
    (yr : bool) :
  allocated st x -> allocated st y ->
  allocated st (self.I (obj st)) -> allocated st (self.V (obj st)) ->
  (forall r1 st1,
      get_offset x y threshold offset yr st = Ok (r1, st1) ->
      exists st2,
        get_offset x y threshold offset yr st1 = Ok (r1, st2) /\
        forall l, l < length (heap st) ->
                  heap st1 !! l = heap st !! l /\ heap st2 !! l = heap st !! l)
  /\
  (forall r1 st1,
      get_offsets x y threshold offset yr st = Ok (r1, st1) ->
      exists st2,
        get_offsets x y threshold offset yr st1 = Ok (r1, st2) /\
        forall l, l < length (heap st) ->
                  heap st1 !! l = heap st !! l /\ heap st2 !! l = heap st !! l).
Proof.
  intros Ax Ay AI AV.
  assert (Hprep : forall r st', get_offsets x y threshold offset yr st = Ok (r, st') ->
            exists lx oy xa ya,
              default_xy (obj st) x y = Ok (Some lx, oy) /\ heap st !! lx = Some xa /\
              pointee st oy ya /\ lx < length (heap st) /\
              (forall h, pointee (mk_state (obj st) (heap st ++ h) (fid st) (disk st)) oy ya)).
  { intros r st' H.
    destruct (get_offsets_raises_without_x st x y threshold offset yr r st' H)
      as (lx & oy & xa & Hxy & Hx).
    destruct (default_xy_allocated st x y (Some lx) oy Ax Ay AI AV Hxy) as [Alx Aoy].
    destruct oy as [ly|].
    - destruct (lookup_lt_is_Some_2 (heap st) ly Aoy) as [ya Hya].
      exists lx, (Some ly), xa, ya. repeat split; auto.
      intros h. unfold pointee. cbn [heap]. rewrite lookup_app_l; auto.
    - exists lx, None, xa, none_array. repeat split; auto. }
  assert (Hkeep : forall (h : list farray) l, l < length (heap st) ->
                                           (heap st ++ h) !! l = heap st !! l).
  { intros h l Hl. apply lookup_app_l. exact Hl. }
  split; intros r1 st1 Hcall.
  - assert (Hs : exists r st', get_offsets x y threshold offset yr st = Ok (r, st')).
    { unfold get_offset in Hcall. unfold bind at 1 in Hcall.
      destruct (get_offsets x y threshold offset yr st) as [[r st']|]; [eauto|discriminate]. }
    destruct Hs as (r & st' & Hs).
    destruct (Hprep r st' Hs) as (lx & oy & xa & ya & Hxy & Hx & Hy & Hlx & Hy').
    rewrite (get_offset_run st x y lx oy xa ya threshold offset yr Hxy Hx Hy) in Hcall.
    destruct (offsets_of (obj st) xa ya threshold offset yr)
      as [[[[io vo] xc] yc]|] eqn:Hof; [|discriminate].
    inversion Hcall; subst r1 st1; clear Hcall.
    eexists. split.
    + rewrite (get_offset_run _ x y lx oy xa ya threshold offset yr).
      * cbn [obj heap fid disk].
        rewrite (proj1 (offsets_of_after _ _ _ _ _ _ _ _ _ _)), Hof. reflexivity.
      * cbn [obj]. rewrite (proj1 (default_xy_after _ _ _ _ _ _ _)). exact Hxy.
      * cbn [heap]. rewrite Hkeep by exact Hlx. exact Hx.
      * destruct oy as [ly|]; [|exact Hy]. exact (Hy' [xc; yc]).
    + intros l Hl. cbn [heap]. split.
      * apply Hkeep, Hl.
      * rewrite <- app_assoc. apply Hkeep, Hl.
  - destruct (Hprep r1 st1 Hcall) as (lx & oy & xa & ya & Hxy & Hx & Hy & Hlx & Hy').
    rewrite (get_offsets_run st x y lx oy xa ya threshold offset yr Hxy Hx Hy) in Hcall.
    destruct (offsets_of (obj st) xa ya threshold offset yr)
      as [[[[io vo] xc] yc]|] eqn:Hof; [|discriminate].
    inversion Hcall; subst r1 st1; clear Hcall.
    eexists. split.
    + rewrite (get_offsets_run _ x y lx oy xa ya threshold offset yr).
      * cbn [obj heap fid disk].
        rewrite (proj2 (offsets_of_after _ _ _ None None _ _ _ _ _)), Hof. reflexivity.
      * cbn [obj]. rewrite (proj2 (default_xy_after _ _ _ _ _ None None)). exact Hxy.
      * cbn [heap]. rewrite Hkeep by exact Hlx. exact Hx.
      * destruct oy as [ly|]; [|exact Hy]. exact (Hy' [xc; yc]).
    + intros l Hl. cbn [heap]. split.
      * apply Hkeep, Hl.
      * rewrite <- app_assoc. apply Hkeep, Hl.
Qed.

End offsets_twice.

Lemma get_offset_twice_witness :
  exists st1 st2,
    get_offset (N := Ref.numerics) (Some 1) (Some 0) 20e-6%float 0%float false st_loaded
    = Ok ((2.5%float, 0%float), st1) /\
    get_offset (N := Ref.numerics) (Some 1) (Some 0) 20e-6%float 0%float false st1
    = Ok ((2.5%float, 0%float), st2) /\
    heap st2 !! 0 = Some I_2x6 /\ heap st2 !! 1 = Some V_2x6.
Proof.
  destruct (get_offset (N := Ref.numerics) (Some 1) (Some 0) 20e-6%float 0%float false st_loaded)
    as [[r1 st1]|] eqn:Hcall.
  - destruct (proj1 (get_offset_twice Ref.numerics st_loaded (Some 1) (Some 0)
                       20e-6%float 0%float false
                       ltac:(vm_compute; lia) ltac:(vm_compute; lia)
                       ltac:(vm_compute; lia) ltac:(vm_compute; lia)) r1 st1 Hcall)
      as (st2 & H2 & Hkeep).
    exists st1, st2.
    assert (Hr : r1 = (2.5%float, 0%float)).
    { vm_compute in Hcall. inversion Hcall. reflexivity. }
    subst r1. repeat split.
    + exact H2.
    + apply (proj2 (Hkeep 0 ltac:(vm_compute; lia))).
    + apply (proj2 (Hkeep 1 ltac:(vm_compute; lia))).
  - vm_compute in Hcall. discriminate.
Defined.

(** ** Loading and padding (load) *)

(** *** Runs of a list *)

Lemma prod_list_app (a b : list nat) : prod_list (a ++ b) = prod_list a * prod_list b.
Proof.
  induction a as [|x a IH]; simpl.
  - lia.
  - fold (prod_list (a ++ b)) (prod_list a). rewrite IH. lia.
Qed.

Lemma prod_list_snoc (a : list nat) (x : nat) : prod_list (a ++ [x]) = prod_list a * x.
Proof. rewrite prod_list_app. simpl. lia. Qed.

Lemma lookup_repeat {A} (x : A) (n i : nat) : i < n -> repeat x n !! i = Some x.
Proof.
  revert i. induction n as [|n IH]; intros i Hi; [lia|].
  destruct i as [|i]; simpl; [reflexivity|]. apply IH. lia.
Qed.

(** Entry [o * (L + c) + k] of the padded traces. *)
Lemma pad_last_lookup {A} (outer L c : nat) (fill : A) (l : list A) (o k : nat) :
  length l = outer * L -> o < outer -> k < L + c ->
  pad_last outer L c fill l !! (o * (L + c) + k)
  = if k <? L then l !! (o * L + k) else Some fill.
Proof.
  unfold pad_last. revert l o.
  induction outer as [|outer IH]; intros l o Hlen Ho Hk; [lia|].
  simpl chunks. simpl flat_map.
  assert (Hfirst : length (firstn L l ++ repeat fill c) = L + c).
  { rewrite length_app, length_take, repeat_length. lia. }
  destruct o as [|o].
  - simpl. rewrite lookup_app_l by lia.
    destruct (Nat.ltb_spec k L) as [HkL|HkL].
    + rewrite lookup_app_l by (rewrite length_take; lia).
      apply lookup_take_lt. exact HkL.
    + rewrite lookup_app_r by (rewrite length_take; lia).
      rewrite length_take. replace (L `min` length l) with L by lia.
      apply lookup_repeat. lia.
  - rewrite lookup_app_r by (rewrite Hfirst; simpl; lia).
    rewrite Hfirst.
    replace (S o * (L + c) + k - (L + c)) with (o * (L + c) + k) by (simpl; lia).
    rewrite IH; [|rewrite length_drop; lia|lia|lia].
    destruct (k <? L); [|reflexivity].
    rewrite lookup_drop. f_equal. simpl. lia.
Qed.

Lemma pad_last_length {A} (outer L c : nat) (fill : A) (l : list A) :
  length l = outer * L -> length (pad_last outer L c fill l) = outer * (L + c).
Proof.
  unfold pad_last. revert l. induction outer as [|outer IH]; intros l Hlen; [reflexivity|].
  simpl chunks. simpl flat_map. rewrite length_app, length_app, length_take, repeat_length.
  rewrite IH by (rewrite length_drop; lia). lia.
Qed.

(** Without padding the traces are unchanged. *)
Lemma pad_last_0 {A} (outer L : nat) (fill : A) (l : list A) :
  length l = outer * L -> pad_last outer L 0 fill l = l.
Proof.
  unfold pad_last. revert l. induction outer as [|outer IH]; intros l Hlen.
  - simpl in *. destruct l; [reflexivity|discriminate].
  - simpl chunks. simpl flat_map. rewrite app_nil_r.
    rewrite IH by (rewrite length_drop; lia). apply firstn_skipn.
Qed.

Lemma chunks_length {A} (n sz : nat) (l : list A) : length (chunks n sz l) = n.
Proof. revert l. induction n as [|n IH]; intros l; simpl; [reflexivity|]. f_equal. apply IH. Qed.

Lemma chunks_each {A} (n sz : nat) (l : list A) (c : list A) :
  length l = n * sz -> In c (chunks n sz l) -> length c = sz.
Proof.
  revert l. induction n as [|n IH]; intros l Hlen Hin; simpl in Hin; [contradiction|].
  destruct Hin as [<-|Hin].
  - rewrite length_take. lia.
  - apply (IH (skipn sz l)); [rewrite length_drop; lia|exact Hin].
Qed.

Lemma chunks_app {A} (a b sz : nat) (l : list A) :
  chunks (a + b) sz l = chunks a sz l ++ chunks b sz (skipn (a * sz) l).
Proof.
  revert l. induction a as [|a IH]; intros l; simpl; [reflexivity|].
  f_equal. rewrite IH. f_equal. f_equal. rewrite drop_drop. f_equal.
Qed.

Lemma chunks_take {A} (n sz : nat) (l : list A) :
  chunks n sz (firstn (n * sz) l) = chunks n sz l.
Proof.
  revert l. induction n as [|n IH]; intros l; simpl; [reflexivity|].
  f_equal.
  - rewrite take_take. f_equal. lia.
  - rewrite <- (IH (skipn sz l)). f_equal.
    rewrite skipn_firstn_comm. f_equal. lia.
Qed.

(** Runs of runs are finer runs. *)
Lemma chunks_chunks {A} (n m sz : nat) (l : list A) :
  flat_map (chunks m sz) (chunks n (m * sz) l) = chunks (n * m) sz l.
Proof.
  revert l. induction n as [|n IH]; intros l; simpl; [reflexivity|].
  rewrite chunks_app, IH, chunks_take. reflexivity.
Qed.

Lemma concat_singletons {A} (n : nat) (l : list A) :
  flat_map (fun x => x) (chunks n 1 l) = firstn n l.
Proof.
  revert l. induction n as [|n IH]; intros l; simpl; [reflexivity|].
  rewrite IH. destruct l; simpl; [|reflexivity]. rewrite firstn_nil. reflexivity.
Qed.

Lemma flat_map_flat_map {A B C} (f : A -> list B) (g : B -> list C) (l : list A) :
  flat_map g (flat_map f l) = flat_map (fun x => flat_map g (f x)) l.
Proof.
  induction l as [|a l IH]; simpl; [reflexivity|]. rewrite flat_map_app, IH. reflexivity.
Qed.

Lemma flat_map_on {A B} (f g : A -> list B) (l : list A) :
  (forall a, In a l -> f a = g a) -> flat_map f l = flat_map g l.
Proof.
  induction l as [|a l IH]; intros H; simpl; [reflexivity|].
  rewrite (H a) by (left; reflexivity). rewrite IH; [reflexivity|].
  intros b Hb. apply H. right. exact Hb.
Qed.

(** The pad_width that load computes for equal outer extents pads the end
    of the last axis only. *)
Lemma pad_data_last {A} (outer : list nat) (L c : nat) (fill : A) (l : list A) :
  length l = prod_list outer * L ->
  pad_data (outer ++ [L]) (repeat (0, 0) (length outer) ++ [(0, c)]) fill l
  = pad_last (prod_list outer) L c fill l.
Proof.
  revert l. induction outer as [|x outer IH]; intros l Hlen.
  - simpl in Hlen. cbn [app length repeat pad_data padded_shape combine map prod_list fold_right].
    rewrite concat_singletons. unfold pad_last. cbn [chunks flat_map].
    rewrite app_nil_r. replace (c * 1) with c by lia. reflexivity.
  - cbn [app length repeat pad_data].
    cbn [Nat.mul repeat app]. rewrite app_nil_r.
    change (prod_list (x :: outer)) with (x * prod_list outer) in *.
    rewrite (flat_map_on _ (pad_last (prod_list outer) L c fill)).
    + unfold pad_last. rewrite <- flat_map_flat_map.
      rewrite prod_list_snoc, chunks_chunks. reflexivity.
    + intros ch Hch. apply IH. rewrite prod_list_snoc in Hch.
      apply (chunks_each x _ l); [lia|exact Hch].
Qed.

Lemma padded_shape_last (outer : list nat) (L c : nat) :
  padded_shape (outer ++ [L]) (repeat (0, 0) (length outer) ++ [(0, c)]) = outer ++ [L + c].
Proof.
  unfold padded_shape. induction outer as [|x outer IH]; simpl.
  - f_equal.
  - f_equal; [lia|]. exact IH.
Qed.

(** *** The steps of the loop *)

Lemma zip_diff_last (outer : list nat) (L Lmax : nat) :
  zip_with_strict (fun s t => (Z.of_nat t - Z.of_nat s)%Z) (outer ++ [L]) (outer ++ [Lmax])
  = Ok (repeat 0%Z (length outer) ++ [(Z.of_nat Lmax - Z.of_nat L)%Z]).
Proof.
  induction outer as [|x outer IH]; simpl; [reflexivity|].
  rewrite IH. simpl. rewrite Z.sub_diag. reflexivity.
Qed.

Lemma pairs_zeros (k : nat) (z : Z) :
  pairs (repeat 0%Z (2 * k + 1) ++ [z]) = repeat (0%Z, 0%Z) k ++ [(0%Z, z)].
Proof.
  induction k as [|k IH]; [reflexivity|].
  replace (2 * S k + 1) with (S (S (2 * k + 1))) by lia.
  cbn [repeat app pairs]. rewrite IH. reflexivity.
Qed.

(** The pad_width of a sweep whose outer extents are those of the target. *)
Lemma pad_width_of_last (outer : list nat) (L Lmax : nat) (d : Z) (pw : list (Z * Z)) :
  pad_width_of (outer ++ [L]) (outer ++ [Lmax]) d = Ok pw ->
  pw = repeat (0%Z, 0%Z) (length outer) ++ [(0%Z, (Z.of_nat Lmax - Z.of_nat L)%Z)].
Proof.
  unfold pad_width_of. rewrite zip_diff_last. cbn [rbind].
  destruct (d <? 0)%Z; [discriminate|].
  destruct (Nat.eqb_spec (length (repeat 0%Z (Z.to_nat d) ++ repeat 0%Z (length outer)
                                    ++ [(Z.of_nat Lmax - Z.of_nat L)%Z]))
                         (2 * Z.to_nat d)) as [E|E]; [|discriminate].
  intros H. inversion H; subst pw; clear H.
  rewrite !length_app, !repeat_length in E. cbn [length] in E.
  assert (Hd : Z.to_nat d = length outer + 1) by lia.
  rewrite Hd, app_assoc, <- repeat_app.
  replace (length outer + 1 + length outer) with (2 * length outer + 1) by lia.
  apply pairs_zeros.
Qed.

Lemma any_nonzero_last (k : nat) (z : Z) :
  any_nonzero (flat_map (fun p : Z * Z => [fst p; snd p]) (repeat (0%Z, 0%Z) k ++ [(0%Z, z)]))
  = negb (z =? 0)%Z.
Proof.
  induction k as [|k IH]; simpl.
  - rewrite orb_false_r. reflexivity.
  - exact IH.
Qed.

Lemma np_pad_last {A} (a : nd A) (outer : list nat) (L : nat) (c : Z) (fill : A) :
  shape a = outer ++ [L] ->
  length (data a) = prod_list outer * L ->
  (0 <= c)%Z ->
  np_pad a (repeat (0%Z, 0%Z) (length outer) ++ [(0%Z, c)]) fill
  = Ok (mk_nd (outer ++ [L + Z.to_nat c])
              (pad_last (prod_list outer) L (Z.to_nat c) fill (data a))).
Proof.
  intros Hs Hl Hc. unfold np_pad, pad_pairs.
  assert (Hneg : existsb (fun p : Z * Z => (fst p <? 0)%Z || (snd p <? 0)%Z)
                   (repeat (0%Z, 0%Z) (length outer) ++ [(0%Z, c)]) = false).
  { rewrite existsb_app. apply orb_false_iff. split.
    - induction (length outer); simpl; auto.
    - simpl. rewrite orb_false_r. apply Z.ltb_ge. exact Hc. }
  rewrite Hneg.
  assert (Hmap : map (fun p : Z * Z => (Z.to_nat (fst p), Z.to_nat (snd p)))
                   (repeat (0%Z, 0%Z) (length outer) ++ [(0%Z, c)])
                 = repeat (0, 0) (length outer) ++ [(0, Z.to_nat c)]).
  { rewrite map_app. f_equal. generalize (length outer). intros k.
    induction k as [|k IHk]; simpl; [reflexivity|]. f_equal. exact IHk. }
  rewrite Hmap. unfold ndim. rewrite Hs.
  rewrite !length_app, repeat_length. cbn [length]. rewrite Nat.eqb_refl. cbn [rbind].
  rewrite padded_shape_last, pad_data_last by exact Hl. reflexivity.
Qed.

Lemma assign_row_shape {A} (j n : nat) (sh : list nat) (v a : nd A) :
  shape a = n :: sh -> j < n -> shape v = sh ->
  assign_row j v a = Ok (mk_nd (shape a) (set_chunk j (prod_list sh) (data v) (data a))).
Proof.
  intros Ha Hj Hv. unfold assign_row. rewrite Ha.
  destruct (Nat.ltb_spec j n) as [_|]; [|lia].
  unfold ndim. rewrite Hv, Nat.sub_diag.
  assert (Hstrip : strip_ones 0 sh = sh) by (destruct sh; reflexivity).
  rewrite Hstrip. unfold broadcast_to. cbn [shape data].
  rewrite bool_decide_eq_true_2 by reflexivity. reflexivity.
Qed.

Lemma set_chunk_length {A} (j sz : nat) (v l : list A) :
  length v = sz -> j * sz + sz <= length l -> length (set_chunk j sz v l) = length l.
Proof.
  intros Hv Hl. unfold set_chunk. rewrite !length_app, length_take, length_drop. lia.
Qed.

Lemma set_chunk_inside {A} (j sz : nat) (v l : list A) (t : nat) :
  j * sz <= length l -> set_chunk j sz v l !! (j * sz + t) = (v ++ skipn (j * sz + sz) l) !! t.
Proof.
  intros Hl. unfold set_chunk. rewrite lookup_app_r by (rewrite length_take; lia).
  rewrite length_take. f_equal. lia.
Qed.

Lemma set_chunk_outside {A} (j sz : nat) (v l : list A) (i : nat) :
  length v = sz -> j * sz + sz <= length l ->
  i < j * sz \/ j * sz + sz <= i ->
  set_chunk j sz v l !! i = l !! i.
Proof.
  intros Hv Hl [Hi|Hi]; unfold set_chunk.
  - rewrite lookup_app_l by (rewrite length_take; lia). apply lookup_take_lt. exact Hi.
  - rewrite lookup_app_r by (rewrite length_take; lia).
    rewrite lookup_app_r by (rewrite length_take; lia).
    rewrite lookup_drop, length_take. f_equal. lia.
Qed.

Section loading_steps.
Context (N : Numerics).

Lemma get_dydx_state (y : farray) (x : option farray) (mode : strategy)
    (kw : gmap string pyval) (st st' : state) (r : farray) :
  get_dydx y x mode kw st = Ok (r, st') -> st' = st.
Proof.
  unfold get_dydx, bind, get_self, try_except, lift.
  destruct x as [x|].
  - destruct (rbind _ _) as [a|e]; [intros H; inversion H; reflexivity|].
    cbn [format_s]. discriminate.
  - destruct (call_mode _ _ _) as [a|e]; [intros H; inversion H; reflexivity|].
    cbn [format_s]. discriminate.
Qed.

Lemma stored_or_derived_state (df : datafile) (dVdI : option string) (lI lV : loc) (j : nat)
    (st st' : state) (r : option farray) :
  stored_or_derived df dVdI lI lV j st = Ok (r, st') -> st' = st.
Proof.
  unfold stored_or_derived. destruct (folder_given dVdI).
  - unfold try_except, lift.
    destruct (rbind _ _) as [a|e]; [intros H; inversion H; reflexivity|].
    destruct (bool_decide (e = KeyError)); [|discriminate].
    unfold bind, deref, lift, ret.
    destruct (heap st !! lI) as [aI|]; [|discriminate].
    destruct (heap st !! lV) as [aV|]; [|discriminate].
    destruct (row _ aI) as [x|]; [|discriminate].
    destruct (row _ aV) as [y|]; [|discriminate].
    destruct (get_dydx y (Some x) savgol_filter ∅ st) as [[d st1]|] eqn:Hd; [|discriminate].
    apply get_dydx_state in Hd. subst st1. intros H; inversion H; reflexivity.
  - unfold ret. intros H; inversion H; reflexivity.
Qed.

End loading_steps.

(** *** The rows of the assembled arrays *)

Lemma pad_width_of_run (outer : list nat) (L Lmax : nat) :
  pad_width_of (outer ++ [L]) (outer ++ [Lmax]) (Z.of_nat (S (length outer)))
  = Ok (repeat (0%Z, 0%Z) (length outer) ++ [(0%Z, (Z.of_nat Lmax - Z.of_nat L)%Z)]).
Proof.
  destruct (pad_width_of (outer ++ [L]) (outer ++ [Lmax]) (Z.of_nat (S (length outer))))
    as [pw|e] eqn:E.
  - f_equal. exact (pad_width_of_last outer L Lmax _ pw E).
  - exfalso. unfold pad_width_of in E. rewrite zip_diff_last in E. cbn [rbind] in E.
    destruct (Z.ltb_spec (Z.of_nat (S (length outer))) 0) as [Hneg|_]; [lia|].
    rewrite Nat2Z.id in E.
    rewrite !length_app, !repeat_length in E. cbn [length] in E.
    destruct (Nat.eqb_spec (S (length outer) + (length outer + 1)) (2 * S (length outer)))
      as [_|Hne]; [discriminate|lia].
Qed.

Lemma longest_ge (L : nat -> nat) (n j : nat) : j < n -> L j <= longest L n.
Proof.
  unfold longest. intros Hj.
  assert (H : forall l, In j l -> L j <= fold_right (fun j m => Nat.max (L j) m) 0 l).
  { induction l as [|x l IH]; intros Hin; [destruct Hin|].
    cbn [fold_right]. destruct Hin as [->|Hin]; [lia|]. specialize (IH Hin). lia. }
  apply H. apply in_seq. lia.
Qed.

(** The value that is assigned to row j, padded or not. *)
Lemma row_value (outer : list nat) (L Lmax : nat) (a : farray) :
  traces_of outer L a -> L <= Lmax ->
  let pw := repeat (0%Z, 0%Z) (length outer) ++ [(0%Z, (Z.of_nat Lmax - Z.of_nat L)%Z)] in
  let v := mk_nd (outer ++ [Lmax]) (pad_last (prod_list outer) L (Lmax - L) nan (data a)) in
  if any_nonzero (flat_map (fun p : Z * Z => [fst p; snd p]) pw)
  then np_pad a pw nan = Ok v
  else a = v.
Proof.
  intros [Hs Hl] HL pw v. subst pw v. rewrite any_nonzero_last.
  destruct (Z.eqb_spec (Z.of_nat Lmax - Z.of_nat L) 0) as [E|E]; cbn [negb].
  - assert (Lmax = L) by lia. subst Lmax. rewrite Nat.sub_diag, pad_last_0 by exact Hl.
    destruct a as [sh dt]. cbn [shape data] in *. subst sh. reflexivity.
  - rewrite (np_pad_last a outer L _ nan Hs Hl) by lia.
    replace (Z.to_nat (Z.of_nat Lmax - Z.of_nat L)) with (Lmax - L) by lia.
    replace (L + (Lmax - L)) with Lmax by lia. reflexivity.
Qed.

Lemma rows_done_assign (n P : nat) (sh : list nat) (r : nat -> list float) (j : nat)
    (b v : farray) :
  prod_list sh = P -> rows_done n P sh r j b -> j < n ->
  shape v = sh -> data v = r j -> length (r j) = P ->
  exists b', assign_row j v b = Ok b' /\ rows_done n P sh r (S j) b'.
Proof.
  intros HP (Hs & Hl & Hrows) Hj Hv Hd Hlen.
  rewrite (assign_row_shape j n sh v b Hs Hj Hv). eexists. split; [reflexivity|].
  rewrite HP, Hd.
  assert (Hfit : j * P + P <= length (data b)) by (rewrite Hl; nia).
  split; [exact Hs|]. split.
  - cbn [data]. rewrite set_chunk_length; auto.
  - cbn [data]. intros j' t Hj' Ht.
    destruct (Nat.eq_dec j' j) as [->|Hne].
    + rewrite set_chunk_inside by lia. apply lookup_app_l. lia.
    + rewrite set_chunk_outside; [apply Hrows; [lia|exact Ht]|exact Hlen|exact Hfit|].
      left. nia.
Qed.

Lemma rows_done_0 (n P : nat) (sh : list nat) (r : nat -> list float) (b : farray) :
  shape b = n :: sh -> length (data b) = n * P -> rows_done n P sh r 0 b.
Proof. intros Hs Hl. repeat split; auto. intros j' t Hj'. lia. Qed.

(** An update of one of three array objects at the end of the heap. *)
Lemma update_at (st : state) (pre post : list farray) (b b' : farray)
    (f : farray -> result farray) :
  heap st = pre ++ b :: post -> f b = Ok b' ->
  update (length pre) f st
  = Ok (tt, mk_state (obj st) (pre ++ b' :: post) (fid st) (disk st)).
Proof.
  intros Hh Hf. unfold update. rewrite Hh.
  rewrite list_lookup_middle by reflexivity. rewrite Hf.
  rewrite insert_app_r_alt by lia. rewrite Nat.sub_diag. reflexivity.
Qed.

Lemma bind_run {A B} (m : M A) (k : A -> M B) (st st' : state) (a : A) :
  m st = Ok (a, st') -> bind m k st = k a st'.
Proof. intros H. unfold bind. rewrite H. reflexivity. Qed.

Lemma lift_run {A} (r : result A) (a : A) (st : state) :
  r = Ok a -> lift r st = Ok (a, st).
Proof. intros ->. reflexivity. Qed.

Lemma df_get_stored (df : datafile) (url : string) (a : farray) :
  stored df url = Some a ->
  (try! ds := df_get df url in Ok (ds_values ds)) = Ok a.
Proof.
  unfold stored, df_get. destruct (df_entries df !! url) as [ds|]; [|discriminate].
  cbn. intros H. inversion H. reflexivity.
Qed.

Lemma update_three_1 (st : state) (h0 : list farray) (b0 b1 b2 b' : farray)
    (f : farray -> result farray) :
  heap st = h0 ++ [b0; b1; b2] -> f b0 = Ok b' ->
  update (length h0) f st = Ok (tt, mk_state (obj st) (h0 ++ [b'; b1; b2]) (fid st) (disk st)).
Proof. intros Hh Hf. exact (update_at st h0 [b1; b2] b0 b' f Hh Hf). Qed.

Lemma update_three_2 (st : state) (h0 : list farray) (b0 b1 b2 b' : farray)
    (f : farray -> result farray) :
  heap st = h0 ++ [b0; b1; b2] -> f b1 = Ok b' ->
  update (S (length h0)) f st
  = Ok (tt, mk_state (obj st) (h0 ++ [b0; b'; b2]) (fid st) (disk st)).
Proof.
  intros Hh Hf.
  replace (S (length h0)) with (length (h0 ++ [b0])) by (rewrite length_app; cbn; lia).
  rewrite (update_at st (h0 ++ [b0]) [b2] b1 b' f); [|rewrite <- app_assoc; exact Hh|exact Hf].
  rewrite <- app_assoc. reflexivity.
Qed.

Lemma update_three_3 (st : state) (h0 : list farray) (b0 b1 b2 b' : farray)
    (f : farray -> result farray) :
  heap st = h0 ++ [b0; b1; b2] -> f b2 = Ok b' ->
  update (S (S (length h0))) f st
  = Ok (tt, mk_state (obj st) (h0 ++ [b0; b1; b']) (fid st) (disk st)).
Proof.
  intros Hh Hf.
  replace (S (S (length h0))) with (length (h0 ++ [b0; b1])) by (rewrite length_app; cbn; lia).
  rewrite (update_at st (h0 ++ [b0; b1]) [] b2 b' f); [|rewrite <- app_assoc; exact Hh|exact Hf].
  rewrite <- app_assoc. reflexivity.
Qed.

Section assembling.
Context (N : Numerics).
Variables (df : datafile) (dVdI : option string) (outer : list nat) (L : nat -> nat).
Variables (ai av ad : nat -> farray) (n : nat).

Local Abbreviation Lmax := (longest L n).
Local Abbreviation target := (outer ++ [longest L n]).
Local Abbreviation P := (prod_list outer * longest L n).
Local Abbreviation padded a :=
  (fun j => pad_last (prod_list outer) (L j) (longest L n - L j) nan (data (a j))).

Hypothesis Hi : forall j, j < n ->
  stored df ("entry/data0/i_" +:+ format_d j) = Some (ai j) /\ traces_of outer (L j) (ai j).
Hypothesis Hv : forall j, j < n ->
  stored df ("entry/data0/v_" +:+ format_d j) = Some (av j) /\ traces_of outer (L j) (av j).
Hypothesis Hd : folder_given dVdI = true -> forall j, j < n ->
  stored df ("entry/" +:+ default "" dVdI +:+ "/dvdi_" +:+ format_d j) = Some (ad j)
  /\ traces_of outer (L j) (ad j).

Lemma padded_length (a : nat -> farray) (j : nat) :
  traces_of outer (L j) (a j) -> j < n -> length (padded a j) = P.
Proof.
  intros [_ Hl] Hj. rewrite pad_last_length by exact Hl.
  pose proof (longest_ge L n j Hj). f_equal. lia.
Qed.

Lemma stored_or_derived_run (lI lV : loc) (j : nat) (st : state) :
  j < n ->
  stored_or_derived df dVdI lI lV j st
  = Ok (if folder_given dVdI then Some (ad j) else None, st).
Proof.
  intros Hj. unfold stored_or_derived. destruct (folder_given dVdI) eqn:Hf; [|reflexivity].
  destruct (Hd eq_refl j Hj) as [Hs _].
  unfold try_except, lift. unfold stored in Hs. unfold df_get.
  destruct (df_entries df !! _) as [ds|]; [|discriminate].
  cbn in Hs. inversion Hs. reflexivity.
Qed.

(** One turn of the loop: row j of the three arrays is assigned. *)
Lemma load_sweep_run (h0 : list farray) (o : self.t) (f : gmap string datafile)
    (dk : gmap string (gmap string jval)) (j : nat) (bI bV bd : farray) :
  j < n ->
  rows_done n P target (padded ai) j bI ->
  rows_done n P target (padded av) j bV ->
  rows_done n P target (padded ad) (if folder_given dVdI then j else 0) bd ->
  exists bI' bV' bd',
    load_sweep df (Z.of_nat (S (length outer))) target dVdI
      (length h0) (S (length h0)) (S (S (length h0))) j
      (mk_state o (h0 ++ [bI; bV; bd]) f dk)
    = Ok (tt, mk_state o (h0 ++ [bI'; bV'; bd']) f dk) /\
    rows_done n P target (padded ai) (S j) bI' /\
    rows_done n P target (padded av) (S j) bV' /\
    rows_done n P target (padded ad) (if folder_given dVdI then S j else 0) bd'.
Proof.
  intros Hj RI RV RD.
  destruct (Hi j Hj) as [Hsi Hti]. destruct (Hv j Hj) as [Hsv Htv].
  pose proof (longest_ge L n j Hj) as HL.
  assert (HP : prod_list target = P) by apply prod_list_snoc.
  unfold load_sweep.
  rewrite (bind_run _ _ _ _ (ai j) (lift_run _ _ _ (df_get_stored _ _ _ Hsi))).
  rewrite (bind_run _ _ _ _ (av j) (lift_run _ _ _ (df_get_stored _ _ _ Hsv))).
  rewrite (bind_run _ _ _ _ _ (stored_or_derived_run _ _ j _ Hj)).
  rewrite (proj1 Hti).
  rewrite (bind_run _ _ _ _ _ (lift_run _ _ _ (pad_width_of_run outer (L j) Lmax))).
  pose proof (row_value outer (L j) Lmax (ai j) Hti HL) as Vi.
  pose proof (row_value outer (L j) Lmax (av j) Htv HL) as Vv.
  cbn zeta in Vi, Vv.
  destruct (rows_done_assign n P target (padded ai) j bI
              (mk_nd target (padded ai j)) HP RI Hj eq_refl eq_refl
              (padded_length ai j Hti Hj)) as (bI' & HaI & RI').
  destruct (rows_done_assign n P target (padded av) j bV
              (mk_nd target (padded av j)) HP RV Hj eq_refl eq_refl
              (padded_length av j Htv Hj)) as (bV' & HaV & RV').
  exists bI', bV'.
  destruct (folder_given dVdI) eqn:Hf.
  - destruct (Hd eq_refl j Hj) as [_ Htd].
    pose proof (row_value outer (L j) Lmax (ad j) Htd HL) as Vd. cbn zeta in Vd.
    destruct (rows_done_assign n P target (padded ad) j bd
                (mk_nd target (padded ad j)) HP RD Hj eq_refl eq_refl
                (padded_length ad j Htd Hj)) as (bd' & Had & RD').
    exists bd'. split; [|auto].
    destruct (any_nonzero _).
    + rewrite (bind_run _ _ _ _ _ (lift_run _ _ _ Vi)).
      rewrite (bind_run _ _ _ _ _ (update_three_1 (mk_state o (h0 ++ [bI; bV; bd]) f dk) h0 bI bV bd bI' _ eq_refl HaI)); cbn [obj heap fid disk].
      rewrite (bind_run _ _ _ _ _ (lift_run _ _ _ Vv)).
      rewrite (bind_run _ _ _ _ _ (update_three_2 (mk_state o (h0 ++ [bI'; bV; bd]) f dk) h0 bI' bV bd bV' _ eq_refl HaV)); cbn [obj heap fid disk].
      rewrite (bind_run _ _ _ _ _ (lift_run _ _ _ Vd)).
      rewrite (update_three_3 (mk_state o (h0 ++ [bI'; bV'; bd]) f dk) h0 bI' bV' bd bd' _ eq_refl Had).
      reflexivity.
    + rewrite Vi, Vv, Vd.
      rewrite (bind_run _ _ _ _ _ (update_three_1 (mk_state o (h0 ++ [bI; bV; bd]) f dk) h0 bI bV bd bI' _ eq_refl HaI)); cbn [obj heap fid disk].
      rewrite (bind_run _ _ _ _ _ (update_three_2 (mk_state o (h0 ++ [bI'; bV; bd]) f dk) h0 bI' bV bd bV' _ eq_refl HaV)); cbn [obj heap fid disk].
      rewrite (update_three_3 (mk_state o (h0 ++ [bI'; bV'; bd]) f dk) h0 bI' bV' bd bd' _ eq_refl Had).
      reflexivity.
  - exists bd. split; [|auto].
    destruct (any_nonzero _).
    + rewrite (bind_run _ _ _ _ _ (lift_run _ _ _ Vi)).
      rewrite (bind_run _ _ _ _ _ (update_three_1 (mk_state o (h0 ++ [bI; bV; bd]) f dk) h0 bI bV bd bI' _ eq_refl HaI)); cbn [obj heap fid disk].
      rewrite (bind_run _ _ _ _ _ (lift_run _ _ _ Vv)).
      rewrite (bind_run _ _ _ _ _ (update_three_2 (mk_state o (h0 ++ [bI'; bV; bd]) f dk) h0 bI' bV bd bV' _ eq_refl HaV)); cbn [obj heap fid disk].
      reflexivity.
    + rewrite Vi, Vv.
      rewrite (bind_run _ _ _ _ _ (update_three_1 (mk_state o (h0 ++ [bI; bV; bd]) f dk) h0 bI bV bd bI' _ eq_refl HaI)); cbn [obj heap fid disk].
      rewrite (bind_run _ _ _ _ _ (update_three_2 (mk_state o (h0 ++ [bI'; bV; bd]) f dk) h0 bI' bV bd bV' _ eq_refl HaV)).
      reflexivity.
Qed.

(** The loop over the sweeps j, ..., j + m - 1. *)
Lemma load_sweeps_run (h0 : list farray) (o : self.t) (f : gmap string datafile)
    (dk : gmap string (gmap string jval)) (m j : nat) (bI bV bd : farray) :
  j + m <= n ->
  rows_done n P target (padded ai) j bI ->
  rows_done n P target (padded av) j bV ->
  rows_done n P target (padded ad) (if folder_given dVdI then j else 0) bd ->
  exists bI' bV' bd',
    for_each (seq j m)
      (load_sweep df (Z.of_nat (S (length outer))) target dVdI
         (length h0) (S (length h0)) (S (S (length h0))))
      (mk_state o (h0 ++ [bI; bV; bd]) f dk)
    = Ok (tt, mk_state o (h0 ++ [bI'; bV'; bd']) f dk) /\
    rows_done n P target (padded ai) (j + m) bI' /\
    rows_done n P target (padded av) (j + m) bV' /\
    rows_done n P target (padded ad) (if folder_given dVdI then j + m else 0) bd'.
Proof.
  revert j bI bV bd. induction m as [|m IH]; intros j bI bV bd Hm RI RV RD.
  - exists bI, bV, bd. rewrite Nat.add_0_r. auto.
  - destruct (load_sweep_run h0 o f dk j bI bV bd ltac:(lia) RI RV RD)
      as (bI1 & bV1 & bd1 & Hstep & RI1 & RV1 & RD1).
    destruct (IH (S j) bI1 bV1 bd1 ltac:(lia) RI1 RV1 RD1)
      as (bI2 & bV2 & bd2 & Hrest & RI2 & RV2 & RD2).
    exists bI2, bV2, bd2. cbn [seq for_each].
    rewrite (bind_run _ _ _ _ _ Hstep).
    replace (j + S m) with (S j + m) by lia. auto.
Qed.

Lemma shapes_run (l : list nat) :
  (forall j, In j l -> j < n) ->
  rmap (fun j => try! ds := df_get df ("entry/data0/i_" +:+ format_d j) in
                 Ok (shape (ds_values ds))) l
  = Ok (map (fun j => outer ++ [L j]) l).
Proof.
  induction l as [|x l IH]; intros Hl; [reflexivity|].
  cbn [rmap map]. destruct (Hi x (Hl x (or_introl eq_refl))) as [Hs [Hsh _]].
  unfold stored in Hs. unfold df_get at 1.
  destruct (df_entries df !! _) as [ds|]; [|discriminate].
  cbn in Hs. inversion Hs as [Hds]. cbn [rbind]. rewrite Hds, Hsh.
  rewrite IH by (intros j Hj; apply Hl; right; exact Hj). reflexivity.
Qed.

End assembling.

Lemma zip_max_last (outer : list nat) (a b : nat) :
  zip_with_strict Nat.max (outer ++ [a]) (outer ++ [b]) = Ok (outer ++ [Nat.max a b]).
Proof.
  induction outer as [|x outer IH]; [reflexivity|].
  cbn [app zip_with_strict]. rewrite IH. cbn [rbind]. rewrite Nat.max_id. reflexivity.
Qed.

Lemma shape_max_last (outer : list nat) (L : nat -> nat) (l : list nat) :
  l <> [] ->
  shape_max (map (fun j => outer ++ [L j]) l)
  = Ok (outer ++ [fold_right (fun j m => Nat.max (L j) m) 0 l]).
Proof.
  induction l as [|x l IH]; intros Hne; [congruence|].
  destruct l as [|y l].
  - cbn [map shape_max fold_right]. rewrite Nat.max_0_r. reflexivity.
  - change (shape_max (map (fun j => outer ++ [L j]) (x :: y :: l)))
      with (try! m := shape_max (map (fun j => outer ++ [L j]) (y :: l)) in
            zip_with_strict Nat.max (outer ++ [L x]) m).
    rewrite IH by discriminate. cbn [rbind]. rewrite zip_max_last. reflexivity.
Qed.

Lemma np_empty_run (N : Numerics) (sh : list nat) (st : state) :
  exists a, np_empty sh st
            = Ok (length (heap st), mk_state (obj st) (heap st ++ [a]) (fid st) (disk st))
            /\ shape a = sh /\ length (data a) = prod_list sh.
Proof.
  eexists. split; [reflexivity|]. cbn [shape data]. split; [reflexivity|].
  rewrite length_map, length_seq. reflexivity.
Qed.

Lemma rows_done_padded (outer : list nat) (L : nat -> nat) (n : nat) (a : nat -> farray)
    (b : farray) :
  (forall j, j < n -> traces_of outer (L j) (a j)) ->
  rows_done n (prod_list outer * longest L n) (outer ++ [longest L n])
    (fun j => pad_last (prod_list outer) (L j) (longest L n - L j) nan (data (a j))) n b ->
  right_padded outer L n (longest L n) a b.
Proof.
  intros Ha (Hs & _ & Hrows). split; [exact Hs|].
  intros j o k Hj Ho Hk.
  pose proof (longest_ge L n j Hj) as HL. destruct (Ha j Hj) as [_ Hl].
  replace ((j * prod_list outer + o) * longest L n + k)
    with (j * (prod_list outer * longest L n) + (o * longest L n + k)) by lia.
  rewrite Hrows by (try exact Hj; nia).
  replace (o * longest L n + k) with (o * (L j + (longest L n - L j)) + k)
    by (f_equal; f_equal; lia).
  apply pad_last_lookup; [exact Hl|exact Ho|lia].
Qed.

Section assembled.
Context (N : Numerics).
Variables (df : datafile) (dVdI : option string) (outer : list nat) (L : nat -> nat).
Variables (ai av ad : nat -> farray).

Local Abbreviation n := (length (mo_sweeps df)).

Hypothesis Hn : mo_sweeps df <> [].
Hypothesis Hi : forall j, j < n ->
  stored df ("entry/data0/i_" +:+ format_d j) = Some (ai j) /\ traces_of outer (L j) (ai j).
Hypothesis Hv : forall j, j < n ->
  stored df ("entry/data0/v_" +:+ format_d j) = Some (av j) /\ traces_of outer (L j) (av j).
Hypothesis Hd : folder_given dVdI = true -> forall j, j < n ->
  stored df ("entry/" +:+ default "" dVdI +:+ "/dvdi_" +:+ format_d j) = Some (ad j)
  /\ traces_of outer (L j) (ad j).

(** The arrays that load assembles (lines 134 to 154 of the class). *)
Lemma assemble_run (st : state) :
  exists bI bV bd,
    assemble df (Z.of_nat (S (length outer))) dVdI st
    = Ok (tt, mk_state (self.set_dVdI (Some (S (S (length (heap st)))))
                          (self.set_V (Some (S (length (heap st))))
                             (self.set_I (Some (length (heap st))) (obj st))))
                       (heap st ++ [bI; bV; bd]) (fid st) (disk st)) /\
    right_padded outer L n (longest L n) ai bI /\
    right_padded outer L n (longest L n) av bV /\
    (folder_given dVdI = true -> right_padded outer L n (longest L n) ad bd).
Proof.
  assert (Hn0 : n <> 0) by (destruct (mo_sweeps df); [congruence|discriminate]).
  unfold assemble. cbn zeta.
  rewrite (bind_run _ _ _ _ _
             (lift_run _ _ st (shapes_run df outer L ai n Hi (seq 0 n)
                                 (fun j Hj => proj2 (proj1 (in_seq _ _ _) Hj))))).
  assert (Hmax : shape_max (map (fun j => outer ++ [L j]) (seq 0 n))
                 = Ok (outer ++ [longest L n])).
  { apply shape_max_last. destruct n; [congruence|discriminate]. }
  rewrite (bind_run _ _ _ _ _ (lift_run _ _ st Hmax)).
  set (target := outer ++ [longest L n]).
  assert (HP : prod_list (n :: target) = n * (prod_list outer * longest L n)).
  { subst target. cbn [prod_list fold_right]. fold (prod_list (outer ++ [longest L n])).
    rewrite prod_list_snoc. reflexivity. }
  destruct (np_empty_run N (n :: target) st) as (e0 & He0 & Hs0 & Hl0).
  rewrite (bind_run _ _ _ _ _ He0).
  destruct (np_empty_run N (n :: target)
              (mk_state (obj st) (heap st ++ [e0]) (fid st) (disk st)))
    as (e1 & He1 & Hs1 & Hl1).
  rewrite (bind_run _ _ _ _ _ He1). cbn [obj heap fid disk].
  destruct (np_empty_run N (n :: target)
              (mk_state (obj st) ((heap st ++ [e0]) ++ [e1]) (fid st) (disk st)))
    as (e2 & He2 & Hs2 & Hl2).
  rewrite (bind_run _ _ _ _ _ He2). cbn [obj heap fid disk].
  unfold bind at 1. unfold set_self at 1. cbn [obj heap fid disk].
  unfold bind at 1. unfold set_self at 1. cbn [obj heap fid disk].
  unfold bind at 1. unfold set_self at 1. cbn [obj heap fid disk].
  rewrite !length_app. cbn [length]. rewrite <- !app_assoc. cbn [app].
  replace (length (heap st) + 1) with (S (length (heap st))) by lia.
  replace (S (length (heap st)) + 1) with (S (S (length (heap st)))) by lia.
  rewrite HP in Hl0, Hl1, Hl2.
  destruct (load_sweeps_run N df dVdI outer L ai av ad n Hi Hv Hd (heap st)
              (self.set_dVdI (Some (S (S (length (heap st)))))
                 (self.set_V (Some (S (length (heap st))))
                    (self.set_I (Some (length (heap st))) (obj st))))
              (fid st) (disk st) n 0 e0 e1 e2 ltac:(lia)
              (rows_done_0 _ _ _ _ _ Hs0 Hl0) (rows_done_0 _ _ _ _ _ Hs1 Hl1))
    as (bI & bV & bd & Hloop & RI & RV & RD).
  { destruct (folder_given dVdI); exact (rows_done_0 _ _ _ _ _ Hs2 Hl2). }
  exists bI, bV, bd. split; [exact Hloop|].
  cbn [Nat.add] in RI, RV, RD.
  split; [|split].
  - apply rows_done_padded; [intros j Hj; apply Hi, Hj|exact RI].
  - apply rows_done_padded; [intros j Hj; apply Hv, Hj|exact RV].
  - intros Hf. rewrite Hf in RD.
    apply rows_done_padded; [intros j Hj; apply (Hd Hf), Hj|exact RD].
Qed.

End assembled.

(** *** The steps of load around the loop *)

(** get_bias reads the measurement file and the scan dimension only. *)
Lemma get_bias_run (st : state) (dfo : option datafile) (df : datafile) (d : Z) :
  match dfo with None => self.df (obj st) | Some _ => dfo end = Some df ->
  self.scan_dim (obj st) = Some d ->
  is_ok (get_bias (Some df) (st_scan d)) = true ->
  exists b, get_bias dfo st
            = Ok (b, mk_state (self.set_bias (Some b) (obj st)) (heap st) (fid st) (disk st)).
Proof.
  intros Hdf Hd. unfold get_bias, bind, get_self, lift, ret, raise, set_self.
  rewrite Hdf, Hd. cbn [st_scan obj heap fid disk self.scan_dim self.set_scan_dim self.__init__].
  destruct (py_chr (d + 119)) as [axis|]; [|discriminate].
  destruct (df_data df "i_0") as [i_0|]; [|discriminate].
  destruct (attr_truthy _).
  - destruct (df_data df "v_0") as [v_0|]; [|discriminate].
    destruct (last_component _) as [|c r]; [discriminate|].
    destruct (Ascii.eqb c "i"); [eauto|].
    destruct (Ascii.eqb c "v"); [eauto|discriminate].
  - destruct (last_component _) as [|c r]; [discriminate|].
    destruct (Ascii.eqb c "i"); [eauto|].
    destruct (Ascii.eqb c "v"); [eauto|discriminate].
Qed.

Lemma get_sweeptype_run (st : state) (sw : list sweep) :
  self.sweeps (obj st) = Some sw ->
  exists t, get_sweeptype None st
            = Ok (t, mk_state (self.set_sweeptype t (obj st)) (heap st) (fid st) (disk st)).
Proof.
  intros Hs. destruct st as [o h f dk].
  destruct o as [a1 a2 a3 a4 a5 a6 a7 a8 a9 a10 a11 a12 a13 a14 a15 a16 a17 a18 a19 a20 a21 a22 a23 a24].
  cbn [obj self.sweeps] in Hs. subst a7.
  unfold get_sweeptype, bind, get_self, set_self, ret. cbn [obj heap fid disk self.sweeps].
  destruct sw as [|s0 [|s1 [|s2 [|s3 [|s4 r]]]]]; cbn; eauto.
  - destruct (returns s0 s1); cbn; eauto.
  - destruct (returns s0 s1 && returns s2 s3); cbn; eauto.
Qed.

(** The coordinates are read from the file; the arrays stay. *)
Lemma load_coords_run (N : Numerics) (df : datafile) (d : Z) (st : state) :
  is_ok (load_coords df d (st_scan d)) = true ->
  exists o', load_coords df d st = Ok (tt, mk_state o' (heap st) (fid st) (disk st)) /\
             self.I o' = self.I (obj st) /\ self.V o' = self.V (obj st) /\
             self.dVdI o' = self.dVdI (obj st) /\
             derived o' = derived (obj st) /\ self.uuid o' = self.uuid (obj st).
Proof.
  unfold load_coords, load_coord, bind, lift, ret, set_self.
  destruct st as [o h f dk].
  destruct o as [a1 a2 a3 a4 a5 a6 a7 a8 a9 a10 a11 a12 a13 a14 a15 a16 a17 a18 a19 a20 a21 a22 a23 a24].
  cbn [obj heap fid disk st_scan].
  destruct (2 <=? d)%Z; [|intros _; eexists; repeat split].
  destruct (df_data df "i_0") as [i_0|]; [|discriminate].
  destruct (attrs_get i_0 "x_ds_url") as [[z|u]|]; try discriminate.
  destruct (df_get df u) as [ds|]; [|discriminate].
  destruct (attrs_get ds "name") as [nm|]; [|discriminate].
  destruct (attrs_get ds "unit") as [un|]; [|discriminate].
  cbn [obj heap fid disk].
  destruct (d =? 3)%Z; [|intros _; eexists; repeat split].
  destruct (attrs_get i_0 "y_ds_url") as [[z|u']|]; try discriminate.
  destruct (df_get df u') as [ds'|]; [|discriminate].
  destruct (attrs_get ds' "name") as [nm'|]; [|discriminate].
  destruct (attrs_get ds' "unit") as [un'|]; [|discriminate].
  intros _; eexists; repeat split.
Qed.

(** One run of load on a well-formed transport measurement. *)
Lemma load_run (N : Numerics) (uuid : string) (dVdI : option string)
    (df : datafile) (i_0 : dataset) (outer : list nat) (L : nat -> nat)
    (ai av ad : nat -> farray) (st : state) :
  fid st !! uuid = Some df ->
  mo_measurement_type df = "transport" ->
  df_entries df !! "entry/data0/i_0" = Some i_0 ->
  ds_attrs i_0 !! "ds_type" = Some (AInt (Z.of_nat (S (length outer)))) ->
  is_ok (get_bias (Some df) (st_scan (Z.of_nat (S (length outer))))) = true ->
  is_ok (load_coords df (Z.of_nat (S (length outer)))
           (st_scan (Z.of_nat (S (length outer))))) = true ->
  mo_sweeps df <> [] ->
  (forall j, j < length (mo_sweeps df) ->
     stored df ("entry/data0/i_" +:+ format_d j) = Some (ai j)
     /\ traces_of outer (L j) (ai j)) ->
  (forall j, j < length (mo_sweeps df) ->
     stored df ("entry/data0/v_" +:+ format_d j) = Some (av j)
     /\ traces_of outer (L j) (av j)) ->
  (folder_given dVdI = true -> forall j, j < length (mo_sweeps df) ->
     stored df ("entry/" +:+ default "" dVdI +:+ "/dvdi_" +:+ format_d j) = Some (ad j)
     /\ traces_of outer (L j) (ad j)) ->
  exists st' bI bV bd,
    load uuid dVdI st = Ok (tt, st') /\
    heap st' = heap st ++ [bI; bV; bd] /\
    self.I (obj st') = Some (length (heap st)) /\
    self.V (obj st') = Some (S (length (heap st))) /\
    self.dVdI (obj st') = Some (S (S (length (heap st)))) /\
    right_padded outer L (length (mo_sweeps df)) (longest L (length (mo_sweeps df))) ai bI /\
    right_padded outer L (length (mo_sweeps df)) (longest L (length (mo_sweeps df))) av bV /\
    (folder_given dVdI = true ->
     right_padded outer L (length (mo_sweeps df)) (longest L (length (mo_sweeps df))) ad bd) /\
    derived (obj st') = derived (reset_for uuid (obj st)) /\
    self.uuid (obj st') = Some uuid.
Proof.
  intros Hfid Htype Hi0 Hds Hbias Hcoords Hn Hi Hv Hd.
  set (d := Z.of_nat (S (length outer))) in *.
  unfold load.
  unfold bind at 1. unfold get_self at 1.
  set (o0 := reset_for uuid (obj st)).
  assert (H0 : (if negb (bool_decide (Some uuid = self.uuid (obj st)))
                   && negb (bool_decide (self.uuid (obj st) = None))
                then set_self (fun _ => self.__init__) else ret tt) st
               = Ok (tt, mk_state o0 (heap st) (fid st) (disk st))).
  { subst o0. unfold reset_for. destruct (negb _ && negb _); destruct st; reflexivity. }
  rewrite (bind_run _ _ _ _ _ H0). clear H0. generalize o0. clear o0. intros o0.
  unfold bind at 1. unfold set_self at 1. cbn [obj heap fid disk].
  unfold bind at 1. cbn [fid]. rewrite Hfid. cbv beta iota.
  unfold bind at 1. unfold set_self at 1. cbn [obj heap fid disk].
  unfold bind at 1. unfold set_self at 1. cbn [obj heap fid disk].
  unfold bind at 1. unfold set_self at 1. cbn [obj heap fid disk].
  rewrite bool_decide_eq_true_2 by exact Htype.
  unfold bind at 1. unfold lift at 1. unfold df_data at 1.
  change ("entry/data0/" +:+ "i_0") with "entry/data0/i_0". rewrite Hi0. cbv beta iota.
  unfold bind at 1. unfold lift at 1. unfold attrs_get at 1. rewrite Hds. cbv beta iota.
  unfold bind at 1. unfold ret at 1. cbv beta iota.
  unfold bind at 1. unfold set_self at 1. cbn [obj heap fid disk].
  match goal with
  | |- context [bind (get_bias None) _ ?s] =>
      destruct (get_bias_run s None df d ltac:(destruct o0; reflexivity)
                  ltac:(destruct o0; reflexivity) Hbias) as (b & Hb)
  end.
  rewrite (bind_run _ _ _ _ _ Hb). clear Hb. cbn [obj heap fid disk].
  unfold bind at 1. unfold set_self at 1. cbn [obj heap fid disk].
  match goal with
  | |- context [bind (get_sweeptype None) _ ?s] =>
      destruct (get_sweeptype_run s (mo_sweeps df) ltac:(destruct o0; reflexivity))
        as (t & Ht)
  end.
  rewrite (bind_run _ _ _ _ _ Ht). clear Ht. cbn [obj heap fid disk].
  match goal with
  | |- context [bind (assemble df d dVdI) _ ?s] =>
      destruct (assemble_run N df dVdI outer L ai av ad Hn Hi Hv Hd s)
        as (bI & bV & bd & Ha & PI & PV & PD)
  end.
  rewrite (bind_run _ _ _ _ _ Ha). clear Ha. cbn [obj heap fid disk].
  match goal with
  | |- context [load_coords df d ?s] =>
      destruct (load_coords_run N df d s Hcoords) as (o' & Hc & HI & HV & HdV & Hder & Hu)
  end.
  exists (mk_state o' (heap st ++ [bI; bV; bd]) (fid st) (disk st)), bI, bV, bd.
  cbn [obj heap fid disk] in *.
  split; [exact Hc|]. split; [reflexivity|].
  rewrite HI, HV, HdV, Hder, Hu.
  destruct o0. cbn.
  split; [reflexivity|split; [reflexivity|split; [reflexivity|]]].
  split; [exact PI|split; [exact PV|split; [exact PD|split; reflexivity]]].
Qed.


(** X10: load of a transport measurement returns, and pads the sweeps at
    their ends.  For a file of scan dimension d = len(outer) + 1 whose n >= 1
    sweeps i_j, v_j (and dvdi_j in the folder asked for, if one is asked
    for) have the shapes outer + (L_j,) - the same outer extents, any
    numbers of sweep points -, whose bias can be read and whose outer
    coordinates are there: load returns; self.I, self.V and self.dVdI refer
    to three new array objects of shape (n,) + outer + (max L_j,), every
    array object that existed before is untouched; and in the new arrays
    entry (j, o, k) is entry (o, k) of the stored sweep j for k < L_j, and NaN
    for k >= L_j.  (Without a folder, dVdI is left as np.empty made it.) *)
Theorem load_pads_sweeps (N : Numerics) (uuid : string) (dVdI : option string)
    (df : datafile) (i_0 : dataset) (outer : list nat) (L : nat -> nat)
    (ai av ad : nat -> farray) (st : state) :
  fid st !! uuid = Some df ->
  mo_measurement_type df = "transport" ->
  df_entries df !! "entry/data0/i_0" = Some i_0 ->
  ds_attrs i_0 !! "ds_type" = Some (AInt (Z.of_nat (S (length outer)))) ->
  is_ok (get_bias (Some df) (st_scan (Z.of_nat (S (length outer))))) = true ->
  is_ok (load_coords df (Z.of_nat (S (length outer)))
           (st_scan (Z.of_nat (S (length outer))))) = true ->
  mo_sweeps df <> [] ->
  (forall j, j < length (mo_sweeps df) ->
     stored df ("entry/data0/i_" +:+ format_d j) = Some (ai j)
     /\ traces_of outer (L j) (ai j)) ->
  (forall j, j < length (mo_sweeps df) ->
     stored df ("entry/data0/v_" +:+ format_d j) = Some (av j)
     /\ traces_of outer (L j) (av j)) ->
  (folder_given dVdI = true -> forall j, j < length (mo_sweeps df) ->
     stored df ("entry/" +:+ default "" dVdI +:+ "/dvdi_" +:+ format_d j) = Some (ad j)
     /\ traces_of outer (L j) (ad j)) ->
  exists st' bI bV bd,
    load uuid dVdI st = Ok (tt, st') /\
    heap st' = heap st ++ [bI; bV; bd] /\
    self.I (obj st') = Some (length (heap st)) /\
    self.V (obj st') = Some (S (length (heap st))) /\
    self.dVdI (obj st') = Some (S (S (length (heap st)))) /\
    right_padded outer L (length (mo_sweeps df)) (longest L (length (mo_sweeps df))) ai bI /\
    right_padded outer L (length (mo_sweeps df)) (longest L (length (mo_sweeps df))) av bV /\
    (folder_given dVdI = true ->
     right_padded outer L (length (mo_sweeps df)) (longest L (length (mo_sweeps df))) ad bd).
Proof.
  intros Hfid Htype Hi0 Hds Hbias Hcoords Hn Hi Hv Hd.
  destruct (load_run N uuid dVdI df i_0 outer L ai av ad st Hfid Htype Hi0 Hds Hbias Hcoords
              Hn Hi Hv Hd)
    as (st' & bI & bV & bd & H1 & H2 & H3 & H4 & H5 & H6 & H7 & H8 & _).
  exists st', bI, bV, bd. auto 10.
Qed.

Lemma load_pads_sweeps_witness :
  exists st' bI bV bd,
    load (N := Ref.numerics) "RAGGED" (Some "analysis0") st_ragged = Ok (tt, st') /\
    heap st' = [bI; bV; bd] /\
    shape bI = [2; 3] /\
    data bI !! 3 = Some 2%float /\ data bI !! 4 = Some 0%float /\ data bI !! 5 = Some nan /\
    data bV !! 5 = Some nan /\ data bd !! 5 = Some nan.
Proof.
  destruct (load_pads_sweeps Ref.numerics "RAGGED" (Some "analysis0") ragged_file
              (mk_dataset (fvec [0; 1; 2]%float) (axis_attrs 1 "entry/data0/i_b_0"))
              [] ragged_L ragged_i ragged_v ragged_dvdi st_ragged)
    as (st' & bI & bV & bd & Hload & Hheap & _ & _ & _ & PI & PV & PD).
  - vm_compute. reflexivity.
  - reflexivity.
  - vm_compute. reflexivity.
  - vm_compute. reflexivity.
  - vm_compute. reflexivity.
  - vm_compute. reflexivity.
  - discriminate.
  - intros j Hj. destruct j as [|[|j]]; [| |simpl in Hj; lia];
      (split; [vm_compute; reflexivity|split; reflexivity]).
  - intros j Hj. destruct j as [|[|j]]; [| |simpl in Hj; lia];
      (split; [vm_compute; reflexivity|split; reflexivity]).
  - intros _ j Hj. destruct j as [|[|j]]; [| |simpl in Hj; lia];
      (split; [vm_compute; reflexivity|split; reflexivity]).
  - exists st', bI, bV, bd. split; [exact Hload|]. split; [exact Hheap|].
    destruct PI as [HsI HI]. destruct PV as [_ HV]. destruct (PD eq_refl) as [_ HD].
    split; [exact HsI|].
    split; [exact (HI 1 0 0 ltac:(vm_compute; lia) ltac:(vm_compute; lia) ltac:(vm_compute; lia))|].
    split; [exact (HI 1 0 1 ltac:(vm_compute; lia) ltac:(vm_compute; lia) ltac:(vm_compute; lia))|].
    split; [exact (HI 1 0 2 ltac:(vm_compute; lia) ltac:(vm_compute; lia) ltac:(vm_compute; lia))|].
    split; [exact (HV 1 0 2 ltac:(vm_compute; lia) ltac:(vm_compute; lia) ltac:(vm_compute; lia))|].
    exact (HD 1 0 2 ltac:(vm_compute; lia) ltac:(vm_compute; lia) ltac:(vm_compute; lia)).
Defined.



(** ** Sweep topology: the classifier in a fresh context, and called twice *)

(** X1: in a context that holds no sweep type (as after __init__ or after a
    set of another count), get_sweeptype returns the topology of the rule:
    0 for two sweeps of which the second returns the first, 1 for four
    sweeps that are two such pairs, None otherwise; it assigns the same value
    to self.sweeptype and changes nothing else. *)
Theorem get_sweeptype_of_fresh_context (sweeps : list sweep) (st : state) :
  self.sweeptype (obj st) = None ->
  get_sweeptype (Some sweeps) st
  = Ok (topology sweeps,
        mk_state (self.set_sweeptype (topology sweeps) (obj st)) (heap st) (fid st) (disk st)).
Proof.
  intros H. destruct st as [o h f d]. destruct o. cbn [obj self.sweeptype] in H. subst.
  unfold get_sweeptype, topology, bind, get_self, set_self, ret. cbn [obj heap fid disk].
  destruct sweeps as [|s0 [|s1 [|s2 [|s3 [|s4 r]]]]]; try reflexivity.
  - destruct (returns s0 s1); reflexivity.
  - destruct (returns s0 s1 && returns s2 s3); reflexivity.
Qed.

Lemma get_sweeptype_of_fresh_context_witness :
  returned (get_sweeptype (Some fourquadrant_set) st_fresh) = Some (Some 1%Z).
Proof.
  rewrite (get_sweeptype_of_fresh_context fourquadrant_set st_fresh eq_refl).
  vm_compute. reflexivity.
Defined.

(** X2: classifying the same set of sweeps twice is the same as classifying
    it once, in every context (whatever self.sweeptype held before, and also
    when the sweeps are the ones of self): the second call returns what the
    first returned and leaves the state the first one left. *)
Theorem get_sweeptype_twice (sweeps : option (list sweep)) (st : state) :
  (get_sweeptype sweeps ;; get_sweeptype sweeps) st = get_sweeptype sweeps st.
Proof.
  destruct st as [o h f d].
  destruct o as [a1 a2 a3 a4 a5 a6 a7 a8 a9 a10 a11 a12 a13 a14 a15 a16 a17 a18 a19 a20 a21 a22 a23 a24].
  unfold get_sweeptype, bind, get_self, set_self, ret, raise. cbn [obj heap fid disk self.sweeps].
  destruct sweeps as [l|]; [|destruct a7 as [l|]; [|reflexivity]];
    destruct l as [|s0 [|s1 [|s2 [|s3 [|s4 r]]]]]; cbn; try reflexivity;
    try (destruct (returns s0 s1) eqn:E1; cbn; rewrite ?E1; try reflexivity;
         destruct (returns s2 s3) eqn:E2; cbn; rewrite ?E1, ?E2; reflexivity).
Qed.

(** ** Differentiation: what get_dydx and get_dVdI return *)

Section differentiation_laws.
Context (N : Numerics).

(** X3: get_dydx returns exactly when the strategy succeeds on the arrays as
    they are given (on y alone, or on y and x with a quotient that
    broadcasts): it then returns that derivative and leaves the state as it
    was.  Every failure of the first attempt, whatever exception the
    strategy raised, ends in TypeError: the handler never gets to strip the
    NaNs. *)
Theorem get_dydx_direct_or_TypeError (y : farray) (x : option farray) (mode : strategy)
    (kw : gmap string pyval) (st : state) :
  get_dydx y x mode kw st =
  match (let kw' := mode_defaults (obj st) mode kw in
         match x with
         | None => call_mode mode kw' y
         | Some x => try! dy := call_mode mode kw' y in
                     try! dx := call_mode mode kw' x in
                     nd_map2 PrimFloat.div dy dx
         end) with
  | Ok r => Ok (r, st)
  | Raise _ => Raise TypeError
  end.
Proof.
  unfold get_dydx, bind, get_self, try_except, lift. cbn zeta.
  destruct x as [x|].
  - destruct (call_mode mode _ y) as [dy|]; [|reflexivity]. cbn [rbind].
    destruct (call_mode mode _ x) as [dx|]; [|reflexivity]. cbn [rbind].
    destruct (nd_map2 _ dy dx); reflexivity.
  - destruct (call_mode mode _ y); reflexivity.
Qed.

(** X4: the defaults of the strategy never replace a keyword argument of the
    caller; the Savitzky-Golay filter is called with window_length,
    polyorder and deriv (15, 3 and 1 where the caller gave none), the
    gradient with an axis (self.scan_dim where the caller gave none). *)
Theorem mode_defaults_keep_given (s : self.t) (mode : strategy) (kw : gmap string pyval) :
  (forall k v, kw !! k = Some v -> mode_defaults s mode kw !! k = Some v) /\
  mode_defaults s savgol_filter kw !! "window_length"
    = Some (default (VInt 15) (kw !! "window_length")) /\
  mode_defaults s savgol_filter kw !! "polyorder"
    = Some (default (VInt 3) (kw !! "polyorder")) /\
  mode_defaults s savgol_filter kw !! "deriv"
    = Some (default (VInt 1) (kw !! "deriv")) /\
  mode_defaults s gradient kw !! "axis"
    = Some (default (match self.scan_dim s with Some d => VInt d | None => VNone end)
                    (kw !! "axis")).
Proof.
  assert (Hkeep : forall k0 v0 (m : gmap string pyval) k v,
             m !! k = Some v -> setdefault k0 v0 m !! k = Some v).
  { intros k0 v0 m k v H. unfold setdefault. destruct (m !! k0) eqn:E; [exact H|].
    rewrite lookup_insert_ne; [exact H|]. intros ->. congruence. }
  assert (Hset : forall k0 v0 (m : gmap string pyval),
             setdefault k0 v0 m !! k0 = Some (default v0 (m !! k0))).
  { intros k0 v0 m. unfold setdefault. destruct (m !! k0) eqn:E; cbn.
    - exact E.
    - apply lookup_insert_eq. }
  assert (Hother : forall k0 v0 (m : gmap string pyval) k,
             k <> k0 -> setdefault k0 v0 m !! k = m !! k).
  { intros k0 v0 m k H. unfold setdefault. destruct (m !! k0) eqn:E; [reflexivity|].
    apply lookup_insert_ne. congruence. }
  split; [|split; [|split; [|split]]].
  - intros k v H. destruct mode; cbn [mode_defaults]; auto.
  - cbn [mode_defaults]. rewrite !Hother by discriminate. apply Hset.
  - cbn [mode_defaults]. rewrite Hother by discriminate. rewrite Hset.
    rewrite Hother by discriminate. reflexivity.
  - cbn [mode_defaults]. rewrite Hset. rewrite !Hother by discriminate. reflexivity.
  - cbn [mode_defaults]. apply Hset.
Qed.

(** X5: get_dVdI differentiates the arrays given, or self.V and self.I for
    the omitted ones; when get_dydx returns a derivative, that derivative
    becomes a new array object, self.dVdI and the value returned both refer
    to it, and every array object that existed before, I and V among them,
    is as it was. *)
Theorem get_dVdI_stores_new_array (st : state) (I V : option loc) (mode : strategy)
    (kw : gmap string pyval) (ly lx : loc) (ya xa d : farray) :
  match V with None => self.V (obj st) | Some _ => V end = Some ly ->
  match I with None => self.I (obj st) | Some _ => I end = Some lx ->
  heap st !! ly = Some ya -> heap st !! lx = Some xa ->
  get_dydx ya (Some xa) mode kw st = Ok (d, st) ->
  get_dVdI I V mode kw st
  = Ok (length (heap st),
        mk_state (self.set_dVdI (Some (length (heap st))) (obj st))
                 (heap st ++ [d]) (fid st) (disk st)).
Proof.
  intros HV HI Hy Hx Hd.
  unfold get_dVdI. unfold bind at 1. unfold get_self at 1. rewrite HV, HI.
  unfold bind at 1. unfold deref at 1. rewrite Hy.
  unfold bind at 1. unfold bind at 1. unfold deref at 1. rewrite Hx. unfold ret at 1.
  unfold bind at 1. rewrite Hd.
  reflexivity.
Qed.

End differentiation_laws.

Lemma get_dVdI_stores_new_array_witness :
  exists st',
    get_dVdI (N := Ref.numerics) None None gradient ∅ st_loaded = Ok (3, st') /\
    self.dVdI (obj st') = Some 3 /\
    heap st' !! 0 = Some I_2x6 /\ heap st' !! 1 = Some V_2x6.
Proof.
  eexists. split.
  - apply (get_dVdI_stores_new_array Ref.numerics st_loaded None None gradient ∅ 1 0
             V_2x6 I_2x6
             (mk_nd [2; 6] [0; 0; 0.5; 0.5; 0; 0; (-0); (-0); (-0); (-0); (-0); (-0)]%float));
      vm_compute; reflexivity.
  - repeat split.
Defined.

(** ** Bias mode (get_bias) *)

Lemma list_ascii_of_string_app (a b : string) :
  list_ascii_of_string (a +:+ b) = list_ascii_of_string a ++ list_ascii_of_string b.
Proof.
  induction a as [|c a IH]; [reflexivity|].
  change (String c a +:+ b) with (String c (a +:+ b)).
  cbn [list_ascii_of_string app]. f_equal. exact IH.
Qed.

(** The last component of a path is what follows its last slash. *)
Lemma last_component_path (dir name : string) :
  existsb (Ascii.eqb "/"%char) (list_ascii_of_string name) = false ->
  last_component (dir +:+ "/" +:+ name) = name.
Proof.
  intros Hname. induction dir as [|c dir IH].
  - change ("" +:+ "/" +:+ name) with (String "/"%char name).
    cbn [last_component]. rewrite Hname. reflexivity.
  - change (String c dir +:+ "/" +:+ name) with (String c (dir +:+ String "/"%char name)).
    cbn [last_component].
    rewrite list_ascii_of_string_app, existsb_app.
    cbn [list_ascii_of_string existsb]. rewrite Ascii.eqb_refl. cbn [orb].
    rewrite orb_true_r. exact IH.
Qed.

(** X6: get_bias does not compare the urls of i_0 and v_0.  When the url of
    the sweep axis of i_0 is a non-empty string, the bias is read off the
    url of v_0 alone: the first letter of its last path component decides,
    'i' gives 0 (current bias), 'v' gives 1 (voltage bias), any other letter
    is a KeyError; the value returned is also assigned to self.bias and
    nothing else changes. *)
Theorem get_bias_reads_v_0 (st : state) (dfo : option datafile) (df : datafile) (d : Z)
    (c : string) (i_0 v_0 : dataset) (ai : attr) (dir rest : string) (letter : ascii) :
  match dfo with None => self.df (obj st) | Some _ => dfo end = Some df ->
  self.scan_dim (obj st) = Some d ->
  py_chr (d + 119) = Ok (Some c) ->
  df_entries df !! "entry/data0/i_0" = Some i_0 ->
  df_entries df !! "entry/data0/v_0" = Some v_0 ->
  ds_attrs i_0 !! (c +:+ "_ds_url") = Some ai ->
  attr_truthy (Some ai) = true ->
  ds_attrs v_0 !! (c +:+ "_ds_url") = Some (AStr (dir +:+ "/" +:+ String letter rest)) ->
  existsb (Ascii.eqb "/"%char) (list_ascii_of_string (String letter rest)) = false ->
  get_bias dfo st =
  if Ascii.eqb letter "i"%char
  then Ok (0%Z, mk_state (self.set_bias (Some 0%Z) (obj st)) (heap st) (fid st) (disk st))
  else if Ascii.eqb letter "v"%char
       then Ok (1%Z, mk_state (self.set_bias (Some 1%Z) (obj st)) (heap st) (fid st) (disk st))
       else Raise KeyError.
Proof.
  intros Hdf Hd Hc Hi Hv Hai Ht Hav Hname.
  unfold get_bias. unfold bind at 1. unfold get_self at 1. rewrite Hdf, Hd.
  unfold bind at 1. unfold lift at 1. rewrite Hc.
  unfold bind at 1. unfold lift at 1. unfold df_data at 1.
  change ("entry/data0/" +:+ "i_0") with "entry/data0/i_0". rewrite Hi.
  rewrite Hai, Ht.
  unfold bind at 1. unfold bind at 1. unfold lift at 1. unfold df_data at 1.
  change ("entry/data0/" +:+ "v_0") with "entry/data0/v_0". rewrite Hv.
  unfold ret at 1. rewrite Hav. cbn [attr_str].
  rewrite (last_component_path dir (String letter rest) Hname).
  unfold bind, ret, raise, set_self.
  destruct (Ascii.eqb letter "i"); [reflexivity|].
  destruct (Ascii.eqb letter "v"); reflexivity.
Qed.

Lemma get_bias_reads_v_0_witness :
  returned (get_bias None st_ragged_header) = Some 0%Z.
Proof.
  rewrite (get_bias_reads_v_0 st_ragged_header None ragged_file 1 "x"
             (mk_dataset (fvec [0; 1; 2]%float) (axis_attrs 1 "entry/data0/i_b_0"))
             (mk_dataset (fvec [0; 10; 20]%float) (axis_attrs 1 "entry/data0/i_b_0"))
             (AStr "entry/data0/i_b_0") "entry/data0" "_b_0" "i"%char);
    vm_compute; reflexivity.
Defined.

(** X7: a measurement file whose i_0 has no url for the sweep axis of the
    scan dimension makes get_bias raise KeyError (the letter looked up is
    the 'N' of str(None)); so does a file whose i_0 has one and whose v_0
    has none. *)
Theorem get_bias_without_url (st : state) (dfo : option datafile) (df : datafile) (d : Z)
    (c : string) (i_0 : dataset) :
  match dfo with None => self.df (obj st) | Some _ => dfo end = Some df ->
  self.scan_dim (obj st) = Some d ->
  py_chr (d + 119) = Ok (Some c) ->
  df_entries df !! "entry/data0/i_0" = Some i_0 ->
  (ds_attrs i_0 !! (c +:+ "_ds_url") = None \/
   (attr_truthy (ds_attrs i_0 !! (c +:+ "_ds_url")) = true /\
    exists v_0, df_entries df !! "entry/data0/v_0" = Some v_0 /\
                ds_attrs v_0 !! (c +:+ "_ds_url") = None)) ->
  get_bias dfo st = Raise KeyError.
Proof.
  intros Hdf Hd Hc Hi Hno.
  unfold get_bias. unfold bind at 1. unfold get_self at 1. rewrite Hdf, Hd.
  unfold bind at 1. unfold lift at 1. rewrite Hc.
  unfold bind at 1. unfold lift at 1. unfold df_data at 1.
  change ("entry/data0/" +:+ "i_0") with "entry/data0/i_0". rewrite Hi.
  destruct Hno as [Hai|(Ht & v_0 & Hv & Hav)].
  - rewrite Hai. cbn [attr_truthy]. unfold bind at 1. unfold ret at 1. reflexivity.
  - rewrite Ht. unfold bind at 1. unfold bind at 1. unfold lift at 1. unfold df_data at 1.
    change ("entry/data0/" +:+ "v_0") with "entry/data0/v_0". rewrite Hv.
    unfold ret at 1. rewrite Hav. reflexivity.
Qed.

Lemma get_bias_without_url_witness :
  get_bias None st_axisless_header = Raise KeyError.
Proof.
  apply (get_bias_without_url st_axisless_header None axisless_file 1 "x"
           (mk_dataset (fvec [0; 1; 2]%float) {[ "ds_type" := AInt 1 ]}));
    try (vm_compute; reflexivity).
  left. vm_compute. reflexivity.
Defined.

(** ** Saving: the file written and its contents *)

Lemma prefix_app (p s : string) : String.prefix p (p +:+ s) = true.
Proof.
  induction p as [|a p IH]; [destruct s; reflexivity|].
  change (String a p +:+ s) with (String a (p +:+ s)). cbn [String.prefix].
  destruct (ascii_dec a a); [exact IH|contradiction].
Qed.

Lemma contains_app (pat s t : string) : contains pat (s +:+ pat +:+ t) = true.
Proof.
  induction s as [|a s IH].
  - change ("" +:+ pat +:+ t) with (pat +:+ t).
    destruct (pat +:+ t) eqn:E; cbn [contains]; rewrite <- E, prefix_app; reflexivity.
  - change (String a s +:+ pat +:+ t) with (String a (s +:+ pat +:+ t)).
    cbn [contains]. rewrite IH. apply orb_true_r.
Qed.

Lemma append_empty_r (s : string) : s +:+ "" = s.
Proof.
  induction s as [|a s IH]; [reflexivity|].
  change (String a s +:+ "") with (String a (s +:+ "")). rewrite IH. reflexivity.
Qed.

Lemma json_name_contains (filename : string) : contains ".json" (json_name filename) = true.
Proof.
  unfold json_name. destruct (contains ".json" filename) eqn:E; [exact E|].
  rewrite <- (append_empty_r ".json"). apply contains_app.
Qed.

Lemma j_array_run (st : state) (l : option loc) :
  allocated st l ->
  j_array l st = Ok (j_opt JArray (l ≫= (heap st !!.)), st).
Proof.
  intros H. unfold j_array. destruct l as [l|]; [|reflexivity].
  cbn [allocated] in H. unfold bind, deref, ret.
  change (Some l ≫= (heap st !!.)) with (heap st !! l).
  destruct (heap st !! l) eqn:E; [reflexivity|].
  apply lookup_ge_None in E. lia.
Qed.

Section saving_laws.
Variable blank : string.

(** The document save writes when no V_corr is stored. *)
Lemma save_run (filename : string) (params : option (gmap string jval)) (st : state) :
  self.V_corr (obj st) = None ->
  allocated st (self.I (obj st)) -> allocated st (self.V (obj st)) ->
  allocated st (self.dVdI (obj st)) ->
  save blank filename params st
  = Ok (tt, mk_state (obj st) (heap st) (fid st)
              (<[json_name filename :=
                   default ∅ params ∪
                   class_variables blank (obj st)
                     (j_opt JArray (self.I (obj st) ≫= (heap st !!.)))
                     (j_opt JArray (self.V (obj st) ≫= (heap st !!.)))
                     (j_opt JArray (self.dVdI (obj st) ≫= (heap st !!.)))]> (disk st))).
Proof.
  intros HV AI AV Ad. unfold save.
  unfold bind at 1. unfold get_self at 1.
  unfold bind at 1. rewrite (j_array_run st _ AI).
  unfold bind at 1. rewrite (j_array_run st _ AV).
  unfold bind at 1. rewrite (j_array_run st _ Ad).
  unfold bind at 1. rewrite HV. unfold add_V_corr, ret. reflexivity.
Qed.

(** X8: save without a stored V_corr writes one document and touches nothing
    else: the file is named filename when that contains '.json' (anywhere,
    not only at its end) and filename + '.json' otherwise, so its name always
    contains '.json'; a file of that name is replaced, every other file, the
    attributes of self and the array objects are as before. *)
Theorem save_writes_one_file (filename : string) (params : option (gmap string jval))
    (st : state) :
  self.V_corr (obj st) = None ->
  allocated st (self.I (obj st)) -> allocated st (self.V (obj st)) ->
  allocated st (self.dVdI (obj st)) ->
  exists st',
    save blank filename params st = Ok (tt, st') /\
    obj st' = obj st /\ heap st' = heap st /\ fid st' = fid st /\
    is_Some (disk st' !! json_name filename) /\
    (forall name, name <> json_name filename -> disk st' !! name = disk st !! name) /\
    contains ".json" (json_name filename) = true /\
    (contains ".json" filename = true -> json_name filename = filename) /\
    (contains ".json" filename = false -> json_name filename = filename +:+ ".json").
Proof.
  intros HV AI AV Ad. eexists. split; [apply save_run; assumption|].
  cbn [obj heap fid disk]. repeat split.
  - rewrite lookup_insert_eq. eauto.
  - intros name Hname. apply lookup_insert_ne. congruence.
  - apply json_name_contains.
  - intros E. unfold json_name. rewrite E. reflexivity.
  - intros E. unfold json_name. rewrite E. reflexivity.
Qed.

(** X9: in the document that save writes, a parameter of the caller has the
    caller's value, also where it bears the name of a class variable (so
    params can replace 'I' or 'uuid'); a class variable whose name the
    caller did not use has the value of the attribute, the arrays I, V and
    dVdI by their contents. *)
Theorem save_params_take_precedence (filename : string) (params : gmap string jval)
    (st : state) :
  self.V_corr (obj st) = None ->
  allocated st (self.I (obj st)) -> allocated st (self.V (obj st)) ->
  allocated st (self.dVdI (obj st)) ->
  exists st' doc,
    save blank filename (Some params) st = Ok (tt, st') /\
    disk st' !! json_name filename = Some doc /\
    (forall k v, params !! k = Some v -> doc !! k = Some v) /\
    (params !! "uuid" = None -> doc !! "uuid" = Some (j_opt JStr (self.uuid (obj st)))) /\
    (params !! "sweep_type" = None ->
     doc !! "sweep_type" = Some (j_opt JInt (self.sweeptype (obj st)))) /\
    (params !! "I" = None ->
     doc !! "I" = Some (j_opt JArray (self.I (obj st) ≫= (heap st !!.)))) /\
    (params !! "V_offset" = None ->
     doc !! "V_offset" = Some (j_opt JFloat (self.V_offset (obj st)))) /\
    (forall k, params !! k = None ->
               doc !! k = class_variables blank (obj st)
                            (j_opt JArray (self.I (obj st) ≫= (heap st !!.)))
                            (j_opt JArray (self.V (obj st) ≫= (heap st !!.)))
                            (j_opt JArray (self.dVdI (obj st) ≫= (heap st !!.))) !! k).
Proof.
  intros HV AI AV Ad. eexists _, _. split; [apply save_run; assumption|].
  cbn [disk]. split; [apply lookup_insert_eq|].
  change (default ∅ (Some params)) with params.
  assert (Hrest : forall k, params !! k = None ->
            (params ∪ class_variables blank (obj st)
                        (j_opt JArray (self.I (obj st) ≫= (heap st !!.)))
                        (j_opt JArray (self.V (obj st) ≫= (heap st !!.)))
                        (j_opt JArray (self.dVdI (obj st) ≫= (heap st !!.)))) !! k
            = class_variables blank (obj st)
                (j_opt JArray (self.I (obj st) ≫= (heap st !!.)))
                (j_opt JArray (self.V (obj st) ≫= (heap st !!.)))
                (j_opt JArray (self.dVdI (obj st) ≫= (heap st !!.))) !! k).
  { intros k Hk. rewrite lookup_union, Hk. apply (left_id None _). }
  split; [|split; [|split; [|split; [|split]]]].
  - intros k v Hk. apply lookup_union_Some_l. exact Hk.
  - intros Hk. rewrite (Hrest _ Hk).
    generalize (j_opt JArray (self.I (obj st) ≫= (heap st !!.)))
               (j_opt JArray (self.V (obj st) ≫= (heap st !!.)))
               (j_opt JArray (self.dVdI (obj st) ≫= (heap st !!.))).
    intros jI jV jd. unfold class_variables. vm_compute. reflexivity.
  - intros Hk. rewrite (Hrest _ Hk).
    generalize (j_opt JArray (self.I (obj st) ≫= (heap st !!.)))
               (j_opt JArray (self.V (obj st) ≫= (heap st !!.)))
               (j_opt JArray (self.dVdI (obj st) ≫= (heap st !!.))).
    intros jI jV jd. unfold class_variables. vm_compute. reflexivity.
  - intros Hk. rewrite (Hrest _ Hk).
    generalize (j_opt JArray (self.I (obj st) ≫= (heap st !!.)))
               (j_opt JArray (self.V (obj st) ≫= (heap st !!.)))
               (j_opt JArray (self.dVdI (obj st) ≫= (heap st !!.))).
    intros jI jV jd. unfold class_variables. vm_compute. reflexivity.
  - intros Hk. rewrite (Hrest _ Hk).
    generalize (j_opt JArray (self.I (obj st) ≫= (heap st !!.)))
               (j_opt JArray (self.V (obj st) ≫= (heap st !!.)))
               (j_opt JArray (self.dVdI (obj st) ≫= (heap st !!.))).
    intros jI jV jd. unfold class_variables. vm_compute. reflexivity.
  - exact Hrest.
Qed.

End saving_laws.

Lemma save_writes_one_file_witness :
  exists st',
    save "{}" "result" None st_loaded = Ok (tt, st') /\
    is_Some (disk st' !! "result.json") /\ heap st' = heap st_loaded.
Proof.
  destruct (save_writes_one_file "{}" "result" None st_loaded eq_refl
              ltac:(vm_compute; lia) ltac:(vm_compute; lia) ltac:(vm_compute; lia))
    as (st' & Hs & _ & Hh & _ & Hd & _).
  exists st'. repeat split; assumption.
Defined.

Lemma save_params_take_precedence_witness :
  exists st' doc,
    save "{}" "result.json" (Some {[ "uuid" := JStr "ABCDEF" ]}) st_loaded = Ok (tt, st') /\
    disk st' !! "result.json" = Some doc /\
    doc !! "uuid" = Some (JStr "ABCDEF") /\
    doc !! "sweep_type" = Some (JInt 0).
Proof.
  destruct (save_params_take_precedence "{}" "result.json" {[ "uuid" := JStr "ABCDEF" ]}
              st_loaded eq_refl
              ltac:(vm_compute; lia) ltac:(vm_compute; lia) ltac:(vm_compute; lia))
    as (st' & doc & Hs & Hd & Hp & _ & Ht & _).
  exists st', doc. repeat split.
  - exact Hs.
  - exact Hd.
  - apply Hp. vm_compute. reflexivity.
  - apply Ht. vm_compute. reflexivity.
Defined.

(** ** Sweeps without a known topology *)

Lemma bind_never {A B} (m : M A) (k : A -> M B) (st : state) :
  (forall a st', is_ok (k a st') = false) -> is_ok (bind m k st) = false.
Proof. intros H. unfold bind. destruct (m st) as [[a st']|]; [apply H|reflexivity]. Qed.

Section custom_sweeps.
Context (N : Numerics).

Lemma trace_offsets_custom (sweeptype scan_dim : option Z) (yr : bool) (xc yc : farray) :
  sweeptype <> Some 0%Z -> sweeptype <> Some 1%Z ->
  trace_offsets sweeptype scan_dim yr xc yc = Raise NotImplementedError.
Proof.
  intros H0 H1. unfold trace_offsets.
  destruct sweeptype as [[|[p|p|]|p]|]; try reflexivity; congruence.
Qed.

Lemma branch_mask_run (x : farray) (threshold offset : float) :
  branch_mask x threshold offset
  = Ok (mk_nd (shape x) (map (inside threshold offset) (data x))).
Proof.
  unfold branch_mask, np_logical_and, nd_map2, ge_scalar, le_scalar, nd_map. cbn [shape data].
  rewrite bool_decide_eq_true_2 by reflexivity. f_equal. f_equal.
  induction (data x) as [|v l IH]; [reflexivity|]. cbn [map combine]. rewrite IH. reflexivity.
Qed.

(** X11: for sweeps without a known topology (self.sweeptype neither 0 nor
    1) get_offsets never returns, whatever its arguments; when x and y are
    arrays of one size, what it raises is NotImplementedError. *)
Theorem get_offsets_custom_sweeptype (st : state) (x y : option loc)
    (threshold offset : float) (yr : bool) :
  self.sweeptype (obj st) <> Some 0%Z -> self.sweeptype (obj st) <> Some 1%Z ->
  is_ok (get_offsets x y threshold offset yr st) = false /\
  (forall lx ly xa ya,
      default_xy (obj st) x y = Ok (Some lx, Some ly) ->
      heap st !! lx = Some xa -> heap st !! ly = Some ya ->
      length (data ya) = length (data xa) -> self.bias (obj st) <> None ->
      get_offsets x y threshold offset yr st = Raise NotImplementedError).
Proof.
  intros H0 H1. split.
  - unfold get_offsets. unfold bind at 1. unfold get_self at 1.
    apply bind_never. intros [ox oy] st1. destruct ox as [lx|]; [|reflexivity].
    do 8 (apply bind_never; intros).
    unfold bind, lift. rewrite trace_offsets_custom by assumption. reflexivity.
  - intros lx ly xa ya Hxy Hx Hy Hlen Hb.
    rewrite (get_offsets_run N st x y lx (Some ly) xa ya threshold offset yr Hxy Hx Hy).
    unfold offsets_of. rewrite branch_mask_run. cbn [rbind].
    unfold place, np_logical_not, nd_map. cbn [shape data].
    rewrite !length_map, Nat.eqb_refl. cbn [rbind].
    rewrite Hlen, Nat.eqb_refl. cbn [rbind].
    rewrite trace_offsets_custom by assumption. reflexivity.
Qed.

(** X12: for sweeps without a known topology the whole-dataset branch of
    get_Ic_threshold (V with any number of axes but one) never returns; the
    single-trace branch does not look at the topology. *)
Theorem get_Ic_threshold_custom_sweeptype (st : state) (I : option loc) (v : loc)
    (Va : farray) (threshold : float) (offset : option float) (Ir : bool) :
  self.sweeptype (obj st) <> Some 0%Z -> self.sweeptype (obj st) <> Some 1%Z ->
  heap st !! v = Some Va -> ndim Va <> 1 ->
  is_ok (get_Ic_threshold I (Some v) threshold offset Ir st) = false /\
  (forall li Ia,
      match I with None => self.I (obj st) | Some _ => I end = Some li ->
      heap st !! li = Some Ia -> length (data Ia) = length (data Va) ->
      get_Ic_threshold I (Some v) threshold offset Ir st = Raise NotImplementedError).
Proof.
  intros H0 H1 Hv Hn.
  assert (Hcustom : forall A (a b : M A),
             match self.sweeptype (obj st) with
             | Some 0%Z => a
             | Some 1%Z => b
             | _ => raise NotImplementedError
             end = raise NotImplementedError).
  { intros A a b. destruct (self.sweeptype (obj st)) as [[|[p|p|]|p]|];
      try reflexivity; congruence. }
  split.
  - unfold get_Ic_threshold. unfold bind at 1. unfold deref at 1. rewrite Hv.
    destruct (Nat.eqb_spec (ndim Va) 1) as [E|_]; [contradiction|].
    unfold bind at 1. unfold get_self at 1. cbv beta zeta.
    do 6 (apply bind_never; intros).
    rewrite Hcustom. reflexivity.
  - intros li Ia HI Hi Hlen.
    unfold get_Ic_threshold. unfold bind at 1. unfold deref at 1. rewrite Hv.
    destruct (Nat.eqb_spec (ndim Va) 1) as [E|_]; [contradiction|].
    unfold bind at 1. unfold get_self at 1. cbv beta zeta. rewrite HI.
    unfold bind at 1. unfold lift at 1. rewrite branch_mask_run.
    unfold bind at 1. rewrite (np_copy_run st v Va Hv).
    unfold bind at 1. unfold copy_or_none.
    rewrite (np_copy_run _ li Ia)
      by (cbn [heap]; rewrite lookup_app_l; [exact Hi|apply lookup_lt_Some in Hi; exact Hi]).
    cbn [obj heap fid disk].
    unfold bind at 1.
    rewrite (update_run _ (length (heap st)) Va)
      by (cbn [heap]; rewrite <- app_assoc; rewrite lookup_app_r by lia;
          rewrite Nat.sub_diag; reflexivity).
    unfold place at 1, np_logical_not, nd_map. cbn [shape data].
    rewrite !length_map, Nat.eqb_refl. cbn [obj heap fid disk].
    unfold bind at 1.
    rewrite (update_run _ (length (heap st ++ [Va])) Ia).
    2:{ cbn [heap]. rewrite insert_app_l by (rewrite length_app; cbn; lia).
        rewrite lookup_app_r by (rewrite length_insert; lia).
        rewrite length_insert, Nat.sub_diag. reflexivity. }
    unfold place at 1. cbn [shape data]. rewrite !length_map, Hlen, Nat.eqb_refl.
    cbn [obj heap fid disk].
    unfold bind at 1. unfold deref at 1. cbn [heap].
    rewrite list_lookup_insert_eq
      by (rewrite length_insert, !length_app; cbn [length]; lia).
    rewrite Hcustom. reflexivity.
Qed.

End custom_sweeps.

Lemma get_offsets_custom_sweeptype_witness :
  get_offsets (N := Ref.numerics) None None 20e-6%float 0%float false st_custom
  = Raise NotImplementedError.
Proof.
  apply (proj2 (get_offsets_custom_sweeptype Ref.numerics st_custom None None
                  20e-6%float 0%float false
                  ltac:(vm_compute; discriminate) ltac:(vm_compute; discriminate))
           1 0 V_2x6 I_2x6);
    try (vm_compute; reflexivity).
  vm_compute. discriminate.
Defined.

Lemma get_Ic_threshold_custom_sweeptype_witness :
  get_Ic_threshold (N := Ref.numerics) None (Some 1) 20e-6%float None false st_custom
  = Raise NotImplementedError.
Proof.
  apply (proj2 (get_Ic_threshold_custom_sweeptype Ref.numerics st_custom None 1 V_2x6
                  20e-6%float None false
                  ltac:(vm_compute; discriminate) ltac:(vm_compute; discriminate)
                  eq_refl ltac:(vm_compute; discriminate))
           0 I_2x6);
    vm_compute; reflexivity.
Defined.

(** ** Threshold detector on a single trace *)

Lemma combine_map_r {A B C D} (f : A * C -> D) (g : B -> C) (l1 : list A) (l2 : list B) :
  map f (combine l1 (map g l2)) = map (fun p => f (fst p, g (snd p))) (combine l1 l2).
Proof.
  revert l2. induction l1 as [|a l1 IH]; intros [|b l2]; cbn; try reflexivity.
  rewrite IH. reflexivity.
Qed.

(** X13: on a single trace (V with one axis; I of the same size) and with
    the offset given, get_Ic_threshold returns the largest current
    (np.nanmax) among the samples whose voltage lies within threshold of the
    offset, all other currents being replaced by NaN in a copy; on a trace
    without samples it raises ValueError (np.nanmax of an empty array).  The
    arrays I and V themselves are not modified, and neither the flag Ir nor
    the sweep topology has any effect. *)
Theorem get_Ic_threshold_single_trace (N : Numerics) (st : state) (i v : loc)
    (Ia Va : farray) (threshold offset : float) (Ir : bool) :
  heap st !! v = Some Va -> ndim Va = 1 -> heap st !! i = Some Ia ->
  length (data Ia) = length (data Va) ->
  get_Ic_threshold (Some i) (Some v) threshold (Some offset) Ir st
  = let masked := map (fun p => if inside threshold offset (snd p) then fst p else nan)
                      (combine (data Ia) (data Va)) in
    match data Ia with
    | [] => Raise ValueError
    | _ :: _ =>
        Ok (Scalar (np_nanmax masked),
            mk_state (obj st) (heap st ++ [mk_nd (shape Ia) masked]) (fid st) (disk st))
    end.
Proof.
  intros Hv Hn Hi Hlen. cbv zeta.
  unfold get_Ic_threshold. unfold bind at 1. unfold deref at 1. rewrite Hv, Hn.
  cbn [Nat.eqb].
  unfold bind at 1. unfold lift at 1. rewrite branch_mask_run.
  unfold bind at 1. rewrite (np_copy_run st i Ia Hi).
  unfold bind at 1.
  rewrite (update_run _ (length (heap st)) Ia)
    by (cbn [heap]; rewrite lookup_app_r by lia; rewrite Nat.sub_diag; reflexivity).
  unfold place, np_logical_not, nd_map. cbn [shape data].
  rewrite !length_map, Hlen, Nat.eqb_refl. cbn [obj heap fid disk].
  unfold bind at 1. unfold deref at 1. cbn [heap].
  rewrite list_lookup_insert_eq by (rewrite length_app; cbn [length]; lia).
  cbn [data].
  rewrite insert_app_r_alt by lia. rewrite Nat.sub_diag. cbn [insert list_insert].
  rewrite !combine_map_r. cbn [fst snd].
  assert (E : forall l : list (float * float),
             map (fun p => if negb (inside threshold offset (snd p)) then nan else fst p) l
             = map (fun p => if inside threshold offset (snd p) then fst p else nan) l).
  { intros l. apply map_ext. intros p. destruct (inside threshold offset (snd p)); reflexivity. }
  rewrite E.
  destruct (data Ia) as [|x xs]; destruct (data Va) as [|y ys]; try discriminate; reflexivity.
Qed.

Lemma get_Ic_threshold_single_trace_witness :
  exists st',
    get_Ic_threshold (N := Ref.numerics) (Some 0) (Some 1) 20e-6%float (Some 0%float) true
      st_trace
    = Ok (Scalar 1%float, st') /\
    heap st' !! 0 = Some (fvec [0; 1; 2; 3]%float).
Proof.
  eexists. split.
  - etransitivity.
    + apply (get_Ic_threshold_single_trace Ref.numerics st_trace 0 1
               (fvec [0; 1; 2; 3]%float) (fvec [0; 0; 1; 1]%float) 20e-6%float 0%float true);
        reflexivity.
    + vm_compute. reflexivity.
  - reflexivity.
Defined.

(** ** Ohmic slope correction: scan dimensions and the shape of V_corr *)

Lemma rmap_Forall {A B} (f : A -> result B) (Q : B -> Prop) (l : list A) (r : list B) :
  rmap f l = Ok r -> (forall x y, In x l -> f x = Ok y -> Q y) -> Forall Q r.
Proof.
  revert r. induction l as [|a l IH]; intros r Hr HQ; simpl in Hr.
  - inversion Hr. constructor.
  - destruct (f a) as [b|] eqn:Hb; [|discriminate]. simpl in Hr.
    destruct (rmap f l) as [bs|] eqn:Hbs; [|discriminate]. inversion Hr; subst r.
    constructor.
    + apply (HQ a b); [left; reflexivity|exact Hb].
    + apply IH; [reflexivity|]. intros x y Hx. apply HQ. right. exact Hx.
Qed.

Lemma rows_shape {A} (a : nd A) (n : nat) (sh : list nat) :
  shape a = n :: sh ->
  exists rs, rows a = Ok rs /\ length rs = n /\ Forall (fun r => shape r = sh) rs.
Proof.
  intros Hs. unfold rows. rewrite Hs. eexists. split; [reflexivity|]. split.
  - rewrite length_map. apply chunks_length.
  - apply Forall_map. apply Forall_forall. intros x _. reflexivity.
Qed.

Section slope_correction_laws.
Context (N : Numerics).

(** The arrays of self stand for the omitted arguments. *)
Lemma get_2wire_resolved (st : state) (I V dVdI : option loc) (li lv ld : loc)
    (pf : finder) (kw : gmap string pyval) :
  match I with None => self.I (obj st) | Some _ => I end = Some li ->
  match V with None => self.V (obj st) | Some _ => V end = Some lv ->
  match dVdI with None => self.dVdI (obj st) | Some _ => dVdI end = Some ld ->
  get_2wire_slope_correction I V dVdI pf kw st
  = get_2wire_slope_correction (Some li) (Some lv) (Some ld) pf kw st.
Proof.
  intros HI HV Hd. unfold get_2wire_slope_correction.
  unfold bind at 1. unfold get_self at 1. cbv beta zeta. rewrite HI, HV, Hd.
  unfold bind at 7. unfold get_self at 1. reflexivity.
Qed.

(** X14: outside scan dimension 1 the slope correction produces no
    corrected voltage.  A context whose scan dimension is none of 1, 2, 3
    (a context that has loaded nothing, for one) makes it raise ValueError,
    whatever its arguments; for scan dimension 2 or 3 and arrays I, V, dVdI
    with at least one row each it raises TypeError (the inner map objects
    are handed to np.array(..., dtype=float) as they are). *)
Theorem slope_correction_outside_scan_dim_1 (st : state) (I V dVdI : option loc)
    (pf : finder) (kw : gmap string pyval) :
  (self.scan_dim (obj st) <> Some 1%Z -> self.scan_dim (obj st) <> Some 2%Z ->
   self.scan_dim (obj st) <> Some 3%Z ->
   get_2wire_slope_correction I V dVdI pf kw st = Raise ValueError) /\
  (forall li lv ld Ia Va da ni nv nd shi shv shd,
      self.scan_dim (obj st) = Some 2%Z \/ self.scan_dim (obj st) = Some 3%Z ->
      match I with None => self.I (obj st) | Some _ => I end = Some li ->
      match V with None => self.V (obj st) | Some _ => V end = Some lv ->
      match dVdI with None => self.dVdI (obj st) | Some _ => dVdI end = Some ld ->
      heap st !! li = Some Ia -> heap st !! lv = Some Va -> heap st !! ld = Some da ->
      shape Ia = S ni :: shi -> shape Va = S nv :: shv -> shape da = S nd :: shd ->
      get_2wire_slope_correction I V dVdI pf kw st = Raise TypeError).
Proof.
  split.
  - intros H1 H2 H3. unfold get_2wire_slope_correction.
    unfold bind at 1. unfold get_self at 1. cbv beta zeta.
    destruct (self.scan_dim (obj st)) as [[|[[|[]|]|[|[]|]|]|]|]; try reflexivity; congruence.
  - intros li lv ld Ia Va da ni nv nd shi shv shd Hd HI HV HdV Hi Hv Hdd Hsi Hsv Hsd.
    unfold get_2wire_slope_correction.
    unfold bind at 1. unfold get_self at 1. cbv beta zeta. rewrite HI, HV, HdV.
    assert (Hts : exists t ts,
               (let* d := deref ld in
                let* i := deref li in
                let* v := deref lv in
                lift (try! dr := rows d in
                      try! ir := rows i in
                      try! vr := rows v in
                      Ok (zip3 ir vr dr))) st = Ok (t :: ts, st)).
    { unfold bind, deref, lift. rewrite Hdd, Hi, Hv.
      unfold rows. rewrite Hsd, Hsi, Hsv. cbn [rbind chunks map zip3 combine]. eauto. }
    destruct Hts as (t & ts & Hts).
    destruct Hd as [Hd|Hd]; rewrite Hd; rewrite (bind_run _ _ _ _ _ Hts); reflexivity.
Qed.

Lemma correct_trace_shape (pf : finder) (kw : gmap string pyval) (I1D V1D d1D r : farray) :
  correct_trace pf kw I1D V1D d1D = Ok r -> shape I1D = shape V1D -> shape r = shape V1D.
Proof.
  unfold correct_trace. intros H Hs.
  destruct (call_finder pf kw d1D) as [peaks|]; [|discriminate]. cbn [rbind] in H.
  destruct (branch_slice peaks) as [s|]; [|discriminate]. cbn [rbind] in H.
  destruct ((ndim I1D =? 1) && (ndim V1D =? 1)); [|discriminate]. cbn [rbind] in H.
  destruct (lin_fit _ _) as [popt|]; [|discriminate]. cbn [rbind] in H.
  unfold nd_map2, nd_map in H. cbn [shape data] in H.
  rewrite bool_decide_eq_true_2 in H by (symmetry; exact Hs).
  inversion H. reflexivity.
Qed.

(** X15: for scan dimension 1 and arrays I, V, dVdI of one shape (n, L),
    n >= 1: when the slope correction returns, the corrected voltage is a
    new array object of the shape (n, L) of V, self.V_corr and the value
    returned refer to it, and every array object that existed before (I, V
    and dVdI among them) is as it was. *)
Theorem slope_correction_shape (st st' : state) (I V dVdI : option loc) (li lv ld l : loc)
    (Ia Va da : farray) (n L : nat) (pf : finder) (kw : gmap string pyval) :
  self.scan_dim (obj st) = Some 1%Z ->
  match I with None => self.I (obj st) | Some _ => I end = Some li ->
  match V with None => self.V (obj st) | Some _ => V end = Some lv ->
  match dVdI with None => self.dVdI (obj st) | Some _ => dVdI end = Some ld ->
  heap st !! li = Some Ia -> heap st !! lv = Some Va -> heap st !! ld = Some da ->
  shape Ia = [S n; L] -> shape Va = [S n; L] -> shape da = [S n; L] ->
  get_2wire_slope_correction I V dVdI pf kw st = Ok (l, st') ->
  exists a,
    l = length (heap st) /\ heap st' = heap st ++ [a] /\ shape a = [S n; L] /\
    self.V_corr (obj st') = Some l.
Proof.
  intros Hd HI HV HdV Hi Hv Hdd Hsi Hsv Hsd Hcall.
  rewrite (get_2wire_resolved st I V dVdI li lv ld pf kw HI HV HdV) in Hcall.
  destruct (rows_shape Ia (S n) [L] Hsi) as (ri & Hri & Hli & Fi).
  destruct (rows_shape Va (S n) [L] Hsv) as (rv & Hrv & Hlv & Fv).
  destruct (rows_shape da (S n) [L] Hsd) as (rd & Hrd & Hld & Fd).
  rewrite (get_2wire_scan_dim_1 N st li lv ld Ia Va da ri rv rd pf kw Hd Hi Hv Hdd Hri Hrv Hrd)
    in Hcall.
  destruct (rmap _ _) as [rs|] eqn:Hrs; [|discriminate].
  destruct (stack rs) as [a|] eqn:Ha; [|discriminate].
  inversion Hcall; subst l st'; clear Hcall.
  exists a. split; [reflexivity|]. split; [reflexivity|]. split.
  - assert (Hlen : length rs = S n).
    { rewrite (rmap_length _ _ _ Hrs). unfold zip3.
      rewrite !length_combine, Hli, Hlv, Hld. lia. }
    assert (Hall : Forall (fun r => shape r = [L]) rs).
    { apply (rmap_Forall _ _ _ _ Hrs). intros [[x y] z] r Hin Hr. cbn [fst snd] in Hr.
      unfold zip3 in Hin. apply in_combine_l in Hin.
      pose proof (in_combine_l _ _ _ _ Hin) as Hx.
      pose proof (in_combine_r _ _ _ _ Hin) as Hy.
      rewrite Forall_forall in Fi, Fv.
      rewrite (correct_trace_shape _ _ _ _ _ _ Hr); [apply Fv|]; auto.
      - apply list_elem_of_In. exact Hy.
      - rewrite (Fi x), (Fv y); auto; apply list_elem_of_In; assumption. }
    unfold stack in Ha. destruct rs as [|r0 rs]; [discriminate|].
    destruct (forallb _ _); [|discriminate]. inversion Ha. cbn [shape].
    inversion Hall as [|? ? Hr0 _]. f_equal; [exact Hlen|exact Hr0].
  - cbn [obj]. destruct (obj st). reflexivity.
Qed.

End slope_correction_laws.

Lemma slope_correction_shape_witness :
  exists l st' a,
    get_2wire_slope_correction (N := Ref.numerics) None None None find_peaks ∅ st_one_peak
    = Ok (l, st') /\
    heap st' !! l = Some a /\ shape a = [2; 6] /\ heap st' !! 1 = Some V_one_peak.
Proof.
  destruct (get_2wire_slope_correction (N := Ref.numerics) None None None find_peaks ∅
              st_one_peak) as [[l st']|] eqn:Hcall.
  - destruct (slope_correction_shape Ref.numerics st_one_peak st' None None None 0 1 2 l
                I_2x6 V_one_peak dVdI_one_peak 1 6 find_peaks ∅
                eq_refl eq_refl eq_refl eq_refl eq_refl eq_refl eq_refl eq_refl eq_refl
                eq_refl Hcall) as (a & Hl & Hh & Hs & _).
    exists l, st', a. split; [reflexivity|]. rewrite Hh, Hl. repeat split.
    exact Hs.
  - vm_compute in Hcall. discriminate.
Defined.

(** ** Derivative-domain detector on a single trace *)



Section single_trace.
Context (N : Numerics).



End single_trace.



(** ** Offsets: one per trace of the outer grid *)

Section offsets_shape.
Context (N : Numerics).

(** A reduction along the last axis leaves the outer extents. *)
Lemma along_last (f : list float -> float) (a : farray) (pre : list nat) (L : nat) :
  shape a = pre ++ [L] ->
  exists r, along f (Z.of_nat (length pre)) a = Ok r /\ shape r = pre.
Proof.
  intros Hs. unfold along, norm_axis, ndim. rewrite Hs, length_app. cbn [length].
  destruct (Z.leb_spec 0 (Z.of_nat (length pre))) as [_|]; [|lia].
  destruct (Z.ltb_spec (Z.of_nat (length pre)) (Z.of_nat (length pre + 1))) as [_|]; [|lia].
  cbn [andb rbind]. rewrite Nat2Z.id. unfold reduce_axis, ndim.
  rewrite Hs, length_app. cbn [length].
  destruct (Nat.ltb_spec (length pre) (length pre + 1)) as [_|]; [|lia].
  eexists. split; [reflexivity|]. cbn [shape].
  rewrite take_app_length.
  rewrite drop_ge by (rewrite length_app; cbn [length]; lia).
  apply app_nil_r.
Qed.

(** np.nanmin and np.nanmax along a last axis that holds samples. *)
Lemma extremum_along_last (f : list float -> float) (a : farray) (pre : list nat) (L : nat) :
  shape a = pre ++ [L] -> 1 <= L ->
  exists r, extremum_along f (Z.of_nat (length pre)) a = Ok r /\ shape r = pre.
Proof.
  intros Hs HL. destruct (along_last f a pre L Hs) as (r & Hr & Hsr).
  exists r. split; [|exact Hsr].
  unfold along in Hr. unfold extremum_along.
  destruct (norm_axis (ndim a) (Z.of_nat (length pre))) as [k|] eqn:Hk; [|discriminate].
  cbn [rbind] in *.
  assert (k = length pre).
  { unfold norm_axis, ndim in Hk. rewrite Hs, length_app in Hk. cbn [length] in Hk.
    destruct (Z.leb_spec 0 (Z.of_nat (length pre))) as [_|]; [|lia].
    destruct (Z.ltb_spec (Z.of_nat (length pre)) (Z.of_nat (length pre + 1))) as [_|]; [|lia].
    cbn [andb] in Hk. inversion Hk. apply Nat2Z.id. }
  subst k. rewrite Hs, nth_middle.
  destruct (Nat.eqb_spec L 0) as [|_]; [lia|]. exact Hr.
Qed.

(** np.nanmin and np.nanmax along a last axis without samples. *)
Lemma extremum_along_empty (f : list float -> float) (a : farray) (pre : list nat) :
  shape a = pre ++ [0] ->
  extremum_along f (Z.of_nat (length pre)) a = Raise ValueError.
Proof.
  intros Hs. unfold extremum_along, norm_axis, ndim. rewrite Hs, length_app. cbn [length].
  destruct (Z.leb_spec 0 (Z.of_nat (length pre))) as [_|]; [|lia].
  destruct (Z.ltb_spec (Z.of_nat (length pre)) (Z.of_nat (length pre + 1))) as [_|]; [|lia].
  cbn [andb rbind]. rewrite Nat2Z.id, nth_middle. reflexivity.
Qed.

(** A reduction along the first axis leaves the others. *)
Lemma along_first (f : list float -> float) (a : farray) (n : nat) (rest : list nat) :
  shape a = n :: rest ->
  exists r, along f 0 a = Ok r /\ shape r = rest.
Proof.
  intros Hs. unfold along, norm_axis, ndim. rewrite Hs. cbn [length].
  destruct (Z.ltb_spec 0 (Z.of_nat (S (length rest)))) as [_|]; [|lia].
  cbn [Z.leb Z.compare andb rbind Z.to_nat]. unfold reduce_axis, ndim.
  rewrite Hs. cbn [length Nat.ltb Nat.leb].
  eexists. split; [reflexivity|]. reflexivity.
Qed.

Lemma row_shape (a : farray) (n : nat) (sh : list nat) (j : Z) :
  shape a = n :: sh -> (0 <= j < Z.of_nat n)%Z ->
  exists r, row j a = Ok r /\ shape r = sh.
Proof.
  intros Hs Hj. unfold row, py_index. rewrite Hs.
  destruct (Z.leb_spec 0 j) as [_|]; [|lia].
  destruct (Z.ltb_spec j (Z.of_nat n)) as [_|]; [|lia].
  cbn [andb rbind]. eexists. split; reflexivity.
Qed.

Lemma pair_mean_shape (f g : list float -> float) (j0 j1 : Z) (y : farray) (n : nat)
    (outer : list nat) (L : nat) :
  shape y = n :: outer ++ [L] -> 1 <= L ->
  (0 <= j0 < Z.of_nat n)%Z -> (0 <= j1 < Z.of_nat n)%Z ->
  exists r, pair_mean f g j0 j1 (Z.of_nat (length outer)) y = Ok r /\ shape r = outer.
Proof.
  intros Hs HL H0 H1. unfold pair_mean.
  destruct (row_shape y n _ j0 Hs H0) as (r0 & Hr0 & Hs0). rewrite Hr0. cbn [rbind].
  destruct (extremum_along_last f r0 outer L Hs0 HL) as (e0 & He0 & Hse0).
  rewrite He0. cbn [rbind].
  destruct (row_shape y n _ j1 Hs H1) as (r1 & Hr1 & Hs1). rewrite Hr1. cbn [rbind].
  destruct (extremum_along_last g r1 outer L Hs1 HL) as (e1 & He1 & Hse1).
  rewrite He1. cbn [rbind].
  unfold stack. cbn [forallb]. unfold same_shape.
  rewrite bool_decide_eq_true_2 by reflexivity.
  rewrite bool_decide_eq_true_2 by congruence.
  cbn [andb rbind].
  match goal with
  | |- context [along np_mean 0 ?both] =>
      destruct (along_first np_mean both 2 (shape e0) eq_refl) as (r & Hr & Hsr)
  end.
  exists r. split; [exact Hr|]. congruence.
Qed.

Lemma pair_mean_empty (f g : list float -> float) (j0 j1 : Z) (y : farray) (n : nat)
    (outer : list nat) :
  shape y = n :: outer ++ [0] -> (0 <= j0 < Z.of_nat n)%Z ->
  pair_mean f g j0 j1 (Z.of_nat (length outer)) y = Raise ValueError.
Proof.
  intros Hs H0. unfold pair_mean.
  destruct (row_shape y n _ j0 Hs H0) as (r0 & Hr0 & Hs0). rewrite Hr0. cbn [rbind].
  rewrite (extremum_along_empty f r0 outer Hs0). reflexivity.
Qed.

Lemma trace_offsets_shape (t : Z) (yr : bool) (xc yc : farray) (n : nat)
    (outer : list nat) (L : nat) :
  shape xc = n :: outer ++ [L] -> shape yc = n :: outer ++ [L] ->
  (t = 0%Z /\ 2 <= n) \/ (t = 1%Z /\ 4 <= n) ->
  (1 <= L ->
   exists xo yo,
     trace_offsets (Some t) (Some (Z.of_nat (S (length outer)))) yr xc yc = Ok (xo, yo) /\
     shape xo = outer /\ shape yo = outer) /\
  (L = 0 ->
   trace_offsets (Some t) (Some (Z.of_nat (S (length outer)))) yr xc yc = Raise ValueError).
Proof.
  intros Hx Hy Ht.
  assert (Hd : (Z.of_nat (S (length outer)) - 1)%Z = Z.of_nat (length outer)) by lia.
  assert (Hm : exists m, along np_nanmean (Z.of_nat (S (length outer))) xc = Ok m
                         /\ shape m = n :: outer).
  { replace (S (length outer)) with (length (n :: outer)) by reflexivity.
    apply (along_last np_nanmean xc (n :: outer) L). exact Hx. }
  destruct Hm as (m & Hm & Hsm).
  destruct (along_first np_mean m n outer Hsm) as (xo & Hxo & Hsxo).
  split.
  - intros HL.
    destruct Ht as [[-> Hn]|[-> Hn]]; unfold trace_offsets; rewrite Hm; cbn [rbind];
      rewrite Hxo; cbn [rbind]; rewrite Hd; destruct yr.
    + destruct (pair_mean_shape np_nanmax np_nanmin 0 1 yc n outer L Hy HL
                  ltac:(lia) ltac:(lia)) as (yo & Hyo & Hsyo).
      rewrite Hyo. cbn [rbind]. eauto.
    + destruct (pair_mean_shape np_nanmin np_nanmax 0 1 yc n outer L Hy HL
                  ltac:(lia) ltac:(lia)) as (yo & Hyo & Hsyo).
      rewrite Hyo. cbn [rbind]. eauto.
    + destruct (pair_mean_shape np_nanmax np_nanmin 1 3 yc n outer L Hy HL
                  ltac:(lia) ltac:(lia)) as (yo & Hyo & Hsyo).
      rewrite Hyo. cbn [rbind]. eauto.
    + destruct (pair_mean_shape np_nanmax np_nanmin 0 2 yc n outer L Hy HL
                  ltac:(lia) ltac:(lia)) as (yo & Hyo & Hsyo).
      rewrite Hyo. cbn [rbind]. eauto.
  - intros ->.
    destruct Ht as [[-> Hn]|[-> Hn]]; unfold trace_offsets; rewrite Hm; cbn [rbind];
      rewrite Hxo; cbn [rbind]; rewrite Hd; destruct yr;
      rewrite (pair_mean_empty _ _ _ _ yc n outer Hy) by lia; reflexivity.
Qed.

(** X18: get_offsets returns on every well-shaped data set of a supported
    topology whose traces hold at least one sample, with one offset per
    trace of the outer grid.  For x and y of shape (n,) + outer + (L,) with
    as many entries, scan dimension len(outer) + 1, a known bias, and
    half-swing sweeps with n >= 2 or 4-quadrant sweeps with n >= 4: if
    L >= 1, the call returns (I_offsets, V_offsets), both of shape outer
    (0-d for a 1D scan), and assigns them to self.I_offsets and
    self.V_offsets; if L = 0 it raises ValueError (np.nanmin and np.nanmax
    over an axis of length zero). *)
Theorem get_offsets_one_per_trace (st : state) (x y : option loc) (lx ly : loc)
    (xa ya : farray) (n : nat) (outer : list nat) (L : nat) (threshold offset : float)
    (yr : bool) (b : Z) :
  default_xy (obj st) x y = Ok (Some lx, Some ly) ->
  heap st !! lx = Some xa -> heap st !! ly = Some ya ->
  shape xa = n :: outer ++ [L] -> shape ya = n :: outer ++ [L] ->
  length (data ya) = length (data xa) ->
  self.scan_dim (obj st) = Some (Z.of_nat (S (length outer))) ->
  self.bias (obj st) = Some b ->
  (self.sweeptype (obj st) = Some 0%Z /\ 2 <= n) \/
  (self.sweeptype (obj st) = Some 1%Z /\ 4 <= n) ->
  (1 <= L ->
   exists io vo st',
     get_offsets x y threshold offset yr st = Ok ((io, vo), st') /\
     shape io = outer /\ shape vo = outer /\
     self.I_offsets (obj st') = Some io /\ self.V_offsets (obj st') = Some vo) /\
  (L = 0 -> get_offsets x y threshold offset yr st = Raise ValueError).
Proof.
  intros Hxy Hx Hy Hsx Hsy Hlen Hd Hb Ht.
  rewrite (get_offsets_run N st x y lx (Some ly) xa ya threshold offset yr Hxy Hx Hy).
  unfold offsets_of. rewrite branch_mask_run. cbn [rbind].
  unfold place, np_logical_not, nd_map. cbn [shape data].
  rewrite !length_map, Nat.eqb_refl. cbn [rbind].
  rewrite Hlen, Nat.eqb_refl. cbn [rbind]. rewrite Hd, Hb.
  match goal with
  | |- context [trace_offsets _ _ yr ?xc ?yc] =>
      assert (Hto : (1 <= L ->
                     exists xo yo,
                       trace_offsets (self.sweeptype (obj st))
                         (Some (Z.of_nat (S (length outer)))) yr xc yc = Ok (xo, yo)
                       /\ shape xo = outer /\ shape yo = outer) /\
                    (L = 0 ->
                     trace_offsets (self.sweeptype (obj st))
                       (Some (Z.of_nat (S (length outer)))) yr xc yc = Raise ValueError))
  end.
  { destruct Ht as [[Ht Hn]|[Ht Hn]]; rewrite Ht;
      apply (trace_offsets_shape _ yr _ _ n outer L); auto. }
  destruct Hto as [Hok Hempty]. split.
  - intros HL. destruct (Hok HL) as (xo & yo & Hto & Hsxo & Hsyo).
    rewrite Hto. cbn [rbind fst snd].
    destruct (b <=? 0)%Z; eexists _, _, _; (split; [reflexivity|]);
      cbn [obj]; destruct (obj st); cbn; auto.
  - intros HL. rewrite (Hempty HL). reflexivity.
Qed.

End offsets_shape.

Lemma get_offsets_one_per_trace_witness :
  exists io vo st',
    get_offsets (N := Ref.numerics) None None 20e-6%float 0%float false st_loaded
    = Ok ((io, vo), st') /\ shape io = [] /\ shape vo = [].
Proof.
  destruct (get_offsets_one_per_trace Ref.numerics st_loaded None None 1 0 V_2x6 I_2x6
              2 [] 6 20e-6%float 0%float false 0%Z
              eq_refl eq_refl eq_refl eq_refl eq_refl eq_refl eq_refl eq_refl
              (or_introl (conj eq_refl (le_n 2))))
    as [Hok _].
  destruct (Hok ltac:(lia)) as (io & vo & st' & H & Hi & Hv & _).
  exists io, vo, st'. auto.
Defined.

(** ** Loading again: what survives *)

(** X19: load of a measurement that is not of the type 'transport' raises
    ValueError; no array is assembled. *)
Theorem load_other_measurement_type (N : Numerics) (uuid : string) (dVdI : option string)
    (df : datafile) (st : state) :
  fid st !! uuid = Some df ->
  mo_measurement_type df <> "transport" ->
  load uuid dVdI st = Raise ValueError.
Proof.
  intros Hfid Htype. unfold load.
  unfold bind at 1. unfold get_self at 1.
  assert (H0 : (if negb (bool_decide (Some uuid = self.uuid (obj st)))
                   && negb (bool_decide (self.uuid (obj st) = None))
                then set_self (fun _ => self.__init__) else ret tt) st
               = Ok (tt, mk_state (reset_for uuid (obj st)) (heap st) (fid st) (disk st))).
  { unfold reset_for. destruct (negb _ && negb _); destruct st; reflexivity. }
  rewrite (bind_run _ _ _ _ _ H0).
  unfold bind at 1. unfold set_self at 1. cbn [obj heap fid disk].
  unfold bind at 1. cbn [fid]. rewrite Hfid. cbv beta iota.
  unfold bind at 1. unfold set_self at 1. cbn [obj heap fid disk].
  unfold bind at 1. unfold set_self at 1. cbn [obj heap fid disk].
  unfold bind at 1. unfold set_self at 1. cbn [obj heap fid disk].
  rewrite bool_decide_eq_false_2 by exact Htype. reflexivity.
Qed.

Lemma load_other_measurement_type_witness :
  load (N := Ref.numerics) "SPECTRUM" None
    (mk_state self.__init__ [] {[ "SPECTRUM" := mk_datafile "data/s.h5" ∅ "spectroscopy" [] "{}" ]} ∅)
  = Raise ValueError.
Proof.
  apply (load_other_measurement_type Ref.numerics "SPECTRUM" None
           (mk_datafile "data/s.h5" ∅ "spectroscopy" [] "{}")).
  - vm_compute. reflexivity.
  - discriminate.
Defined.

(** X20: what a load keeps of an earlier analysis.  Under the conditions
    under which load returns (a well-formed transport measurement): when
    self held the uuid of another measurement, V_corr, I_offsets, V_offsets,
    I_offset and V_offset are all None afterwards; when self held no uuid or
    the same uuid, they are what they were - also V_corr, which then belongs
    to the arrays of the earlier load, not to the new ones. *)
Theorem load_clears_results_of_other_uuid (N : Numerics) (uuid : string)
    (dVdI : option string) (df : datafile) (i_0 : dataset) (outer : list nat)
    (L : nat -> nat) (ai av ad : nat -> farray) (st : state) :
  fid st !! uuid = Some df ->
  mo_measurement_type df = "transport" ->
  df_entries df !! "entry/data0/i_0" = Some i_0 ->
  ds_attrs i_0 !! "ds_type" = Some (AInt (Z.of_nat (S (length outer)))) ->
  is_ok (get_bias (Some df) (st_scan (Z.of_nat (S (length outer))))) = true ->
  is_ok (load_coords df (Z.of_nat (S (length outer)))
           (st_scan (Z.of_nat (S (length outer))))) = true ->
  mo_sweeps df <> [] ->
  (forall j, j < length (mo_sweeps df) ->
     stored df ("entry/data0/i_" +:+ format_d j) = Some (ai j)
     /\ traces_of outer (L j) (ai j)) ->
  (forall j, j < length (mo_sweeps df) ->
     stored df ("entry/data0/v_" +:+ format_d j) = Some (av j)
     /\ traces_of outer (L j) (av j)) ->
  (folder_given dVdI = true -> forall j, j < length (mo_sweeps df) ->
     stored df ("entry/" +:+ default "" dVdI +:+ "/dvdi_" +:+ format_d j) = Some (ad j)
     /\ traces_of outer (L j) (ad j)) ->
  exists st',
    load uuid dVdI st = Ok (tt, st') /\
    self.uuid (obj st') = Some uuid /\
    (forall u, self.uuid (obj st) = Some u -> u <> uuid ->
               derived (obj st') = (None, None, None, None, None)) /\
    (self.uuid (obj st) = None \/ self.uuid (obj st) = Some uuid ->
     derived (obj st') = derived (obj st)).
Proof.
  intros Hfid Htype Hi0 Hds Hbias Hcoords Hn Hi Hv Hd.
  destruct (load_run N uuid dVdI df i_0 outer L ai av ad st Hfid Htype Hi0 Hds Hbias Hcoords
              Hn Hi Hv Hd)
    as (st' & bI & bV & bd & H1 & H2 & H3 & H4 & _ & _ & _ & _ & H9 & H10).
  exists st'. split; [exact H1|]. split; [exact H10|]. split.
  - intros u Hu Hne. rewrite H9. unfold reset_for. rewrite Hu.
    rewrite bool_decide_eq_false_2 by congruence.
    rewrite bool_decide_eq_false_2 by discriminate. reflexivity.
  - intros Hsame.
    assert (Hkeep : reset_for uuid (obj st) = obj st).
    { unfold reset_for. destruct Hsame as [Hu|Hu]; rewrite Hu.
      - rewrite (bool_decide_eq_true_2 (None = None)) by reflexivity.
        rewrite andb_false_r. reflexivity.
      - rewrite bool_decide_eq_true_2 by reflexivity. reflexivity. }
    rewrite Hkeep in H9. exact H9.
Qed.

Lemma load_clears_results_of_other_uuid_witness :
  exists st',
    load (N := Ref.numerics) "RAGGED" (Some "analysis0") st_other = Ok (tt, st') /\
    self.V_corr (obj st') = None /\ self.V_offset (obj st') = None.
Proof.
  destruct (load_clears_results_of_other_uuid Ref.numerics "RAGGED" (Some "analysis0")
              ragged_file
              (mk_dataset (fvec [0; 1; 2]%float) (axis_attrs 1 "entry/data0/i_b_0"))
              [] ragged_L ragged_i ragged_v ragged_dvdi st_other)
    as (st' & Hload & _ & Hclear & _).
  - vm_compute. reflexivity.
  - reflexivity.
  - vm_compute. reflexivity.
  - vm_compute. reflexivity.
  - vm_compute. reflexivity.
  - vm_compute. reflexivity.
  - discriminate.
  - intros j Hj. destruct j as [|[|j]]; [| |simpl in Hj; lia];
      (split; [vm_compute; reflexivity|split; reflexivity]).
  - intros j Hj. destruct j as [|[|j]]; [| |simpl in Hj; lia];
      (split; [vm_compute; reflexivity|split; reflexivity]).
  - intros _ j Hj. destruct j as [|[|j]]; [| |simpl in Hj; lia];
      (split; [vm_compute; reflexivity|split; reflexivity]).
  - exists st'. split; [exact Hload|].
    pose proof (Hclear "OTHER" eq_refl ltac:(discriminate)) as Hc.
    unfold derived in Hc. inversion Hc. split; reflexivity.
Defined.

(** ** Detectors: the arguments they need and the offsets they assign *)

(** X21: the three detectors read V.shape before they replace an omitted V
    by self.V, so a call without V raises AttributeError in every context,
    also after load. *)
Theorem detectors_need_V (N : Numerics) (st : state) (I dVdI : option loc)
    (threshold s tol_offset : float) (offset : option float) (Ir : bool) (window : Z)
    (pf : finder) (kw : gmap string pyval) :
  get_Ic_threshold I None threshold offset Ir st = Raise AttributeError /\
  get_Ic_deriv I None dVdI Ir tol_offset window pf kw st = Raise AttributeError /\
  get_Ic_dft I None dVdI s Ir tol_offset window pf kw st = Raise AttributeError.
Proof. repeat split. Qed.

Lemma bind_inv {A B} (m : M A) (k : A -> M B) (st st' : state) (b : B) :
  bind m k st = Ok (b, st') -> exists a st1, m st = Ok (a, st1) /\ k a st1 = Ok (b, st').
Proof.
  unfold bind. destruct (m st) as [[a st1]|]; [|discriminate]. intros H. eauto.
Qed.

Lemma keeps_obj_bind {A B} (m : M A) (k : A -> M B) :
  keeps_obj m -> (forall a, keeps_obj (k a)) -> keeps_obj (bind m k).
Proof.
  intros Hm Hk st b st' H. apply bind_inv in H as (a & st1 & H1 & H2).
  rewrite (Hk a st1 b st' H2). exact (Hm st a st1 H1).
Qed.

Lemma keeps_obj_lift {A} (r : result A) : keeps_obj (lift r).
Proof. intros st a st'. unfold lift. destruct r; [|discriminate]. intros H; inversion H. reflexivity. Qed.

Lemma keeps_obj_ret {A} (a : A) : keeps_obj (ret a).
Proof. intros st b st' H. inversion H. reflexivity. Qed.

Lemma keeps_obj_raise {A} (e : exn) : keeps_obj (@raise A e).
Proof. intros st b st' H. discriminate. Qed.

Lemma keeps_obj_get_self : keeps_obj get_self.
Proof. intros st b st' H. inversion H. reflexivity. Qed.

Lemma keeps_obj_deref (l : loc) : keeps_obj (deref l).
Proof.
  intros st a st'. unfold deref. destruct (heap st !! l); [|discriminate].
  intros H; inversion H. reflexivity.
Qed.

Lemma keeps_obj_alloc (a : farray) : keeps_obj (alloc a).
Proof. intros st l st' H. inversion H. reflexivity. Qed.

Lemma keeps_obj_np_copy (l : loc) : keeps_obj (np_copy l).
Proof. apply keeps_obj_bind; [apply keeps_obj_deref|intros a; apply keeps_obj_alloc]. Qed.

Lemma keeps_obj_copy_or_none (l : option loc) : keeps_obj (copy_or_none l).
Proof. destruct l; [apply keeps_obj_np_copy|apply keeps_obj_alloc]. Qed.

Lemma keeps_state_bind {A B} (m : M A) (k : A -> M B) :
  keeps_state m -> (forall a, keeps_state (k a)) -> keeps_state (bind m k).
Proof.
  intros Hm Hk st b st' H. apply bind_inv in H as (a & st1 & H1 & H2).
  rewrite (Hk a st1 b st' H2). exact (Hm st a st1 H1).
Qed.

Lemma keeps_state_lift {A} (r : result A) : keeps_state (lift r).
Proof. intros st a st'. unfold lift. destruct r; [|discriminate]. intros H; inversion H. reflexivity. Qed.

Lemma keeps_state_ret {A} (a : A) : keeps_state (ret a).
Proof. intros st b st' H. inversion H. reflexivity. Qed.

Lemma keeps_state_raise {A} (e : exn) : keeps_state (@raise A e).
Proof. intros st b st' H. discriminate. Qed.

Lemma keeps_state_get_self : keeps_state get_self.
Proof. intros st b st' H. inversion H. reflexivity. Qed.

Lemma keeps_state_deref (l : loc) : keeps_state (deref l).
Proof.
  intros st a st'. unfold deref. destruct (heap st !! l); [|discriminate].
  intros H; inversion H. reflexivity.
Qed.

Ltac keeps :=
  repeat first
    [ apply keeps_obj_ret | apply keeps_obj_raise | apply keeps_obj_lift
    | apply keeps_obj_get_self | apply keeps_obj_deref | apply keeps_obj_alloc
    | apply keeps_obj_np_copy | apply keeps_obj_copy_or_none
    | apply keeps_obj_bind; [|intros ?; cbv beta zeta]
    | match goal with
      | |- keeps_obj (match ?x with _ => _ end) => destruct x
      | |- keeps_obj (if ?x then _ else _) => destruct x
      | |- keeps_obj (let (_, _) := ?x in _) => destruct x
      end ].

Section offsets_assigned.
Context (N : Numerics).

(** After the estimate of the offset, the classifier assigns nothing. *)
Lemma classify_after_offset (frame : list (string * option yarray)) (I : option loc)
    (V : loc) (Y : yarray) (peaks : nest found) (tol_offset : float) (window : Z) (Ir : bool)
    (st st' : state) (j : jumps) :
  _classify_jump frame I V Y peaks tol_offset window Ir st = Ok (j, st') ->
  exists st1,
    (match self.V_offset (obj st), self.sweeptype (obj st) with
     | None, Some 0%Z | None, Some 1%Z =>
         let* _ := get_offset (Some V) I 20e-6%float 0%float false in ret tt
     | _, _ => ret tt
     end) st = Ok (tt, st1) /\
    obj st' = obj st1.
Proof.
  unfold _classify_jump. intros H.
  apply bind_inv in H as (Y_name & st0 & H0 & H).
  assert (st0 = st).
  { destruct (List.filter _ frame); [discriminate|]. inversion H0. reflexivity. }
  subst st0. clear H0.
  apply bind_inv in H as (s & st0 & H0 & H). inversion H0; subst s st0; clear H0.
  apply bind_inv in H as ([] & st1 & H1 & H).
  exists st1. split; [exact H1|].
  match type of H with
  | ?m st1 = _ => assert (K : keeps_obj m) by (cbv beta zeta; keeps)
  end.
  exact (K st1 j st' H).
Qed.

(** X22: what get_Ic_deriv assigns when it returns on a whole data set (V
    with more than one axis).  In a context that holds a voltage offset, or
    whose sweeps have no known topology, it assigns no attribute of self.
    In a context without voltage offset and with half-swing or 4-quadrant
    sweeps it first calls get_offset(x=V, y=I) with that method's defaults
    (threshold 20e-6, offset 0, whatever tol_offset is): the attributes of
    self afterwards are the ones that call leaves, I_offset and V_offset
    being the values it returns. *)
Theorem get_Ic_deriv_assigns_offsets (st st' : state) (I dVdI : option loc) (v : loc)
    (Va : farray) (Ir : bool) (tol_offset : float) (window : Z) (pf : finder)
    (kw : gmap string pyval) (r : detected) :
  heap st !! v = Some Va -> ndim Va <> 1 ->
  get_Ic_deriv I (Some v) dVdI Ir tol_offset window pf kw st = Ok (r, st') ->
  (self.V_offset (obj st) <> None \/
   (self.sweeptype (obj st) <> Some 0%Z /\ self.sweeptype (obj st) <> Some 1%Z) ->
   obj st' = obj st) /\
  (self.V_offset (obj st) = None ->
   self.sweeptype (obj st) = Some 0%Z \/ self.sweeptype (obj st) = Some 1%Z ->
   exists io vo st1,
     get_offset (Some v) (match I with None => self.I (obj st) | Some _ => I end)
       20e-6%float 0%float false st = Ok ((io, vo), st1) /\
     obj st' = obj st1 /\
     self.I_offset (obj st') = Some io /\ self.V_offset (obj st') = Some vo).
Proof.
  intros Hv Hn Hcall.
  assert (Hc : exists frame Y peaks j,
             _classify_jump frame (match I with None => self.I (obj st) | Some _ => I end)
               v Y peaks tol_offset window Ir st = Ok (j, st')).
  { unfold get_Ic_deriv in Hcall.
    apply bind_inv in Hcall as (Va' & st0 & H0 & Hcall).
    pose proof (keeps_state_deref _ _ _ _ H0) as ->.
    unfold deref in H0. rewrite Hv in H0. inversion H0; subst Va'; clear H0.
    destruct (Nat.eqb_spec (ndim Va) 1) as [E|_]; [contradiction|].
    apply bind_inv in Hcall as (s & st0 & H0 & Hcall).
    inversion H0; subst s st0; clear H0. cbv beta zeta in Hcall.
    destruct ((2 <=? ndim Va) && (ndim Va <=? 4)); [|discriminate].
    destruct (match dVdI with None => self.dVdI (obj st) | Some _ => dVdI end) as [ld|];
      [|discriminate].
    apply bind_inv in Hcall as (d & st0 & H0 & Hcall).
    pose proof (keeps_state_deref _ _ _ _ H0) as ->. clear H0.
    apply bind_inv in Hcall as (peaks & st0 & H0 & Hcall).
    pose proof (keeps_state_lift _ _ _ _ H0) as ->. clear H0.
    apply bind_inv in Hcall as (Ia & st0 & H0 & Hcall).
    assert (st0 = st) as ->.
    { destruct (match I with None => self.I (obj st) | Some _ => I end) as [i|].
      - apply bind_inv in H0 as (a & st2 & H1 & H2).
        pose proof (keeps_state_deref _ _ _ _ H1) as ->. inversion H2. reflexivity.
      - inversion H0. reflexivity. }
    clear H0.
    apply bind_inv in Hcall as (j & st0 & H0 & Hcall).
    inversion Hcall; subst. eauto. }
  destruct Hc as (frame & Y & peaks & j & Hc).
  destruct (classify_after_offset _ _ _ _ _ _ _ _ _ _ _ Hc) as (st1 & H1 & Hobj).
  split.
  - intros [Hoff|[H0 H1']].
    + destruct (self.V_offset (obj st)); [|congruence].
      inversion H1; subst st1. exact Hobj.
    + assert (st1 = st) as ->; [|exact Hobj].
      destruct (self.V_offset (obj st)); [inversion H1; reflexivity|].
      destruct (self.sweeptype (obj st)) as [[|[p|p|]|p]|];
        try (inversion H1; reflexivity); congruence.
  - intros Hoff Ht. rewrite Hoff in H1.
    assert (Hg : (let* _ := get_offset (Some v)
                              (match I with None => self.I (obj st) | Some _ => I end)
                              20e-6%float 0%float false in ret tt) st = Ok (tt, st1)).
    { destruct Ht as [Ht|Ht]; rewrite Ht in H1; exact H1. }
    apply bind_inv in Hg as ([io vo] & st2 & Hg & Hret).
    inversion Hret; subst st2; clear Hret.
    exists io, vo, st1. split; [exact Hg|]. split; [exact Hobj|].
    rewrite Hobj. unfold get_offset in Hg.
    apply bind_inv in Hg as ([a b] & st2 & _ & Hg).
    unfold bind, set_self, ret in Hg. inversion Hg; subst. cbn [obj].
    destruct (obj st2). split; reflexivity.
Qed.

End offsets_assigned.

Lemma get_Ic_deriv_assigns_offsets_witness :
  exists r st',
    get_Ic_deriv (N := Ref.numerics) None (Some 1) None false 20e-6%float 5%Z find_peaks ∅
      st_swing = Ok (r, st') /\
    self.V_offset (obj st_swing) = None /\
    self.V_offset (obj st') = Some 0%float.
Proof.
  destruct (get_Ic_deriv (N := Ref.numerics) None (Some 1) None false 20e-6%float 5%Z
              find_peaks ∅ st_swing) as [[r st']|e] eqn:Hcall.
  - exists r, st'. split; [reflexivity|]. split; [reflexivity|].
    destruct (proj2 (get_Ic_deriv_assigns_offsets Ref.numerics st_swing st' None None 1
                       V_swing false 20e-6%float 5%Z find_peaks ∅ r eq_refl
                       ltac:(vm_compute; discriminate) Hcall)
                eq_refl (or_introl eq_refl))
      as (io & vo & st1 & Hg & _ & _ & HV).
    rewrite HV. f_equal.
    vm_compute in Hg. inversion Hg. reflexivity.
  - exfalso.
    assert (E : is_ok (get_Ic_deriv (N := Ref.numerics) None (Some 1) None false 20e-6%float
                         5%Z find_peaks ∅ st_swing) = true) by (vm_compute; reflexivity).
    rewrite Hcall in E. discriminate.
Defined.

(** ** The viewer (open_qviewkit) *)

(** X23: open_qviewkit accepts no dataset argument.  Whatever is passed as
    ds - a string, a list of strings, any other object - the call raises
    ValueError (a string is iterable, so the test for a single string never
    holds), in every context, also a fresh one that holds no file; only a
    uuid that is not known fails earlier, with the TypeError of Data(None).
    With ds omitted the call opens the viewer on the dataset 'views/IV' of
    the file of self (or of the measurement with the given uuid) and leaves
    the state as it is; in a context without a file it raises
    AttributeError. *)
Theorem open_qviewkit_takes_no_ds (st : state) (uuid : option string) :
  (forall d,
      open_qviewkit uuid (Some d) st
      = match uuid with
        | Some u => match fid st !! u with
                    | Some _ => Raise ValueError
                    | None => Raise TypeError
                    end
        | None => Raise ValueError
        end) /\
  open_qviewkit uuid None st
  = match uuid with
    | Some u => match fid st !! u with
                | Some df => Ok ((df_path df, ["views/IV"]), st)
                | None => Raise TypeError
                end
    | None => match self.df (obj st) with
              | Some df => Ok ((df_path df, ["views/IV"]), st)
              | None => Raise AttributeError
              end
    end.
Proof.
  unfold open_qviewkit, bind, get_self, ret, raise.
  destruct uuid as [u|].
  - destruct (fid st !! u) as [df|]; split; try reflexivity;
      intros [s|l|[|]]; reflexivity.
  - destruct (self.df (obj st)) as [df|]; split; try reflexivity;
      intros [s|l|[|]]; reflexivity.
Qed.

Lemma open_qviewkit_takes_no_ds_witness :
  open_qviewkit (Some "RAGGED") (Some (DsList ["views/IV"])) st_ragged = Raise ValueError /\
  open_qviewkit None (Some (DsStr "views/IV")) st_ragged = Raise ValueError /\
  open_qviewkit (Some "UNKNOWN") (Some (DsStr "views/IV")) st_ragged = Raise TypeError /\
  returned (open_qviewkit (Some "RAGGED") None st_ragged)
  = Some ("data/ragged.h5", ["views/IV"]).
Proof.
  destruct (open_qviewkit_takes_no_ds st_ragged (Some "RAGGED")) as [Hds Hnone].
  destruct (open_qviewkit_takes_no_ds st_ragged None) as [Hfresh _].
  destruct (open_qviewkit_takes_no_ds st_ragged (Some "UNKNOWN")) as [Hunknown _].
  split; [rewrite Hds; reflexivity|].
  split; [rewrite Hfresh; reflexivity|].
  split; [rewrite Hunknown; reflexivity|].
  rewrite Hnone. reflexivity.
Defined.

(** ** Threshold detector on a whole data set *)

Section threshold_whole.
Context (N : Numerics).

(** The extreme currents of two sweeps, one row each. *)
Lemma extrema_shape (f g : list float -> float) (j0 j1 : Z) (a : farray) (n : nat)
    (outer : list nat) (L : nat) :
  shape a = n :: outer ++ [L] -> 1 <= L ->
  (0 <= j0 < Z.of_nat n)%Z -> (0 <= j1 < Z.of_nat n)%Z ->
  exists r0 r,
    row j0 a = Ok r0 /\
    (try! e0 := extremum_along f (Z.of_nat (S (length outer)) - 1) r0 in
     try! r1 := row j1 a in
     try! e1 := extremum_along g (Z.of_nat (S (length outer)) - 1) r1 in
     stack [e0; e1]) = Ok r /\
    shape r = 2 :: outer.
Proof.
  intros Hs HL H0 H1.
  replace (Z.of_nat (S (length outer)) - 1)%Z with (Z.of_nat (length outer)) by lia.
  destruct (row_shape a n _ j0 Hs H0) as (r0 & Hr0 & Hs0). exists r0.
  destruct (extremum_along_last f r0 outer L Hs0 HL) as (e0 & He0 & Hse0).
  rewrite He0. cbn [rbind].
  destruct (row_shape a n _ j1 Hs H1) as (r1 & Hr1 & Hs1). rewrite Hr1. cbn [rbind].
  destruct (extremum_along_last g r1 outer L Hs1 HL) as (e1 & He1 & Hse1).
  rewrite He1. cbn [rbind].
  unfold stack. cbn [forallb]. unfold same_shape.
  rewrite bool_decide_eq_true_2 by reflexivity.
  rewrite bool_decide_eq_true_2 by congruence.
  cbn [andb]. eexists. split; [exact Hr0|]. split; [reflexivity|].
  cbn [shape length]. rewrite Hse0. reflexivity.
Qed.

(** Without samples the first extremum is refused. *)
Lemma extrema_empty (f g : list float -> float) (j0 j1 : Z) (a : farray) (n : nat)
    (outer : list nat) :
  shape a = n :: outer ++ [0] -> (0 <= j0 < Z.of_nat n)%Z ->
  exists r0,
    row j0 a = Ok r0 /\
    (try! e0 := extremum_along f (Z.of_nat (S (length outer)) - 1) r0 in
     try! r1 := row j1 a in
     try! e1 := extremum_along g (Z.of_nat (S (length outer)) - 1) r1 in
     stack [e0; e1]) = Raise ValueError.
Proof.
  intros Hs H0.
  replace (Z.of_nat (S (length outer)) - 1)%Z with (Z.of_nat (length outer)) by lia.
  destruct (row_shape a n _ j0 Hs H0) as (r0 & Hr0 & Hs0). exists r0.
  split; [exact Hr0|]. rewrite (extremum_along_empty f r0 outer Hs0). reflexivity.
Qed.

(** X24: get_Ic_threshold returns on every well-shaped data set of a
    supported topology whose traces hold at least one sample.  For V and I
    of shape (n,) + outer + (L,) with as many entries, scan dimension
    len(outer) + 1, and half-swing sweeps with n >= 2 or 4-quadrant sweeps
    with n >= 4: if L >= 1, the call returns the critical currents as an
    array of shape (2,) + outer (the two sweep directions for every trace of
    the outer grid), with the retrapping currents of the same shape when Ir
    is set; the masked copies it works on are new objects, and every array
    that existed before is as it was.  If L = 0 the call raises ValueError
    (np.nanmin or np.nanmax over an axis of length zero). *)
Theorem get_Ic_threshold_whole_data_set (st : state) (I : option loc) (v li : loc)
    (Va Ia : farray) (n : nat) (outer : list nat) (L : nat) (threshold : float)
    (offset : option float) (Ir : bool) :
  heap st !! v = Some Va ->
  match I with None => self.I (obj st) | Some _ => I end = Some li ->
  heap st !! li = Some Ia ->
  shape Va = n :: outer ++ [L] -> shape Ia = n :: outer ++ [L] ->
  length (data Ia) = length (data Va) ->
  self.scan_dim (obj st) = Some (Z.of_nat (S (length outer))) ->
  (self.sweeptype (obj st) = Some 0%Z /\ 2 <= n) \/
  (self.sweeptype (obj st) = Some 1%Z /\ 4 <= n) ->
  (1 <= L ->
   exists I_cs I_rs st',
     get_Ic_threshold I (Some v) threshold offset Ir st
     = Ok (Arrays I_cs (if Ir then Some I_rs else None), st') /\
     shape I_cs = 2 :: outer /\ shape I_rs = 2 :: outer /\
     obj st' = obj st /\
     forall l, l < length (heap st) -> heap st' !! l = heap st !! l) /\
  (L = 0 -> get_Ic_threshold I (Some v) threshold offset Ir st = Raise ValueError).
Proof.
  intros Hv HI Hi HsV HsI Hlen Hd Ht.
  cut (forall res, res = get_Ic_threshold I (Some v) threshold offset Ir st ->
         (1 <= L ->
          exists I_cs I_rs st',
            res = Ok (Arrays I_cs (if Ir then Some I_rs else None), st') /\
            shape I_cs = 2 :: outer /\ shape I_rs = 2 :: outer /\
            obj st' = obj st /\
            forall l, l < length (heap st) -> heap st' !! l = heap st !! l) /\
         (L = 0 -> res = Raise ValueError)).
  { intros H. exact (H _ eq_refl). }
  intros res.
  unfold get_Ic_threshold. unfold bind at 1. unfold deref at 1. rewrite Hv.
  assert (Hn : (ndim Va =? 1) = false).
  { unfold ndim. rewrite HsV, length_cons, length_app. cbn [length].
    apply Nat.eqb_neq. lia. }
  rewrite Hn.
  unfold bind at 1. unfold get_self at 1. cbv beta zeta. rewrite HI.
  unfold bind at 1. unfold lift at 1. rewrite branch_mask_run.
  unfold bind at 1. rewrite (np_copy_run st v Va Hv).
  unfold bind at 1. unfold copy_or_none.
  rewrite (np_copy_run _ li Ia)
    by (cbn [heap]; rewrite lookup_app_l; [exact Hi|apply lookup_lt_Some in Hi; exact Hi]).
  cbn [obj heap fid disk].
  unfold bind at 1.
  rewrite (update_run _ (length (heap st)) Va)
    by (cbn [heap]; rewrite <- app_assoc; rewrite lookup_app_r by lia;
        rewrite Nat.sub_diag; reflexivity).
  unfold place at 1, np_logical_not, nd_map. cbn [shape data].
  rewrite !length_map, Nat.eqb_refl. cbn [obj heap fid disk].
  unfold bind at 1.
  rewrite (update_run _ (length (heap st ++ [Va])) Ia).
  2:{ cbn [heap]. rewrite insert_app_l by (rewrite length_app; cbn; lia).
      rewrite lookup_app_r by (rewrite length_insert; lia).
      rewrite length_insert, Nat.sub_diag. reflexivity. }
  unfold place at 1. cbn [shape data]. rewrite !length_map, Hlen, Nat.eqb_refl.
  cbn [obj heap fid disk].
  unfold bind at 1. unfold deref at 1. cbn [heap].
  rewrite list_lookup_insert_eq
    by (rewrite length_insert, !length_app; cbn [length]; lia).
  rewrite Hd.
  match goal with
  | |- context [mk_state (obj st) ?h (fid st) (disk st)] => set (h' := h)
  end.
  assert (Hkeep : forall l, l < length (heap st) -> h' !! l = heap st !! l).
  { intros l Hl. subst h'.
    rewrite list_lookup_insert_ne by (rewrite length_app; cbn [length]; lia).
    rewrite list_lookup_insert_ne by lia.
    rewrite <- app_assoc. apply lookup_app_l. exact Hl. }
  match goal with
  | |- context [row _ ?a] => set (a' := a)
  end.
  assert (Ha : shape a' = n :: outer ++ [L]) by exact HsI.
  assert (Hex : 1 <= L -> forall f g j0 j1,
            (0 <= j0 < Z.of_nat n)%Z -> (0 <= j1 < Z.of_nat n)%Z ->
            exists r,
              (let* r0 := lift (row j0 a') in
               lift (try! e0 := extremum_along f (Z.of_nat (S (length outer)) - 1) r0 in
                     try! r1 := row j1 a' in
                     try! e1 := extremum_along g (Z.of_nat (S (length outer)) - 1) r1 in
                     stack [e0; e1]))
                (mk_state (obj st) h' (fid st) (disk st))
              = Ok (r, mk_state (obj st) h' (fid st) (disk st)) /\ shape r = 2 :: outer).
  { intros HL f g j0 j1 H0 H1.
    destruct (extrema_shape f g j0 j1 a' n outer L Ha HL H0 H1) as (r0 & r & Hr0 & Hr & Hs).
    exists r. split; [|exact Hs].
    unfold bind, lift. rewrite Hr0, Hr. reflexivity. }
  assert (Hex0 : L = 0 -> forall f g j0 j1, (0 <= j0 < Z.of_nat n)%Z ->
            (let* r0 := lift (row j0 a') in
             lift (try! e0 := extremum_along f (Z.of_nat (S (length outer)) - 1) r0 in
                   try! r1 := row j1 a' in
                   try! e1 := extremum_along g (Z.of_nat (S (length outer)) - 1) r1 in
                   stack [e0; e1]))
              (mk_state (obj st) h' (fid st) (disk st))
            = Raise ValueError).
  { intros HL f g j0 j1 H0. rewrite HL in Ha.
    destruct (extrema_empty f g j0 j1 a' n outer Ha H0) as (r0 & Hr0 & Hr).
    unfold bind, lift. rewrite Hr0, Hr. reflexivity. }
  intros ->. split.
  - intros HL. destruct Ht as [[Ht Hn2]|[Ht Hn4]]; rewrite Ht.
    + destruct (Hex HL np_nanmin np_nanmax 0%Z 1%Z ltac:(lia) ltac:(lia))
        as (cs & Hcs & Hscs).
      destruct (Hex HL np_nanmax np_nanmin 0%Z 1%Z ltac:(lia) ltac:(lia))
        as (rs & Hrs & Hsrs).
      exists cs, rs. eexists.
      unfold bind at 1. unfold bind at 1. rewrite Hcs.
      unfold bind at 1. rewrite Hrs. unfold ret.
      split; [reflexivity|]. cbn [obj heap]. auto.
    + destruct (Hex HL np_nanmax np_nanmin 0%Z 2%Z ltac:(lia) ltac:(lia))
        as (cs & Hcs & Hscs).
      destruct (Hex HL np_nanmax np_nanmin 1%Z 3%Z ltac:(lia) ltac:(lia))
        as (rs & Hrs & Hsrs).
      exists cs, rs. eexists.
      unfold bind at 1. unfold bind at 1. rewrite Hcs.
      unfold bind at 1. rewrite Hrs. unfold ret.
      split; [reflexivity|]. cbn [obj heap]. auto.
  - intros HL. destruct Ht as [[Ht Hn2]|[Ht Hn4]]; rewrite Ht.
    + unfold bind at 1. unfold bind at 1.
      rewrite (Hex0 HL np_nanmin np_nanmax 0%Z 1%Z ltac:(lia)). reflexivity.
    + unfold bind at 1. unfold bind at 1.
      rewrite (Hex0 HL np_nanmax np_nanmin 0%Z 2%Z ltac:(lia)). reflexivity.
Qed.

End threshold_whole.

Lemma get_Ic_threshold_whole_data_set_witness :
  exists I_cs st',
    get_Ic_threshold (N := Ref.numerics) None (Some 1) 20e-6%float None false st_loaded
    = Ok (Arrays I_cs None, st') /\ shape I_cs = [2] /\ heap st' !! 0 = Some I_2x6.
Proof.
  destruct (get_Ic_threshold_whole_data_set Ref.numerics st_loaded None 1 0 V_2x6 I_2x6
              2 [] 6 20e-6%float None false
              eq_refl eq_refl eq_refl eq_refl eq_refl eq_refl eq_refl
              (or_introl (conj eq_refl (le_n 2))))
    as [Hok _].
  destruct (Hok ltac:(lia)) as (I_cs & I_rs & st' & H & Hs & _ & _ & Hk).
  exists I_cs, st'. split; [exact H|]. split; [exact Hs|].
  rewrite (Hk 0) by (vm_compute; lia). reflexivity.
Defined.

(** ** Ohmic slope correction between two peaks *)

Section two_peaks.
Context (N : Numerics).

(** The branch between two peaks, whichever is the more prominent. *)
Lemma branch_slice_two_peaks (p q : Z) (pa pb : float) (props : gmap string propval) :
  props !! "prominences" = Some (PFloats [pa; pb]) -> (p < q)%Z ->
  branch_slice (Peaks (Ints [p; q]) props) = Ok (Some p, q).
Proof.
  intros Hp Hpq. unfold branch_slice. rewrite Hp.
  unfold argsort. cbn [length seq fold_left insert_sorted nth].
  assert (Hs : sort_Z [q; p] = [p; q] /\ sort_Z [p; q] = [p; q]).
  { unfold sort_Z. cbn [fold_right insert_Z].
    destruct (Z.ltb_spec q p) as [|_]; [lia|].
    destruct (Z.ltb_spec p q) as [_|]; [|lia]. split; reflexivity. }
  destruct (before pb pa); cbn -[sort_Z]; [rewrite (proj2 Hs)|rewrite (proj1 Hs)]; reflexivity.
Qed.

(** X25: the slope correction of a trace with exactly two peaks.  For scan
    dimension 1 and the k-th trace (I1D, V1D, d1D) on which the peak finder
    reports two peaks, at the indices p < q: when the call returns, the line
    was fitted to the samples p, ..., q - 1 of I1D and V1D (from the first
    peak on, up to the sample before the second), and row k of the stored
    V_corr is V1D minus slope * I1D + intercept of that line. *)
Theorem slope_correction_two_peaks (st st' : state) (li lv ld l : loc) (Ia Va da : farray)
    (ri rv rd : list farray) (pf : finder) (kw : gmap string pyval)
    (k : nat) (I1D V1D d1D : farray) (p q : Z) (pa pb : float)
    (props : gmap string propval) :
  self.scan_dim (obj st) = Some 1%Z ->
  heap st !! li = Some Ia -> heap st !! lv = Some Va -> heap st !! ld = Some da ->
  rows Ia = Ok ri -> rows Va = Ok rv -> rows da = Ok rd ->
  zip3 ri rv rd !! k = Some (I1D, V1D, d1D) ->
  call_finder pf (finder_defaults pf (VInt 100) kw) d1D = Ok (Peaks (Ints [p; q]) props) ->
  props !! "prominences" = Some (PFloats [pa; pb]) -> (p < q)%Z ->
  get_2wire_slope_correction (Some li) (Some lv) (Some ld) pf kw st = Ok (l, st') ->
  exists m c corrected rs a,
    lin_fit (py_slice (Some p) q (data I1D)) (py_slice (Some p) q (data V1D)) = Ok (m, c) /\
    nd_map2 PrimFloat.sub V1D
      (nd_map (fun i => PrimFloat.add (PrimFloat.mul m i) c) I1D) = Ok corrected /\
    rs !! k = Some corrected /\
    stack rs = Ok a /\
    heap st' !! l = Some a /\
    self.V_corr (obj st') = Some l.
Proof.
  intros Hd Hi Hv Hdd Hri Hrv Hrd Hk Hf Hp Hpq Hcall.
  rewrite (get_2wire_scan_dim_1 N st li lv ld Ia Va da ri rv rd pf kw Hd Hi Hv Hdd Hri Hrv Hrd)
    in Hcall.
  destruct (rmap _ _) as [rs|] eqn:Hrs; [|discriminate].
  destruct (stack rs) as [a|] eqn:Ha; [|discriminate].
  inversion Hcall; subst l st'; clear Hcall.
  destruct (rmap_ok_lookup _ _ _ k _ Hrs Hk) as (corrected & Hc & Hl).
  cbn [fst snd] in Hc. unfold correct_trace in Hc. rewrite Hf in Hc. cbn [rbind] in Hc.
  rewrite (branch_slice_two_peaks p q pa pb props Hp Hpq) in Hc. cbn [rbind fst snd] in Hc.
  destruct ((ndim I1D =? 1) && (ndim V1D =? 1)); [|discriminate]. cbn [rbind] in Hc.
  destruct (lin_fit _ _) as [[m c]|] eqn:Hfit; [|discriminate]. cbn [rbind fst snd] in Hc.
  exists m, c, corrected, rs, a. repeat split; try assumption.
  - cbn [heap]. rewrite lookup_app_r by lia. rewrite Nat.sub_diag. reflexivity.
  - cbn [obj]. destruct (obj st). reflexivity.
Qed.

End two_peaks.

Lemma slope_correction_two_peaks_witness :
  exists l st' m c corrected (rs : list farray),
    get_2wire_slope_correction (N := Ref.numerics) (Some 0) (Some 1) (Some 2) find_peaks ∅
      st_swing = Ok (l, st') /\
    lin_fit (N := Ref.numerics) [-2; -1; 0]%float [-1; 0; 0]%float = Ok (m, c) /\
    nd_map2 PrimFloat.sub (fvec [-1; -1; -1; 0; 0; 0; 1; 1; 1]%float)
      (nd_map (fun i => PrimFloat.add (PrimFloat.mul m i) c)
              (fvec [-4; -3; -2; -1; 0; 1; 2; 3; 4]%float)) = Ok corrected /\
    rs !! 0 = Some corrected.
Proof.
  destruct (get_2wire_slope_correction (N := Ref.numerics) (Some 0) (Some 1) (Some 2)
              find_peaks ∅ st_swing) as [[l st']|] eqn:Hcall.
  - pose proof (fun props Hf Hp =>
                  slope_correction_two_peaks Ref.numerics st_swing st' 0 1 2 l
                    I_swing V_swing dVdI_swing
                    [fvec [-4; -3; -2; -1; 0; 1; 2; 3; 4]%float;
                     fvec [4; 3; 2; 1; 0; -1; -2; -3; -4]%float]
                    [fvec [-1; -1; -1; 0; 0; 0; 1; 1; 1]%float;
                     fvec [1; 1; 1; 0; 0; 0; -1; -1; -1]%float]
                    [fvec [0; 0; 300; 0; 0; 300; 0; 0; 0]%float;
                     fvec [0; 0; 300; 0; 0; 300; 0; 0; 0]%float]
                    find_peaks ∅ 0
                    (fvec [-4; -3; -2; -1; 0; 1; 2; 3; 4]%float)
                    (fvec [-1; -1; -1; 0; 0; 0; 1; 1; 1]%float)
                    (fvec [0; 0; 300; 0; 0; 300; 0; 0; 0]%float)
                    2%Z 5%Z 300%float 300%float props
                    eq_refl eq_refl eq_refl eq_refl eq_refl eq_refl eq_refl eq_refl
                    Hf Hp ltac:(lia) Hcall) as H.
    destruct (H _ ltac:(vm_compute; reflexivity) ltac:(vm_compute; reflexivity))
      as (m & c & corrected & rs & a & H1 & H2 & H3 & _).
    exists l, st', m, c, corrected, rs. auto.
  - exfalso.
    assert (E : is_ok (get_2wire_slope_correction (N := Ref.numerics) (Some 0) (Some 1)
                         (Some 2) find_peaks ∅ st_swing) = true) by (vm_compute; reflexivity).
    rewrite Hcall in E. discriminate.
Defined.

(** ** Frequency-domain detector on a single trace *)



Section dft_single_trace.
Context (N : Numerics).



End dft_single_trace.


(** ** The classifier: which peak becomes the critical current *)

Lemma first_under_spec (l : list Z) (mask : list bool) (r : Z + bool) :
  first_under (Ints l) mask = Ok r -> length mask = length l ->
  exists k p, r = inl p /\ l !! k = Some p /\ mask !! k = Some true /\
              forall k', k' < k -> mask !! k' = Some false.
Proof.
  unfold first_under. revert mask. induction l as [|z l IH]; intros [|b mask] H Hlen;
    try discriminate.
  cbn [combine List.filter snd] in H. destruct b.
  - cbn [map fst] in H. inversion H. exists 0, z. repeat split; auto. intros k' Hk'. lia.
  - cbn [length] in Hlen.
    destruct (IH mask H ltac:(lia)) as (k & p & Hr & Hl & Hm & Hfirst).
    exists (S k), p. repeat split; auto.
    intros [|k'] Hk'; [reflexivity|]. apply Hfirst. lia.
Qed.

Section classifier.
Context (N : Numerics).

Lemma jump_mask_spec (critical : bool) (tol_offset V_offset : float) (w2 : nat)
    (V1D : farray) (idx : list Z) (mask : list bool) :
  jump_mask critical tol_offset V_offset w2 V1D (Ints idx) = Ok mask ->
  length mask = length idx /\
  forall k p, idx !! k = Some p ->
    exists m, mask !! k = Some m /\
              jump_at critical tol_offset V_offset w2 (data V1D) p = Ok m.
Proof.
  unfold jump_mask. destruct (ndim V1D =? 1); [|discriminate]. cbn [rbind as_ints].
  unfold window_means.
  match goal with
  | |- context [rbind (rmap ?f idx) _] => destruct (rmap f idx) as [before|] eqn:Hb
  end; [|discriminate]. cbn [rbind].
  match goal with
  | |- context [rbind (rmap ?f idx) _] => destruct (rmap f idx) as [after|] eqn:Ha
  end; [|discriminate]. cbn [rbind].
  intros H. inversion H; subst mask; clear H.
  pose proof (rmap_length _ _ _ Hb) as Hlb. pose proof (rmap_length _ _ _ Ha) as Hla.
  split.
  - rewrite length_map, length_combine. lia.
  - intros k p Hk.
    destruct (rmap_ok_lookup _ _ _ k p Hb Hk) as (b & Hwb & Hkb).
    destruct (rmap_ok_lookup _ _ _ k p Ha Hk) as (a & Hwa & Hka).
    eexists. split.
    + rewrite list_lookup_fmap.
      assert (Hc : combine before after !! k = Some (b, a)).
      { clear - Hkb Hka. revert after k Hkb Hka.
        induction before as [|x before IH]; intros [|y after] [|k] Hkb Hka;
          try discriminate; cbn in *.
        - congruence.
        - apply IH; assumption. }
      rewrite Hc. reflexivity.
    + unfold jump_at, window_mean. rewrite Hwb. cbn [rbind]. rewrite Hwa. cbn [rbind fst snd].
      destruct critical; reflexivity.
Qed.

(** The current of one slice: at the first peak, in the order of the peak
    finder, that is a jump of the kind asked for. *)
Lemma classify_slice_spec (critical shift : bool) (tol_offset V_offset : float) (w2 : nat)
    (I1D V1D : farray) (idx : list Z) (props : gmap string propval) (pick : picked) :
  classify_slice critical shift tol_offset V_offset w2 I1D V1D (Peaks (Ints idx) props)
  = Ok pick ->
  ndim I1D = 1 ->
  exists k p x,
    idx !! k = Some p /\
    jump_at critical tol_offset V_offset w2 (data V1D) p = Ok true /\
    (forall k' p', k' < k -> idx !! k' = Some p' ->
                   jump_at critical tol_offset V_offset w2 (data V1D) p' = Ok false) /\
    entry I1D (if shift then p + 1 else p)%Z = Some x /\
    pick = PickScalar x.
Proof.
  unfold classify_slice. intros H Hn.
  destruct (jump_mask _ _ _ _ _ _) as [mask|] eqn:Hm; [|discriminate]. cbn [rbind] in H.
  destruct (first_under _ mask) as [r|] eqn:Hf; [|discriminate]. cbn [rbind] in H.
  destruct (jump_mask_spec _ _ _ _ _ _ _ Hm) as [Hlen Hmask].
  destruct (first_under_spec idx mask r Hf Hlen) as (k & p & -> & Hk & Hmk & Hfirst).
  assert (Hcur : forall z, current_at I1D (inl z) = Ok pick ->
                           exists x, entry I1D z = Some x /\ pick = PickScalar x).
  { intros z. unfold current_at, entry. rewrite Hn. cbn [Nat.eqb].
    destruct (py_index _ z) as [i|]; [|discriminate]. cbn [rbind].
    destruct (data I1D !! i) as [x|]; [|discriminate].
    intros E. inversion E. eauto. }
  assert (Hx : exists x, entry I1D (if shift then p + 1 else p)%Z = Some x
                         /\ pick = PickScalar x).
  { destruct shift; apply Hcur; exact H. }
  destruct Hx as (x & Hx & Hpick).
  exists k, p, x. split; [exact Hk|]. split; [|split; [|split; assumption]].
  - destruct (Hmask k p Hk) as (m & Hm' & Hj). congruence.
  - intros k' p' Hk' Hp'. destruct (Hmask k' p' Hp') as (m & Hm' & Hj).
    rewrite (Hfirst k' Hk') in Hm'. congruence.
Qed.

End classifier.

Section classifier_1D.
Context (N : Numerics).

Lemma lookup_tail4 {A} (h : list A) (a b c d : A) :
  (h ++ [a; b; c; d]) !! length h = Some a /\
  (h ++ [a; b; c; d]) !! S (length h) = Some b /\
  (h ++ [a; b; c; d]) !! S (S (length h)) = Some c /\
  (h ++ [a; b; c; d]) !! S (S (S (length h))) = Some d.
Proof.
  repeat split; rewrite lookup_app_r by lia.
  - rewrite Nat.sub_diag. reflexivity.
  - replace (S (length h) - length h) with 1 by lia. reflexivity.
  - replace (S (S (length h)) - length h) with 2 by lia. reflexivity.
  - replace (S (S (S (length h))) - length h) with 3 by lia. reflexivity.
Qed.

Lemma deref_run (st : state) (l : loc) (a : farray) :
  heap st !! l = Some a -> deref l st = Ok (a, st).
Proof. intros H. unfold deref. rewrite H. reflexivity. Qed.

(** The classifier on a 1D half-swing data set with a known voltage
    offset: the maps over the slices that give I_cs and I_rs. *)
Lemma classify_jump_1D_halfswing (st st' : state) (frame : list (string * option yarray))
    (li lv : loc) (Ia Va : farray) (Y : yarray) (ps : list (nest found))
    (tol_offset : float) (window : Z) (Ir : bool) (vo : float)
    (I_cs : farray) (I_rs : option farray) (props : nest (gmap string propval)) :
  self.scan_dim (obj st) = Some 1%Z -> self.sweeptype (obj st) = Some 0%Z ->
  self.V_offset (obj st) = Some vo ->
  heap st !! li = Some Ia -> heap st !! lv = Some Va ->
  _classify_jump frame (Some li) lv Y (Nest ps) tol_offset window Ir st
  = Ok (Jumps I_cs I_rs props, st') ->
  exists cs rs a,
    over_slices 1 (classify_slice true false tol_offset vo (Z.to_nat (window / 2)))
      Ia Va (Nest ps) = Ok cs /\
    to_array cs = Ok I_cs /\
    over_slices 1 (classify_slice false true tol_offset vo (Z.to_nat (window / 2)))
      Ia Va (Nest ps) = Ok rs /\
    to_array rs = Ok a /\
    I_rs = (if Ir then Some a else None) /\
    obj st' = obj st /\
    forall l, l < length (heap st) -> heap st' !! l = heap st !! l.
Proof.
  intros Hd Ht Ho Hi Hv Hcall. unfold _classify_jump in Hcall.
  destruct (List.filter _ frame) as [|kv fr]; [discriminate|].
  unfold bind at 1 in Hcall. unfold ret at 1 in Hcall.
  unfold bind at 1 in Hcall. unfold get_self at 1 in Hcall. rewrite Ho in Hcall.
  unfold bind at 1 in Hcall. unfold ret at 1 in Hcall.
  unfold bind at 1 in Hcall. unfold get_self at 1 in Hcall.
  unfold bind at 1 in Hcall. unfold deref at 1 in Hcall. rewrite Hv in Hcall.
  cbv zeta in Hcall. rewrite Ht, Ho, Hd in Hcall.
  unfold bind at 1 in Hcall. unfold lift at 1 in Hcall. cbn [nest_list] in Hcall.
  unfold bind at 1 in Hcall. rewrite (np_copy_run st lv Va Hv) in Hcall.
  unfold bind at 1 in Hcall. unfold copy_or_none at 1 in Hcall.
  rewrite (np_copy_run _ li Ia) in Hcall
    by (cbn [heap]; rewrite lookup_app_l; [exact Hi|apply lookup_lt_Some in Hi; exact Hi]).
  cbn [obj heap fid disk] in Hcall.
  unfold bind at 1 in Hcall.
  rewrite (np_copy_run _ lv Va) in Hcall
    by (cbn [heap]; rewrite <- app_assoc; rewrite lookup_app_l;
        [exact Hv|apply lookup_lt_Some in Hv; exact Hv]).
  cbn [obj heap fid disk] in Hcall.
  unfold bind at 1 in Hcall. unfold copy_or_none at 1 in Hcall.
  rewrite (np_copy_run _ li Ia) in Hcall
    by (cbn [heap]; rewrite <- !app_assoc; rewrite lookup_app_l;
        [exact Hi|apply lookup_lt_Some in Hi; exact Hi]).
  cbn [obj heap fid disk] in Hcall.
  rewrite !length_app in Hcall. cbn [length] in Hcall.
  rewrite <- !app_assoc in Hcall. cbn [app] in Hcall.
  replace (length (heap st) + 1) with (S (length (heap st))) in Hcall by lia.
  replace (S (length (heap st)) + 1) with (S (S (length (heap st)))) in Hcall by lia.
  replace (S (S (length (heap st))) + 1) with (S (S (S (length (heap st))))) in Hcall by lia.
  match type of Hcall with bind _ _ ?s = _ =>
    destruct (lookup_tail4 (heap st) Va Ia Va Ia) as (L0 & L1 & L2 & L3);
    change (heap st ++ [Va; Ia; Va; Ia]) with (heap s) in L0, L1, L2, L3
  end.
  unfold bind at 1 in Hcall. rewrite (deref_run _ _ _ L0) in Hcall.
  unfold bind at 1 in Hcall. rewrite (deref_run _ _ _ L1) in Hcall.
  unfold bind at 1 in Hcall. rewrite (deref_run _ _ _ L2) in Hcall.
  unfold bind at 1 in Hcall. rewrite (deref_run _ _ _ L3) in Hcall.
  unfold bind at 1 in Hcall.
  rewrite (deref_run _ li Ia) in Hcall
    by (cbn [heap]; rewrite lookup_app_l; [exact Hi|apply lookup_lt_Some in Hi; exact Hi]).
  change ((1 <=? 1)%Z && (1 <=? 3)%Z) with true in Hcall. cbv iota in Hcall.
  change (Z.to_nat 1) with 1 in Hcall. change (negb (1 =? 3)%Z) with true in Hcall.
  unfold bind at 1 in Hcall. unfold lift at 1 in Hcall.
  destruct (over_slices 1 (classify_slice true false _ _ _) Ia Va (Nest ps)) as [cs|] eqn:Hcs;
    [|discriminate].
  unfold bind at 1 in Hcall. unfold lift at 1 in Hcall.
  destruct (to_array cs) as [a_cs|] eqn:Hacs; [|discriminate].
  unfold bind at 1 in Hcall. unfold lift at 1 in Hcall.
  destruct (over_slices 1 (classify_slice false true _ _ _) Ia Va (Nest ps)) as [rs|] eqn:Hrs;
    [|discriminate].
  unfold bind at 1 in Hcall. unfold lift at 1 in Hcall.
  destruct (to_array rs) as [a_rs|] eqn:Hars; [|discriminate].
  unfold bind at 1 in Hcall. unfold lift at 1 in Hcall.
  destruct (records 1 _ Ia Va Y (Nest ps)) as [pr|]; [|discriminate].
  unfold ret in Hcall. inversion Hcall; subst.
  exists cs, rs, a_rs. repeat split; auto.
  cbn [heap]. intros l Hl. apply lookup_app_l. exact Hl.
Qed.


Lemma zip3_lookup {A B C} (a : list A) (b : list B) (c : list C) (j : nat) x y z :
  a !! j = Some x -> b !! j = Some y -> c !! j = Some z ->
  zip3 a b c !! j = Some (x, y, z).
Proof.
  unfold zip3. revert a b c.
  induction j as [|j IH]; intros [|a0 a] [|b0 b] [|c0 c] Ha Hb Hc;
    try discriminate; cbn in *.
  - congruence.
  - apply IH; assumption.
Qed.

(** What np.array gets from a slice with a 1-D current: a float, or an
    array with at least one axis. *)
Lemma classify_slice_kind (critical shift : bool) (tol_offset V_offset : float) (w2 : nat)
    (I1D V1D : farray) (pk : found) (pick : picked) (r : farray) :
  classify_slice critical shift tol_offset V_offset w2 I1D V1D pk = Ok pick ->
  ndim I1D = 1 -> to_array (Leaf pick) = Ok r ->
  (exists x, r = scalar x) \/ shape r <> [].
Proof.
  unfold classify_slice. intros H Hn Hr. destruct pk as [peak pr|]; [|discriminate].
  destruct (jump_mask _ _ _ _ _ _) as [mask|]; [|discriminate]. cbn [rbind] in H.
  destruct (first_under _ mask) as [k|]; [|discriminate]. cbn [rbind] in H.
  assert (Hz : forall z, current_at I1D (inl z) = Ok pick -> exists x, r = scalar x).
  { intros z. unfold current_at. rewrite Hn. cbn [Nat.eqb].
    destruct (py_index _ z) as [i|]; [|discriminate]. cbn [rbind].
    destruct (data I1D !! i) as [x|]; [|discriminate].
    intros E. inversion E; subst pick. cbn in Hr. inversion Hr. eauto. }
  destruct shift.
  - left. destruct k as [z|b]; cbn [succ_index] in H; eapply Hz; exact H.
  - destruct k as [z|b].
    + left. eapply Hz; exact H.
    + right. cbn [current_at] in H. inversion H; subst pick. cbn in Hr.
      inversion Hr; subst r. destruct b; discriminate.
Qed.

Lemma concat_scalars (rs : list farray) (j : nat) (x : float) :
  Forall (fun r => exists y, r = scalar y) rs -> rs !! j = Some (scalar x) ->
  concat (map data rs) !! j = Some x.
Proof.
  intros HF. revert j. induction HF as [|r rs [y ->] _ IH]; intros j Hj; [discriminate|].
  destruct j as [|j]; cbn in *.
  - inversion Hj. reflexivity.
  - apply IH. exact Hj.
Qed.

Lemma stack_scalar_lookup (rs : list farray) (a : farray) (j : nat) (x : float) :
  stack rs = Ok a ->
  Forall (fun r => (exists y, r = scalar y) \/ shape r <> []) rs ->
  rs !! j = Some (scalar x) -> data a !! j = Some x.
Proof.
  intros Hs HF Hj. destruct rs as [|r0 rs']; [discriminate|].
  unfold stack in Hs.
  destruct (forallb _ _) eqn:Hall; [|discriminate]. inversion Hs; subst a. cbn [data].
  rewrite forallb_forall in Hall.
  assert (H0 : shape r0 = []).
  { apply list_elem_of_lookup_2 in Hj. apply list_elem_of_In in Hj.
    specialize (Hall _ Hj). unfold same_shape in Hall.
    apply bool_decide_eq_true in Hall. symmetry. exact Hall. }
  apply (concat_scalars (r0 :: rs')); [|exact Hj].
  apply Forall_forall. intros r Hr.
  rewrite Forall_forall in HF. destruct (HF r Hr) as [Hy|Hne]; [exact Hy|].
  exfalso. apply Hne. apply list_elem_of_In in Hr. specialize (Hall _ Hr).
  unfold same_shape in Hall. apply bool_decide_eq_true in Hall. congruence.
Qed.

(** The array of currents the classifier builds from the slices of a 2-D
    current: entry j is the current of slice j at its first jump. *)
Lemma slice_currents (critical shift : bool) (tol_offset vo : float) (w2 : nat)
    (Ia Va a : farray) (ps : list (nest found)) (cs : nest picked)
    (ir vr : list farray) (j : nat) (I1D V1D : farray) (idx : list Z)
    (pr : gmap string propval) :
  over_slices 1 (classify_slice critical shift tol_offset vo w2) Ia Va (Nest ps) = Ok cs ->
  to_array cs = Ok a -> ndim Ia = 2 ->
  rows Ia = Ok ir -> rows Va = Ok vr ->
  ir !! j = Some I1D -> vr !! j = Some V1D -> ps !! j = Some (Leaf (Peaks (Ints idx) pr)) ->
  exists p x, first_jump critical tol_offset vo w2 (data V1D) idx p /\
              entry I1D (if shift then p + 1 else p)%Z = Some x /\
              data a !! j = Some x.
Proof.
  intros Hcs Ha Hn Hir Hvr Hi Hv Hp. cbn [over_slices] in Hcs.
  rewrite Hir, Hvr in Hcs. cbn [rbind] in Hcs.
  destruct (rmap _ (zip3 ir vr ps)) as [l|] eqn:Hl; [|discriminate]. cbn [rbind] in Hcs.
  inversion Hcs; subst cs. cbn [to_array] in Ha.
  destruct (rmap to_array l) as [rs|] eqn:Hrs; [|discriminate]. cbn [rbind] in Ha.
  assert (Hrow : forall r, In r ir -> ndim r = 1).
  { intros r Hr. unfold rows in Hir. destruct (shape Ia) as [|n sh] eqn:Hsh; [discriminate|].
    inversion Hir; subst ir. apply in_map_iff in Hr. destruct Hr as (c & <- & _).
    unfold ndim in *. rewrite Hsh in Hn. cbn in *. lia. }
  assert (HF : Forall (fun r => (exists y, r = scalar y) \/ shape r <> []) rs).
  { apply Forall_forall. intros r Hr.
    apply list_elem_of_lookup_1 in Hr. destruct Hr as [k Hk].
    assert (Hlk : k < length l).
    { rewrite <- (rmap_length _ _ _ Hrs). apply lookup_lt_Some in Hk. exact Hk. }
    destruct (lookup_lt_is_Some_2 l k Hlk) as [t Ht].
    destruct (rmap_ok_lookup _ _ _ _ _ Hrs Ht) as (r' & Hr' & Hk').
    assert (r' = r) by congruence. subst r'.
    assert (Hzk : k < length (zip3 ir vr ps)).
    { rewrite <- (rmap_length _ _ _ Hl). exact Hlk. }
    destruct (lookup_lt_is_Some_2 _ k Hzk) as [[[i0 v0] p0] Hz].
    destruct (rmap_ok_lookup _ _ _ _ _ Hl Hz) as (t' & Ht' & Htk).
    assert (t' = t) by congruence. subst t'. cbn [fst snd] in Ht'.
    destruct p0 as [pk|]; [|discriminate]. cbn [over_slices] in Ht'.
    destruct (classify_slice _ _ _ _ _ i0 v0 pk) as [pick|] eqn:Hpick; [|discriminate].
    cbn [rbind] in Ht'. inversion Ht'; subst t.
    apply (classify_slice_kind _ _ _ _ _ _ _ _ _ _ Hpick); [|exact Hr'].
    apply Hrow. unfold zip3 in Hz.
    apply list_elem_of_lookup_2 in Hz. apply list_elem_of_In in Hz.
    apply in_combine_l in Hz. apply in_combine_l in Hz. exact Hz. }
  destruct (rmap_ok_lookup _ _ _ _ _ Hl (zip3_lookup _ _ _ _ _ _ _ Hi Hv Hp))
    as (t & Ht & Htj).
  cbn [fst snd over_slices] in Ht.
  destruct (classify_slice _ _ _ _ _ I1D V1D _) as [pick|] eqn:Hpick; [|discriminate].
  cbn [rbind] in Ht. inversion Ht; subst t.
  destruct (classify_slice_spec N _ _ _ _ _ _ _ _ _ _ Hpick) as (k & p & x & Hk & Hj & Hfirst & Hx & ->).
  { apply Hrow. apply list_elem_of_lookup_2 in Hi. apply list_elem_of_In in Hi. exact Hi. }
  destruct (rmap_ok_lookup _ _ _ _ _ Hrs Htj) as (r & Hr & Hrj).
  cbn in Hr. inversion Hr; subst r.
  exists p, x. split; [exists k; auto|]. split; [exact Hx|].
  eapply stack_scalar_lookup; eauto.
Qed.

End classifier_1D.

(** X27. On a 1D half-swing data set with a known voltage offset, entry j
    of the critical currents is the current of sweep j at the first peak, in
    the order of the peak finder, before which the mean voltage lies inside
    the tolerance around the offset and after which it lies outside; entry j
    of the retrapping currents, when asked for, is the current one sample
    after the first peak at which it is the other way round.  The context is
    left as it was. *)
Theorem classify_jump_first_jumps (N : Numerics) (st st' : state)
    (frame : list (string * option yarray)) (li lv : loc) (Ia Va : farray) (Y : yarray)
    (ps : list (nest found)) (tol_offset : float) (window : Z) (Ir : bool) (vo : float)
    (I_cs : farray) (I_rs : option farray) (props : nest (gmap string propval))
    (ir vr : list farray) (j : nat) (I1D V1D : farray) (idx : list Z)
    (pr : gmap string propval) :
  self.scan_dim (obj st) = Some 1%Z -> self.sweeptype (obj st) = Some 0%Z ->
  self.V_offset (obj st) = Some vo ->
  heap st !! li = Some Ia -> heap st !! lv = Some Va -> ndim Ia = 2 ->
  rows Ia = Ok ir -> rows Va = Ok vr ->
  ir !! j = Some I1D -> vr !! j = Some V1D -> ps !! j = Some (Leaf (Peaks (Ints idx) pr)) ->
  _classify_jump frame (Some li) lv Y (Nest ps) tol_offset window Ir st
  = Ok (Jumps I_cs I_rs props, st') ->
  (exists p x, first_jump true tol_offset vo (Z.to_nat (window / 2)) (data V1D) idx p /\
               entry I1D p = Some x /\ data I_cs !! j = Some x) /\
  (Ir = true ->
   exists a p x, I_rs = Some a /\
                 first_jump false tol_offset vo (Z.to_nat (window / 2)) (data V1D) idx p /\
                 entry I1D (p + 1)%Z = Some x /\ data a !! j = Some x) /\
  obj st' = obj st.
Proof.
  intros Hd Ht Ho Hi Hv Hn Hir Hvr Hij Hvj Hpj Hcall.
  destruct (classify_jump_1D_halfswing N _ _ _ _ _ _ _ _ _ _ _ _ _ _ _ _ Hd Ht Ho Hi Hv Hcall)
    as (cs & rs & a & Hcs & Hacs & Hrs & Hars & HIr & Hobj & _).
  split; [|split; [|exact Hobj]].
  - exact (slice_currents N true false _ _ _ _ _ _ _ _ _ _ _ _ _ _ _
             Hcs Hacs Hn Hir Hvr Hij Hvj Hpj).
  - intros ->. subst I_rs.
    destruct (slice_currents N false true _ _ _ _ _ _ _ _ _ _ _ _ _ _ _
                Hrs Hars Hn Hir Hvr Hij Hvj Hpj) as (p & x & H1 & H2 & H3).
    exists a, p, x. auto.
Qed.

Lemma classify_jump_first_jumps_witness :
  exists I_cs a props st',
    _classify_jump (N := Ref.numerics)
      [("I", Some (YReal I_swing)); ("V", Some (YReal V_swing));
       ("dVdI", Some (YReal dVdI_swing))]
      (Some 0) 1 (YReal dVdI_swing)
      (Nest [Leaf (Peaks (Ints [2; 5]%Z) ∅); Leaf (Peaks (Ints [2; 5]%Z) ∅)])
      0.5%float 2%Z true st_swing_offset
    = Ok (Jumps I_cs (Some a) props, st') /\
    data I_cs !! 1 = Some (-1)%float /\ data a !! 1 = Some 1%float.
Proof.
  destruct (_classify_jump (N := Ref.numerics)
      [("I", Some (YReal I_swing)); ("V", Some (YReal V_swing));
       ("dVdI", Some (YReal dVdI_swing))]
      (Some 0) 1 (YReal dVdI_swing)
      (Nest [Leaf (Peaks (Ints [2; 5]%Z) ∅); Leaf (Peaks (Ints [2; 5]%Z) ∅)])
      0.5%float 2%Z true st_swing_offset) as [[[I_cs I_rs props|props] st']|e] eqn:Hcall.
  - pose proof (fun pr Hpj =>
        classify_jump_first_jumps Ref.numerics st_swing_offset st' _ 0 1 I_swing V_swing _
          _ 0.5%float 2%Z true 0%float I_cs I_rs props _ _ 1
          (mk_nd [9] [4; 3; 2; 1; 0; -1; -2; -3; -4]%float)
          (mk_nd [9] [1; 1; 1; 0; 0; 0; -1; -1; -1]%float) [2; 5]%Z pr
          eq_refl eq_refl eq_refl eq_refl eq_refl eq_refl eq_refl eq_refl eq_refl eq_refl
          Hpj Hcall) as H.
    destruct (H _ eq_refl) as ((p & x & (k & Hk & Hjump & Hfirst) & Hx & Hc) & Hr & _).
    destruct (Hr eq_refl) as (a & p' & x' & -> & (k' & Hk' & Hjump' & Hfirst') & Hx' & Ha).
    exists I_cs, a, props, st'. split; [reflexivity|].
    rewrite Hc, Ha. clear Hcall H Hr Hc Ha.
    destruct k as [|[|[|k]]]; cbn in Hk; try discriminate;
      inversion Hk; subst p; vm_compute in Hjump; try discriminate.
    destruct k' as [|[|[|k']]]; cbn in Hk'; try discriminate;
      inversion Hk'; subst p'; vm_compute in Hjump'; try discriminate.
    vm_compute in Hx, Hx'. split; congruence.
  - exfalso. vm_compute in Hcall. discriminate.
  - exfalso. vm_compute in Hcall. discriminate.
Defined.

(** ** The derivative load computes when none was stored *)

(** C8: the fallback of load differentiates the rows of self.I and self.V
    before they are assigned.  On the measurement of two sweeps of 15 points
    on the line V = 2 I, stored without derivatives, load returns, and
    - whatever the memory np.empty finds, row j of self.dVdI is
      get_dydx(x, y) of row j of that memory, not of the loaded traces;
    - on a memory of zeros every entry of self.dVdI is NaN (0/0);
    - the derivative of the loaded traces, as get_dydx computes it from
      self.I[0] and self.V[0] after load, is 2 throughout.
    On the measurement with sweeps of three and two points, asked for a
    folder that holds no derivative, load raises TypeError: the filter
    refuses the short rows and the handler of get_dydx fails. *)
Theorem load_derives_from_unassigned_rows :
  stored bare_file "entry/analysis0/dvdi_0" = None /\
  stored bare_file "entry/analysis0/dvdi_1" = None /\
  (forall mem : loc -> nat -> float,
      exists d0 d1,
        returned (get_dydx (N := numerics_on_memory mem)
                    (fvec (map (mem 1) (seq 0 15))) (Some (fvec (map (mem 0) (seq 0 15))))
                    savgol_filter ∅ st_bare) = Some d0 /\
        returned (get_dydx (N := numerics_on_memory mem)
                    (fvec (map (mem 1) (seq 15 15))) (Some (fvec (map (mem 0) (seq 15 15))))
                    savgol_filter ∅ st_bare) = Some d1 /\
        dVdI_after (load (N := numerics_on_memory mem) "BARE" (Some "analysis0") st_bare)
        = Some (mk_nd [2; 15] (data d0 ++ data d1))) /\
  dVdI_after (load (N := Ref.numerics) "BARE" (Some "analysis0") st_bare)
  = Some (mk_nd [2; 15] (repeat nan 30)) /\
  (exists st' x y,
      load (N := Ref.numerics) "BARE" (Some "analysis0") st_bare = Ok (tt, st') /\
      loaded_row self.I 0 st' = Some x /\ data x = ramp_up /\
      loaded_row self.V 0 st' = Some y /\ data y = map (PrimFloat.mul 2) ramp_up /\
      returned (get_dydx (N := Ref.numerics) y (Some x) savgol_filter ∅ st')
      = Some (fvec (repeat 2%float 15))) /\
  load (N := Ref.numerics) "RAGGED" (Some "other") st_ragged = Raise TypeError.
Proof.
  split; [vm_compute; reflexivity|]. split; [vm_compute; reflexivity|]. split.
  - intros mem. eexists. eexists.
    split; [vm_compute; reflexivity|]. split; [vm_compute; reflexivity|].
    vm_compute. reflexivity.
  - split; [vm_compute; reflexivity|]. split; [|vm_compute; reflexivity].
    destruct (load (N := Ref.numerics) "BARE" (Some "analysis0") st_bare)
      as [[[] st']|e] eqn:Hload; [|vm_compute in Hload; discriminate].
    exists st'. vm_compute in Hload. inversion Hload; subst st'; clear Hload.
    eexists. eexists.
    split; [reflexivity|]. split; [vm_compute; reflexivity|].
    split; [vm_compute; reflexivity|]. split; [vm_compute; reflexivity|].
    split; vm_compute; reflexivity.
Qed.
